(** * Subtitle extractor: a shallow embedding of [extract_subtitles.py]

    The development follows the source file top-down: Python string and
    [os.path] helpers, the [SUBTITLE_FORMATS] table, the [SubtitleExtractor]
    class (counters, cancellation flag, probe and extraction adapters) and
    [SubtitleExtractorGUI.run_extraction], the worker that drives a batch.

    Everything the program obtains from its surroundings (directory walks,
    the two external tools, the file-system tests, the Cancel button pressed
    on the GUI thread) is supplied by an [environment]; every theorem
    quantifies over all environments.  Paths follow [posixpath].

    A Python [str] is kept as the bytes of its UTF-8 encoding.  The
    separators and suffixes the program looks for are ASCII, so the tests
    on bytes are the tests on characters; [str.lower] and [str.strip],
    which depend on the Unicode tables, are taken from the environment and
    known on ASCII text only. *)

From Stdlib Require Import ZArith Lia Ascii String.
From stdpp Require Import base option list gmap strings pretty.

Local Open Scope string_scope.
Local Open Scope list_scope.

(** ** Python string operations *)

Module PyStr.

Definition is_upper (c : ascii) : bool :=
  let n := nat_of_ascii c in (65 <=? n)%nat && (n <=? 90)%nat.

Definition lower_char (c : ascii) : ascii :=
  if is_upper c then ascii_of_nat (nat_of_ascii c + 32) else c.

(** ASCII text: every byte is below 128. *)
Definition is_ascii_char (c : ascii) : bool := (nat_of_ascii c <? 128)%nat.

Fixpoint is_ascii (s : string) : bool :=
  match s with
  | EmptyString => true
  | String c r => is_ascii_char c && is_ascii r
  end.

(** What [s.lower()] is on ASCII text: the letters A-Z are mapped, every
    other byte is kept.  (On other text [str.lower] also maps letters
    outside this range; the program's calls go through [str_lower] of the
    environment.) *)
Fixpoint lower (s : string) : string :=
  match s with
  | EmptyString => EmptyString
  | String c r => String (lower_char c) (lower r)
  end.

(** [s.startswith(p)] *)
Fixpoint startswith (s p : string) {struct p} : bool :=
  match p, s with
  | EmptyString, _ => true
  | String _ _, EmptyString => false
  | String a p', String b s' => if Ascii.eqb a b then startswith s' p' else false
  end.

(** [s.endswith(p)] for a single suffix. *)
Fixpoint endswith (s p : string) : bool :=
  if String.eqb s p then true
  else match s with
       | EmptyString => false
       | String _ r => endswith r p
       end.

(** [s.endswith(ps)] for a tuple of suffixes. *)
Definition endswith_any (s : string) (ps : list string) : bool :=
  existsb (endswith s) ps.

(** [p in s] for strings: substring test. *)
Fixpoint contains (s p : string) : bool :=
  if startswith s p then true
  else match s with
       | EmptyString => false
       | String _ r => contains r p
       end.

(** [''.join(lines)] *)
Definition join_lines (lines : list string) : string :=
  fold_right String.append EmptyString lines.

(** [s.rstrip('/')] *)
Fixpoint rstrip_sep (s : string) : string :=
  match s with
  | EmptyString => EmptyString
  | String c r =>
      match rstrip_sep r with
      | EmptyString => if Ascii.eqb c "/" then EmptyString else String c EmptyString
      | r' => String c r'
      end
  end.

(** [(s[:i], s[i:])] with [i = s.rfind('/') + 1]. *)
Fixpoint rsplit_sep (s : string) : string * string :=
  match s with
  | EmptyString => (EmptyString, EmptyString)
  | String c r =>
      match rsplit_sep r with
      | (EmptyString, t) =>
          if Ascii.eqb c "/" then (String c EmptyString, t)
          else (EmptyString, String c t)
      | (h, t) => (String c h, t)
      end
  end.

(** [(s[:i], s[i:])] with [i = s.rfind('.')], when there is a dot. *)
Fixpoint rsplit_dot (s : string) : option (string * string) :=
  match s with
  | EmptyString => None
  | String c r =>
      match rsplit_dot r with
      | Some (a, b) => Some (String c a, b)
      | None => if Ascii.eqb c "." then Some (EmptyString, s) else None
      end
  end.

(** Whether ['/'] occurs in [s]. *)
Fixpoint has_sep (s : string) : bool :=
  match s with
  | EmptyString => false
  | String c r => Ascii.eqb c "/" || has_sep r
  end.

Fixpoint all_dots (s : string) : bool :=
  match s with
  | EmptyString => true
  | String c r => Ascii.eqb c "." && all_dots r
  end.

End PyStr.

(** ** More Python text operations *)

Module PyText.

(** [c.isspace()] for an ASCII character. *)
Definition is_space (c : ascii) : bool :=
  let n := nat_of_ascii c in
  ((9 <=? n)%nat && (n <=? 13)%nat) || ((28 <=? n)%nat && (n <=? 32)%nat).

(** What [s.lstrip()] is on ASCII text. *)
Fixpoint lstrip (s : string) : string :=
  match s with
  | EmptyString => EmptyString
  | String c r => if is_space c then lstrip r else s
  end.

(** What [s.rstrip()] is on ASCII text. *)
Fixpoint rstrip (s : string) : string :=
  match s with
  | EmptyString => EmptyString
  | String c r =>
      match rstrip r with
      | EmptyString => if is_space c then EmptyString else String c EmptyString
      | r' => String c r'
      end
  end.

(** What [s.strip()] is on ASCII text.  (On other text [str.strip] also
    removes white space outside this range; the program's call goes
    through [str_strip] of the environment.) *)
Definition strip (s : string) : string := rstrip (lstrip s).

(** Whether an upper-case ASCII letter occurs in [s]. *)
Fixpoint has_upper (s : string) : bool :=
  match s with
  | EmptyString => false
  | String c r => PyStr.is_upper c || has_upper r
  end.

(** [sep.join(items)] *)
Fixpoint join (sep : string) (items : list string) : string :=
  match items with
  | [] => EmptyString
  | [x] => x
  | x :: rest => x +:+ sep +:+ join sep rest
  end.

End PyText.

(** ** [os.path] (the [posixpath] flavour) *)

Module os_path.

Definition basename (p : string) : string := snd (PyStr.rsplit_sep p).

Definition dirname (p : string) : string :=
  let head := fst (PyStr.rsplit_sep p) in
  match PyStr.rstrip_sep head with
  | EmptyString => head          (* empty, or made of separators only *)
  | stripped => stripped
  end.

(** [genericpath._splitext]: the extension starts at the last dot of the
    last component, unless only dots precede it there. *)
Definition splitext (p : string) : string * string :=
  let '(head, tail) := PyStr.rsplit_sep p in
  match PyStr.rsplit_dot tail with
  | Some (stem, ext) =>
      if PyStr.all_dots stem then (p, EmptyString)
      else (head +:+ stem, ext)
  | None => (p, EmptyString)
  end.

(** [os.path.join(a, b)] with two arguments. *)
Definition join (a b : string) : string :=
  if PyStr.startswith b "/" then b
  else if String.eqb a EmptyString || PyStr.endswith a "/" then a +:+ b
  else a +:+ "/" +:+ b.

End os_path.

(** ** The format table *)

Record format_info := {
  extension : string;
  ffmpeg_format : string;
  description : string
}.

Definition SUBTITLE_FORMATS : gmap string format_info :=
  <["SRT" := {| extension := "srt"; ffmpeg_format := "srt";
                description := "SubRip Text" |}]>
  (<["VobSub" := {| extension := "idx"; ffmpeg_format := "dvdsub";
                    description := "DVD Subtitles" |}]>
  (<["ASS" := {| extension := "ass"; ffmpeg_format := "ass";
                 description := "Advanced SubStation Alpha" |}]>
  (<["WebVTT" := {| extension := "vtt"; ffmpeg_format := "webvtt";
                    description := "Web Video Text Tracks" |}]> ∅))).


(** ** Data model *)

(** The [SubtitleExtractor] instance attributes. *)
Record extractor := {
  cancel_flag : bool;
  total_streams : nat;
  processed_streams : nat;
  successful_extractions : nat;
  failed_extractions : nat;
  skipped_extractions : nat
}.

(** [SubtitleExtractor.__init__] (the callback is the trace, see below). *)
Definition init_extractor : extractor :=
  {| cancel_flag := false; total_streams := 0; processed_streams := 0;
     successful_extractions := 0; failed_extractions := 0;
     skipped_extractions := 0 |}.

Definition set_cancel_flag (b : bool) (e : extractor) : extractor :=
  {| cancel_flag := b; total_streams := total_streams e;
     processed_streams := processed_streams e;
     successful_extractions := successful_extractions e;
     failed_extractions := failed_extractions e;
     skipped_extractions := skipped_extractions e |}.

Definition set_total_streams (n : nat) (e : extractor) : extractor :=
  {| cancel_flag := cancel_flag e; total_streams := n;
     processed_streams := processed_streams e;
     successful_extractions := successful_extractions e;
     failed_extractions := failed_extractions e;
     skipped_extractions := skipped_extractions e |}.

Definition set_processed_streams (n : nat) (e : extractor) : extractor :=
  {| cancel_flag := cancel_flag e; total_streams := total_streams e;
     processed_streams := n;
     successful_extractions := successful_extractions e;
     failed_extractions := failed_extractions e;
     skipped_extractions := skipped_extractions e |}.

Definition incr_successful (e : extractor) : extractor :=
  {| cancel_flag := cancel_flag e; total_streams := total_streams e;
     processed_streams := processed_streams e;
     successful_extractions := successful_extractions e + 1;
     failed_extractions := failed_extractions e;
     skipped_extractions := skipped_extractions e |}.

Definition incr_failed (e : extractor) : extractor :=
  {| cancel_flag := cancel_flag e; total_streams := total_streams e;
     processed_streams := processed_streams e;
     successful_extractions := successful_extractions e;
     failed_extractions := failed_extractions e + 1;
     skipped_extractions := skipped_extractions e |}.

Definition incr_skipped (e : extractor) : extractor :=
  {| cancel_flag := cancel_flag e; total_streams := total_streams e;
     processed_streams := processed_streams e;
     successful_extractions := successful_extractions e;
     failed_extractions := failed_extractions e;
     skipped_extractions := skipped_extractions e + 1 |}.

(** Sum of the three outcome counters. *)
Definition outcomes (e : extractor) : nat :=
  successful_extractions e + failed_extractions e + skipped_extractions e.

Set Warnings "-register-all".

(** Values produced by [json.loads].  An object is kept as the list of its
    items, in insertion order, with distinct keys. *)
Inductive json :=
| JNull
| JBool (b : bool)
| JInt (z : Z)
| JFloat (repr : string)
| JStr (s : string)
| JArr (items : list json)
| JObj (members : list (string * json)).

(** The [stream_info] dictionary built by [get_subtitle_streams]; its four
    keys are always present, its values are whatever the tool reported. *)
Record stream_info := {
  index : json;
  codec_name : json;
  language : json;
  title : json
}.

(** An entry of [subtitle_streams] in [run_extraction]. *)
Record task := {
  video_file : string;
  stream : stream_info
}.

(** Python exceptions that can reach the code, with [str(e)]. *)
Inductive exn :=
| SubprocessError (msg : string)
| FileNotFoundError (msg : string)
| OSError (msg : string)
| TypeError (msg : string)
| AttributeError (msg : string).

Definition str_exn (e : exn) : string :=
  match e with
  | SubprocessError m | FileNotFoundError m | OSError m | TypeError m
  | AttributeError m => m
  end.

Inductive result (A : Type) :=
| Ok (a : A)
| Raise (e : exn).
Arguments Ok {A} a.
Arguments Raise {A} e.

(** What a finished [ffmpeg] process shows to its parent. *)
Record process := {
  stderr : list string;
  return_code : Z
}.

(** Observable actions, in the order they happen.  [EvStreams] marks the
    return of a probe to the scan loop; [EvProgress] and [EvFinish] carry
    the extractor attributes as they stand at that moment; [EvClearLog] is
    the emptying of the log widget when a run is started. *)
Inductive event :=
| EvLog (message : string)
| EvProbe (cmd : list string)
| EvStreams (file : string) (streams : list stream_info)
| EvMakedirs (dir : string)
| EvExists (path : string)
| EvPopen (cmd : list string)
| EvTerminate
| EvProgress (snapshot : extractor) (current total : nat) (message : string)
| EvFinish (snapshot : extractor)
| EvClearLog.

(** ** The environment *)

Record environment := {
  world : Type;
  (** [os.walk(directory)]: the [(root, dirs, files)] triples, top-down;
      the directory tree is not modified while it is enumerated. *)
  os_walk : string -> list (string * list string * list string);
  (** [subprocess.run(cmd, ...)]: the standard output of the command, or
      the exception raised by the call as it is made (with [check=True] a
      failing command raises [CalledProcessError], a [SubprocessError]; a
      command that cannot be started raises [FileNotFoundError] or another
      [OSError], which are not [SubprocessError]s). *)
  subprocess_run : list string -> world -> (exn + string) * world;
  (** [json.loads]; [None] stands for [json.JSONDecodeError]. *)
  json_loads : string -> option json;
  (** [str(v)] as used by an f-string. *)
  py_str : json -> string;
  (** [os.makedirs(d, exist_ok=True)]; [Some e] is the exception raised. *)
  os_makedirs : string -> world -> option exn * world;
  (** [os.path.exists] *)
  os_path_exists : string -> world -> bool * world;
  (** [subprocess.Popen(cmd, ...)] followed by reading the process. *)
  subprocess_Popen : list string -> world -> (exn + process) * world;
  (** Whether [cancel()] ran on the GUI thread since the flag was last
      read by the worker. *)
  cancel_pressed : world -> bool * world;
  (** [self.overwrite_var.get()] *)
  overwrite_var : world -> bool * world;
  (** Wall-clock time since the run started, already formatted. *)
  elapsed_str : world -> string * world;
  (** [str.lower] and [str.strip].  They follow the Unicode tables of the
      runtime; what they do on ASCII text is all that is known of them. *)
  str_lower : string -> string;
  str_lower_ascii :
    forall s, PyStr.is_ascii s = true -> str_lower s = PyStr.lower s;
  str_strip : string -> string;
  str_strip_ascii :
    forall s, PyStr.is_ascii s = true -> str_strip s = PyText.strip s;
  (** [str(e)] for the [AttributeError] raised when the named attribute of
      the window is read before any method has set it (the text depends on
      how the toolkit looks attributes up). *)
  attribute_error_text : string -> string
}.

(** ** Programs: state, trace and exceptions *)

Section Program.

Context (E : environment).

(** The extractor object, the state of the surroundings and what has been
    observed so far. *)
Record machine := {
  ext : extractor;
  wld : world E;
  out : list event
}.

Definition M (A : Type) : Type := machine -> result A * machine.

Definition ret {A} (a : A) : M A := fun s => (Ok a, s).

Definition bind {A B} (m : M A) (k : A -> M B) : M B :=
  fun s =>
    match m s with
    | (Ok a, s') => k a s'
    | (Raise e, s') => (Raise e, s')
    end.

#[local] Instance M_ret : MRet M := @ret.
#[local] Instance M_bind : MBind M := fun A B k m => bind m k.

Definition raise {A} (e : exn) : M A := fun s => (Raise e, s).

(** [try: body  except Exception as e: handler] *)
Definition try_except {A} (body : M A) (handler : exn -> M A) : M A :=
  fun s =>
    match body s with
    | (Ok a, s') => (Ok a, s')
    | (Raise e, s') => handler e s'
    end.

(** [try: body  finally: cleanup] *)
Definition try_finally {A} (body : M A) (cleanup : M unit) : M A :=
  fun s =>
    match body s with
    | (r, s') =>
        match cleanup s' with
        | (Ok _, s'') => (r, s'')
        | (Raise e, s'') => (Raise e, s'')
        end
    end.

Definition gets {A} (f : extractor -> A) : M A :=
  fun s => (Ok (f (ext s)), s).

Definition modify (f : extractor -> extractor) : M unit :=
  fun s => (Ok tt, {| ext := f (ext s); wld := wld s; out := out s |}).

Definition emit (e : event) : M unit :=
  fun s => (Ok tt, {| ext := ext s; wld := wld s; out := out s ++ [e] |}).

(** A question to the surroundings. *)
Definition ask {A} (q : world E -> A * world E) : M A :=
  fun s =>
    match q (wld s) with
    | (a, w) => (Ok a, {| ext := ext s; wld := w; out := out s |})
    end.

(** The outcome of a call made for the surroundings. *)
Definition from_run {A} (r : exn + A) : M A :=
  match r with
  | inl e => raise e
  | inr a => ret a
  end.

(** The extractor attributes, for the callbacks that show them. *)
Definition snapshot : M extractor := gets (fun e => e).

(** [SubtitleExtractor.log]: the callback (the GUI's [log_message]) or
    [print]; either way the message is observed. *)
Definition log (message : string) : M unit := emit (EvLog message).

(** [SubtitleExtractor.reset] *)
Definition reset : M unit :=
  modify (fun _ =>
    {| cancel_flag := false; total_streams := 0; processed_streams := 0;
       successful_extractions := 0; failed_extractions := 0;
       skipped_extractions := 0 |}).

(** [SubtitleExtractor.cancel] *)
Definition cancel : M unit :=
  modify (set_cancel_flag true);;
  log "INFO: Cancellation requested. Waiting for current task to complete...".

(** A read of [self.cancel_flag] by the worker: a [cancel()] issued on
    the GUI thread since the previous read has taken effect by now. *)
Definition read_cancel_flag : M bool :=
  pressed ← ask (cancel_pressed E);
  (if pressed : bool then cancel else ret tt);;
  gets cancel_flag.

(** [SubtitleExtractor.check_dependencies] *)
Definition check_dependencies : M bool :=
  try_except
    (_ ← ask (subprocess_run E ["ffmpeg"; "-version"]) ≫= from_run;
     _ ← ask (subprocess_run E ["ffprobe"; "-version"]) ≫= from_run;
     ret true)
    (fun e =>
       match e with
       | SubprocessError _ | FileNotFoundError _ =>
           log ("ERROR: ffmpeg or ffprobe not found. Please install them "
                +:+ "and make sure they're in your PATH.");;
           ret false
       | _ => raise e
       end).

(** [SubtitleExtractor.get_video_files] *)
Definition video_extensions : list string :=
  [".mkv"; ".mp4"; ".avi"; ".mov"; ".wmv"; ".flv"; ".webm"].

Definition get_video_files (directory : string) : list string :=
  flat_map
    (fun '(root, _, files) =>
       flat_map
         (fun file =>
            if PyStr.endswith_any (str_lower E file) video_extensions
            then [os_path.join root file] else [])
         files)
    (os_walk E directory).

(** *** Reading the probe's JSON, with Python's dynamic typing *)

Fixpoint dict_get (members : list (string * json)) (key : string)
    (default : json) : json :=
  match members with
  | [] => default
  | (k, v) :: rest => if String.eqb k key then v else dict_get rest key default
  end.

Definition dict_has (members : list (string * json)) (key : string) : bool :=
  existsb (fun kv => String.eqb (fst kv) key) members.

(** [v == s] for a string [s]. *)
Definition json_eq_str (v : json) (s : string) : bool :=
  match v with
  | JStr t => String.eqb t s
  | _ => false
  end.

(** [type(v).__name__] *)
Definition py_type_name (v : json) : string :=
  match v with
  | JNull => "NoneType"
  | JBool _ => "bool"
  | JInt _ => "int"
  | JFloat _ => "float"
  | JStr _ => "str"
  | JArr _ => "list"
  | JObj _ => "dict"
  end.

(** The exception of [v.get] for a [v] that has no such method. *)
Definition no_get (v : json) : exn :=
  AttributeError ("'" +:+ py_type_name v +:+ "' object has no attribute 'get'").

(** [obj.get(key, default)]: only a dictionary has the method. *)
Definition py_get (obj : json) (key : string) (default : json) : M json :=
  match obj with
  | JObj members => ret (dict_get members key default)
  | _ => raise (no_get obj)
  end.

(** [key in obj] *)
Definition py_in (key : string) (obj : json) : M bool :=
  match obj with
  | JObj members => ret (dict_has members key)
  | JArr items => ret (existsb (fun v => json_eq_str v key) items)
  | JStr s => ret (PyStr.contains s key)
  | _ => raise (TypeError ("argument of type '" +:+ py_type_name obj
                           +:+ "' is not iterable"))
  end.

(** [obj[key]] for a string key, after [key in obj] held. *)
Definition py_getitem (obj : json) (key : string) : M json :=
  match obj with
  | JObj members => ret (dict_get members key JNull)
  | JArr _ => raise (TypeError "list indices must be integers or slices, not str")
  | JStr _ => raise (TypeError "string indices must be integers")
  | _ => raise (TypeError ("'" +:+ py_type_name obj
                           +:+ "' object is not subscriptable"))
  end.

Fixpoint chars (s : string) : list json :=
  match s with
  | EmptyString => []
  | String c r => JStr (String c EmptyString) :: chars r
  end.

(** The values a [for] loop draws from [obj]. *)
Definition py_iter (obj : json) : M (list json) :=
  match obj with
  | JArr items => ret items
  | JObj members => ret (map (fun kv => JStr (fst kv)) members)
  | JStr s => ret (chars s)
  | _ => raise (TypeError ("'" +:+ py_type_name obj
                           +:+ "' object is not iterable"))
  end.

(** The dictionary display inside the loop of [get_subtitle_streams]. *)
Definition make_stream_info (stream : json) : M stream_info :=
  i ← py_get stream "index" JNull;
  c ← py_get stream "codec_name" (JStr "unknown");
  tags ← py_get stream "tags" (JObj []);
  l ← py_get tags "language" (JStr "und");
  tags' ← py_get stream "tags" (JObj []);
  t ← py_get tags' "title" (JStr EmptyString);
  ret {| index := i; codec_name := c; language := l; title := t |}.

Fixpoint collect_streams (items : list json)
    (subtitle_streams : list stream_info) : M (list stream_info) :=
  match items with
  | [] => ret subtitle_streams
  | stream :: rest =>
      info ← make_stream_info stream;
      collect_streams rest (subtitle_streams ++ [info])
  end.

(** [SubtitleExtractor.get_subtitle_streams] *)
Definition ffprobe_cmd (file : string) : list string :=
  ["ffprobe"; "-v"; "quiet"; "-print_format"; "json"; "-show_streams";
   "-select_streams"; "s"; file].

Definition get_subtitle_streams (file : string) : M (list stream_info) :=
  emit (EvProbe (ffprobe_cmd file));;
  r ← ask (subprocess_run E (ffprobe_cmd file));
  match r with
  | inl (SubprocessError msg) =>
      log ("ERROR: Failed to get subtitle streams from "
           +:+ os_path.basename file +:+ ": " +:+ msg);;
      ret []
  | inl e => raise e
  | inr stdout =>
      match json_loads E stdout with
      | None =>
          log ("ERROR: Failed to parse ffprobe output for "
               +:+ os_path.basename file);;
          ret []
      | Some streams_data =>
          has ← py_in "streams" streams_data;
          if has : bool then
            v ← py_getitem streams_data "streams";
            items ← py_iter v;
            collect_streams items []
          else ret []
      end
  end.

(** *** Extraction of one stream *)

(** The loop over [process.stderr]: [None] when the flag was seen set,
    otherwise the lines collected in [stderr_lines]. *)
Fixpoint read_stderr (lines : list string) (stderr_lines : list string)
    : M (option (list string)) :=
  match lines with
  | [] => ret (Some stderr_lines)
  | line :: rest =>
      c ← read_cancel_flag;
      if c : bool then ret None
      else read_stderr rest (stderr_lines ++ [line])
  end.

(** The command line; the test on ["VobSub"] appends the output file in
    both of its branches. *)
Definition ffmpeg_cmd (file : string) (stream_index : json)
    (ffmpeg_format : string) (overwrite : bool) (output_file : string)
    : list string :=
  ["ffmpeg"; "-loglevel"; "warning";
   if overwrite then "-y" else "-n";
   "-i"; file;
   "-map"; "0:" +:+ py_str E stream_index;
   "-c:s"; ffmpeg_format] ++ [output_file].

(** The [video_basename], the directory and the target of a call. *)
Definition video_basename_of (file : string) : string :=
  fst (os_path.splitext (os_path.basename file)).

Definition output_dir_of (file : string) (output_dir : option string) : string :=
  match output_dir with
  | None => os_path.dirname file
  | Some d => d
  end.

Definition output_file_of (file lang : string) (output_dir : option string)
    (ext_ : string) : string :=
  os_path.join (output_dir_of file output_dir)
    (video_basename_of file +:+ "." +:+ lang +:+ "." +:+ ext_).

(** [SubtitleExtractor.extract_subtitle] *)
Definition extract_subtitle (file : string) (stream_index : json)
    (lang output_format : string) (output_dir : option string)
    (overwrite : bool) : M bool :=
  let video_basename := video_basename_of file in
  let output_dir' := output_dir_of file output_dir in
  emit (EvMakedirs output_dir');;
  made ← ask (os_makedirs E output_dir');
  match made with
  | Some e => raise e
  | None =>
    match SUBTITLE_FORMATS !! output_format with
    | None =>
        log ("ERROR: Unsupported format " +:+ output_format);;
        modify incr_failed;;
        ret false
    | Some format_info =>
        let output_file :=
          output_file_of file lang output_dir (extension format_info) in
        emit (EvExists output_file);;
        present ← ask (os_path_exists E output_file);
        if (present : bool) && negb overwrite then
          log ("SKIPPED: Subtitle file already exists for "
               +:+ video_basename +:+ " [" +:+ lang +:+ "]");;
          modify incr_skipped;;
          ret false
        else
          let cmd := ffmpeg_cmd file stream_index
                       (ffmpeg_format format_info) overwrite output_file in
          try_except
            (emit (EvPopen cmd);;
             started ← ask (subprocess_Popen E cmd);
             match started with
             | inl e => raise e
             | inr proc =>
                 read ← read_stderr (stderr proc) [];
                 match read with
                 | None =>
                     emit EvTerminate;;
                     log ("CANCELLED: Extraction cancelled for "
                          +:+ video_basename +:+ " [" +:+ lang +:+ "]");;
                     ret false
                 | Some stderr_lines =>
                     if negb (return_code proc =? 0)%Z then
                       let error_output := PyStr.join_lines stderr_lines in
                       (if PyStr.contains error_output "Unknown encoder" then
                          log ("ERROR: Format mismatch or unsupported format for "
                               +:+ video_basename +:+ " [" +:+ lang +:+ "]")
                        else if PyStr.contains error_output "Output file exists" then
                          log ("SKIPPED: Subtitle file already exists for "
                               +:+ video_basename +:+ " [" +:+ lang +:+ "]");;
                          modify incr_skipped
                        else
                          log ("ERROR: Failed to extract subtitle from "
                               +:+ video_basename +:+ " [" +:+ lang +:+ "]"));;
                       modify incr_failed;;
                       ret false
                     else
                       log ("SUCCESS: Extracted " +:+ output_format
                            +:+ " subtitle for "
                            +:+ video_basename +:+ " [" +:+ lang +:+ "]");;
                       modify incr_successful;;
                       ret true
                 end
             end)
            (fun e =>
               match e with
               | SubprocessError msg =>
                   log ("ERROR: Failed to run ffmpeg for "
                        +:+ video_basename +:+ " [" +:+ lang +:+ "]: " +:+ msg);;
                   modify incr_failed;;
                   ret false
               | _ => raise e
               end)
    end
  end.

(** *** The worker: [SubtitleExtractorGUI.run_extraction] *)

(** [update_ui_progress]: the progress bar and label are refreshed with
    these arguments on the GUI thread. *)
Definition update_ui_progress (current total : nat) (message : string)
    : M unit :=
  e ← snapshot;
  emit (EvProgress e current total message).

(** [log_message], the GUI's log sink (the time stamp is left out). *)
Definition log_message (message : string) : M unit := emit (EvLog message).

Definition rule40 : string := "========================================".

(** [finish_extraction]: the log lines it writes; the button states, the
    progress bar and the completion dialog belong to the widgets. *)
Definition finish_extraction : M unit :=
  e ← snapshot;
  emit (EvFinish e);;
  total ← gets total_streams;
  if (0 <? total)%nat then
    streams_processed ← gets processed_streams;
    total_streams ← gets total_streams;
    successful ← gets successful_extractions;
    failed ← gets failed_extractions;
    skipped ← gets skipped_extractions;
    c ← read_cancel_flag;
    if c : bool then
      log_message ("Extraction cancelled after processing "
                   +:+ pretty streams_processed +:+ "/" +:+ pretty total_streams
                   +:+ " subtitle streams.")
    else if (0 <? streams_processed)%nat then
      log_message rule40;;
      log_message "EXTRACTION SUMMARY:";;
      log_message ("Processed: " +:+ pretty streams_processed +:+ "/"
                   +:+ pretty total_streams +:+ " subtitle streams");;
      log_message ("Successful: " +:+ pretty successful +:+ " | Failed: "
                   +:+ pretty failed +:+ " | Skipped: " +:+ pretty skipped);;
      elapsed ← ask (elapsed_str E);
      log_message ("Total time: " +:+ elapsed);;
      log_message rule40
    else ret tt
  else ret tt.

(** The enumeration: [video_files.extend(...)] for each directory. *)
Fixpoint collect_video_files (directories : list string)
    (video_files : list string) : list string :=
  match directories with
  | [] => video_files
  | directory :: rest =>
      collect_video_files rest (video_files ++ get_video_files directory)
  end.

Definition matching_streams (file lang : string) (streams : list stream_info)
    : list task :=
  map (fun st => {| video_file := file; stream := st |})
      (List.filter (fun st => json_eq_str (language st) lang) streams).

(** The scan loop; [video_files] is the whole work list, [remaining] the
    part of it still to visit. *)
Fixpoint scan_loop (video_files : list string) (lang : string)
    (remaining : list string) (subtitle_streams : list task)
    : M (list task) :=
  match remaining with
  | [] => ret subtitle_streams
  | file :: rest =>
      c ← read_cancel_flag;
      if c : bool then ret subtitle_streams
      else
        streams ← get_subtitle_streams file;
        emit (EvStreams file streams);;
        let subtitle_streams' :=
          subtitle_streams ++ matching_streams file lang streams in
        update_ui_progress (length subtitle_streams') (length video_files)
          ("Scanning: " +:+ os_path.basename file);;
        scan_loop video_files lang rest subtitle_streams'
  end.

(** The extraction loop. *)
Fixpoint extract_loop (lang output_format : string)
    (output_dir : option string) (items : list task) : M unit :=
  match items with
  | [] => ret tt
  | item :: rest =>
      c ← read_cancel_flag;
      if c : bool then ret tt
      else
        overwrite ← ask (overwrite_var E);
        _ ← extract_subtitle (video_file item) (index (stream item))
              lang output_format output_dir overwrite;
        modify (fun e => set_processed_streams (processed_streams e + 1) e);;
        processed ← gets processed_streams;
        total ← gets total_streams;
        update_ui_progress processed total
          ("Extracting: " +:+ os_path.basename (video_file item));;
        extract_loop lang output_format output_dir rest
  end.

(** The body of the [try] statement of [run_extraction]; each [return]
    of the source ends a branch here. *)
Definition run_extraction_try (directories : list string)
    (lang output_format : string) (output_dir : option string) : M unit :=
  let video_files := collect_video_files directories [] in
  match video_files with
  | [] =>
      log_message "No video files found in the selected directories.";;
      finish_extraction
  | _ :: _ =>
      log_message ("Found " +:+ pretty (length video_files)
                   +:+ " video files.");;
      subtitle_streams ← scan_loop video_files lang video_files [];
      modify (set_total_streams (length subtitle_streams));;
      match subtitle_streams with
      | [] =>
          log_message ("No subtitle streams found matching language '"
                       +:+ lang +:+ "'.");;
          finish_extraction
      | _ :: _ =>
          log_message ("Found " +:+ pretty (length subtitle_streams)
                       +:+ " subtitle streams matching language '"
                       +:+ lang +:+ "'.");;
          modify (set_processed_streams 0);;
          extract_loop lang output_format output_dir subtitle_streams;;
          c ← read_cancel_flag;
          if c : bool then log_message "Extraction cancelled by user."
          else log_message "Extraction process completed."
      end
  end.

(** [run_extraction]: [try: ... except Exception as e: ... finally: ...] *)
Definition run_extraction (directories : list string)
    (lang output_format : string) (output_dir : option string) : M unit :=
  try_finally
    (try_except
       (run_extraction_try directories lang output_format output_dir)
       (fun e =>
          log_message ("ERROR: An unexpected error occurred: " +:+ str_exn e)))
    finish_extraction.

(** A freshly constructed extractor in a given state of the surroundings. *)
Definition boot (w : world E) : machine :=
  {| ext := init_extractor; wld := w; out := [] |}.

End Program.

Arguments ext {E} _.
Arguments wld {E} _.
Arguments out {E} _.

(** ** What a trace shows *)

Definition is_log (e : event) : Prop :=
  match e with EvLog _ => True | _ => False end.

(** The commands of the inspection tool, in the order they were run. *)
Definition probe_cmds (tr : list event) : list (list string) :=
  flat_map (fun e => match e with EvProbe cmd => [cmd] | _ => [] end) tr.

(** The commands of the conversion tool, in the order they were run. *)
Definition popen_cmds (tr : list event) : list (list string) :=
  flat_map (fun e => match e with EvPopen cmd => [cmd] | _ => [] end) tr.

(** Number of probes that have returned to the scan loop. *)
Definition files_seen (tr : list event) : nat :=
  length (flat_map (fun e => match e with EvStreams f _ => [f] | _ => [] end) tr).

(** Number of streams in the requested language among the probes that
    have returned. *)
Definition found_so_far (lang : string) (tr : list event) : nat :=
  length (flat_map (fun e => match e with
                             | EvStreams f streams => matching_streams f lang streams
                             | _ => []
                             end) tr).

Definition is_scan_message (message : string) : bool :=
  PyStr.startswith message "Scanning: ".

(** The counters at a progress callback: never more processed than
    planned, at most one task without a recorded outcome, and none as
    long as the cancellation flag is down. *)
Definition counters_agree (e : extractor) : Prop :=
  processed_streams e <= total_streams e /\
  outcomes e <= processed_streams e <= outcomes e + 1 /\
  (cancel_flag e = false -> outcomes e = processed_streams e).

Definition progress_agrees (e : event) : Prop :=
  match e with
  | EvProgress snap _ _ _ => counters_agree snap
  | _ => True
  end.

(** Exactly one of the three outcome counters went up, by one. *)
Definition one_outcome_recorded (a b : extractor) : Prop :=
  b = incr_successful a \/ b = incr_failed a \/ b = incr_skipped a.

(** The tool failed and its diagnostics are classified as an existing
    output file. *)
Definition reports_existing_output (p : process) : bool :=
  negb (return_code p =? 0)%Z
  && negb (PyStr.contains (PyStr.join_lines (stderr p)) "Unknown encoder")
  && PyStr.contains (PyStr.join_lines (stderr p)) "Output file exists".

Definition no_exists_race (E : environment) : Prop :=
  forall cmd w proc w',
    subprocess_Popen E cmd w = (inr proc, w') ->
    reports_existing_output proc = false.

(** Every return of a probe is followed at once by a scan callback. *)
Fixpoint probes_reported (tr : list event) : Prop :=
  match tr with
  | [] => True
  | EvStreams _ _ :: tr' =>
      match tr' with
      | EvProgress _ _ _ message :: _ => is_scan_message message = true
      | _ => False
      end
      /\ probes_reported tr'
  | _ :: tr' => probes_reported tr'
  end.

(** ** Footprints: what a piece of code may emit and change *)

(** Only the cancellation flag may change, and only upwards. *)
Definition flag_only (a b : extractor) : Prop :=
  total_streams b = total_streams a /\
  processed_streams b = processed_streams a /\
  successful_extractions b = successful_extractions a /\
  failed_extractions b = failed_extractions a /\
  skipped_extractions b = skipped_extractions a /\
  (cancel_flag a = true -> cancel_flag b = true).

(** The plan and the progress count stay; the flag does not go down. *)
Definition outcome_only (a b : extractor) : Prop :=
  total_streams b = total_streams a /\
  processed_streams b = processed_streams a /\
  (cancel_flag a = true -> cancel_flag b = true).

(** The flag does not go down. *)
Definition flag_kept (a b : extractor) : Prop :=
  cancel_flag a = true -> cancel_flag b = true.

Definition probe_event (e : event) : Prop :=
  match e with EvProbe _ | EvLog _ => True | _ => False end.

Definition extract_event (e : event) : Prop :=
  match e with
  | EvLog _ | EvMakedirs _ | EvExists _ | EvPopen _ | EvTerminate => True
  | _ => False
  end.

Definition finish_event (e : event) : Prop :=
  match e with EvLog _ | EvFinish _ => True | _ => False end.

(** What the scan phase emits. *)
Definition scan_event (e : event) : Prop :=
  match e with
  | EvLog _ | EvProbe _ | EvStreams _ _ => True
  | EvProgress _ _ _ message => is_scan_message message = true
  | _ => False
  end.

(** What is emitted once the scan phase is over. *)
Definition tail_event (e : event) : Prop :=
  match e with
  | EvLog _ | EvMakedirs _ | EvExists _ | EvPopen _ | EvTerminate
  | EvFinish _ => True
  | EvProgress _ _ _ message => is_scan_message message = false
  | EvProbe _ | EvStreams _ _ | EvClearLog => False
  end.

(** Events that neither return a probe nor report scan progress. *)
Definition beside_scan (e : event) : Prop :=
  match e with
  | EvStreams _ _ => False
  | EvProgress _ _ _ message => is_scan_message message = false
  | _ => True
  end.

(** Events other than progress callbacks. *)
Definition not_progress (e : event) : Prop :=
  match e with
  | EvProgress _ _ _ _ => False
  | _ => True
  end.

(** The plan stays and the flag does not go down. *)
Definition plan_kept (a b : extractor) : Prop :=
  total_streams b = total_streams a /\
  (cancel_flag a = true -> cancel_flag b = true).

(** All counters at zero. *)
Definition zeroed (e : extractor) : Prop :=
  total_streams e = 0 /\ processed_streams e = 0 /\
  successful_extractions e = 0 /\ failed_extractions e = 0 /\
  skipped_extractions e = 0.

(** The scan callbacks of a trace carry, as first argument, [found] plus
    the number of matching streams of the probes that returned before
    them and, as second argument, [n]. *)
Fixpoint scan_callbacks_ok (lang : string) (n found : nat) (tr : list event)
    : Prop :=
  match tr with
  | [] => True
  | EvStreams f streams :: tr' =>
      scan_callbacks_ok lang n
        (found + length (matching_streams f lang streams)) tr'
  | EvProgress _ current total message :: tr' =>
      (is_scan_message message = true -> current = found /\ total = n)
      /\ scan_callbacks_ok lang n found tr'
  | _ :: tr' => scan_callbacks_ok lang n found tr'
  end.

Section Footprint.

Context {E : environment}.

(** [s'] is reached from [s] by emitting events that all satisfy [P]
    while the extractor moves along [R]. *)
Definition evolves (P : event -> Prop) (R : extractor -> extractor -> Prop)
    (s s' : machine E) : Prop :=
  R (ext s) (ext s') /\ exists new, out s' = out s ++ new /\ Forall P new.

(** Every run of [m] evolves its starting state. *)
Definition preserves {A} (P : event -> Prop)
    (R : extractor -> extractor -> Prop) (m : M E A) : Prop :=
  forall s, evolves P R s (snd (m s)).

(** The state [s] after one more line in the log. *)
Definition logged (s : machine E) (message : string) : machine E :=
  {| ext := ext s; wld := wld s; out := out s ++ [EvLog message] |}.

(** The state [s] once the number of tasks is known. *)
Definition planned (s : machine E) (n : nat) : machine E :=
  {| ext := set_total_streams n (ext s); wld := wld s; out := out s |}.

(** The state in which the extraction loop starts. *)
Definition started (s : machine E) (n : nat) (message : string) : machine E :=
  {| ext := set_processed_streams 0 (set_total_streams n (ext s));
     wld := wld s; out := out s ++ [EvLog message] |}.

End Footprint.

(** ** Concrete surroundings, for the examples *)

Module Scenario.

(** A tree [/v] holding [a.mkv], a text file and a sub-directory [s]
    with [b.MKV]. *)
Definition walk (directory : string) : list (string * list string * list string) :=
  if String.eqb directory "/v" then
    [("/v", ["s"], ["a.mkv"; "notes.txt"]); ("/v/s", [], ["b.MKV"])]
  else if String.eqb directory "/v/s" then
    [("/v/s", [], ["b.MKV"])]
  else [].

(** Two subtitle streams: English at index 2, Hebrew at index 3. *)
Definition eng_heb : json :=
  JObj [("streams",
         JArr [JObj [("index", JInt 2); ("codec_name", JStr "subrip");
                     ("tags", JObj [("language", JStr "eng")])];
               JObj [("index", JInt 3); ("codec_name", JStr "subrip");
                     ("tags", JObj [("language", JStr "heb")])]])].

(** The probe output is named rather than spelled out. *)
Definition loads (stdout : string) : option json :=
  if String.eqb stdout "<eng 2, heb 3>" then Some eng_heb
  else if String.eqb stdout "{}" then Some (JObj [])
  else None.

Definition show (v : json) : string :=
  match v with
  | JNull => "None"
  | JBool true => "True"
  | JBool false => "False"
  | JInt z => pretty z
  | JFloat r => r
  | JStr s => s
  | JArr _ => "[...]"
  | JObj _ => "{...}"
  end.

Record knobs := {
  probe : list string -> exn + string;
  makedirs : string -> option exn;
  present : string -> bool;
  popen : list string -> exn + process;
  pressed : nat -> bool;
  overwrite : bool
}.

(** The state of these surroundings is the number of times the worker
    has read the cancellation flag.  All text here is ASCII, so the ASCII
    versions of [lower] and [strip] serve. *)
Definition env (k : knobs) : environment :=
  {| world := nat;
     os_walk := walk;
     subprocess_run := fun cmd w => (probe k cmd, w);
     json_loads := loads;
     py_str := show;
     os_makedirs := fun d w => (makedirs k d, w);
     os_path_exists := fun p w => (present k p, w);
     subprocess_Popen := fun cmd w => (popen k cmd, w);
     cancel_pressed := fun w => (pressed k w, S w);
     overwrite_var := fun w => (overwrite k, w);
     elapsed_str := fun w => ("0:00:01", w);
     str_lower := PyStr.lower;
     str_lower_ascii := fun s _ => eq_refl;
     str_strip := PyText.strip;
     str_strip_ascii := fun s _ => eq_refl;
     attribute_error_text := fun name =>
       "'SubtitleExtractorGUI' object has no attribute '" +:+ name +:+ "'" |}.

(** Everything works, nothing exists yet, nobody cancels. *)
Definition calm : knobs :=
  {| probe := fun _ => inr "<eng 2, heb 3>";
     makedirs := fun _ => None;
     present := fun _ => false;
     popen := fun _ => inr {| stderr := []; return_code := 0 |};
     pressed := fun _ => false;
     overwrite := false |}.

(** The conversion tool prints one line; Cancel is pressed while the
    worker waits for it (the third read of the flag: one per loop head,
    then the one after the line). *)
Definition cancelled_midstream : knobs :=
  {| probe := probe calm; makedirs := makedirs calm; present := present calm;
     popen := fun _ => inr {| stderr := ["Press [q] to stop"]; return_code := 0 |};
     pressed := fun n => Nat.eqb n 2;
     overwrite := false |}.

(** The target appears between the existence test and the tool's own
    test. *)
Definition exists_race : knobs :=
  {| probe := probe calm; makedirs := makedirs calm; present := present calm;
     popen := fun _ => inr {| stderr := ["Output file exists"]; return_code := 1 |};
     pressed := pressed calm;
     overwrite := false |}.

(** The target is already there. *)
Definition already_there : knobs :=
  {| probe := probe calm; makedirs := makedirs calm; present := fun _ => true;
     popen := popen calm; pressed := pressed calm; overwrite := false |}.

(** The inspection tool cannot be started for [/v/a.mkv]. *)
Definition probe_not_found : knobs :=
  {| probe := fun cmd =>
       if bool_decide (last cmd = Some "/v/a.mkv")
       then inl (FileNotFoundError "[Errno 2] No such file or directory: 'ffprobe'")
       else inr "<eng 2, heb 3>";
     makedirs := makedirs calm; present := present calm;
     popen := popen calm; pressed := pressed calm; overwrite := false |}.

(** The conversion tool prints one line and Cancel has been pressed by
    the time the worker has read it. *)
Definition cancel_on_first_line : knobs :=
  {| probe := probe calm; makedirs := makedirs calm; present := present calm;
     popen := fun _ => inr {| stderr := ["Press [q] to stop"]; return_code := 0 |};
     pressed := fun n => Nat.eqb n 0;
     overwrite := false |}.

(** Cancel was pressed before the worker started. *)
Definition cancelled_before : knobs :=
  {| probe := probe calm; makedirs := makedirs calm; present := present calm;
     popen := popen calm; pressed := fun n => Nat.eqb n 0; overwrite := false |}.

(** The entry of the table for [SRT]. *)
Definition srt_info : format_info :=
  {| extension := "srt"; ffmpeg_format := "srt"; description := "SubRip Text" |}.

End Scenario.

(** ** The language table *)

Definition LANGUAGE_MAPPING : gmap string string :=
  <["eng" := "English"]> (<["heb" := "Hebrew"]> (<["und" := "Undefined"]> ∅)).

(** ** The shell's state *)

(** The attributes of [SubtitleExtractorGUI] that its logic reads and
    writes.  [subdir_vars] is the dictionary from a directory to its check
    box, in insertion order.  The constructor sets neither [subdirs] nor
    [subdir_vars]: they exist once [populate_subdirectories] has run,
    which [has_subdir_vars] records (the buttons over the check boxes are
    shown only from then on, the start button at once). *)
Record gui := {
  has_subdir_vars : bool;
  subdirs : list string;
  subdir_vars : list (string * bool);
  selected_subdirs : list string;
  language_var : string;
  custom_language_var : string;
  format_var : string;
  custom_output_dir_var : bool;
  output_directory : string
}.

Definition set_selected_subdirs (l : list string) (g : gui) : gui :=
  {| has_subdir_vars := has_subdir_vars g;
     subdirs := subdirs g; subdir_vars := subdir_vars g;
     selected_subdirs := l;
     language_var := language_var g;
     custom_language_var := custom_language_var g;
     format_var := format_var g;
     custom_output_dir_var := custom_output_dir_var g;
     output_directory := output_directory g |}.

Definition set_subdir_vars (vars : list (string * bool)) (g : gui) : gui :=
  {| has_subdir_vars := has_subdir_vars g;
     subdirs := subdirs g; subdir_vars := vars;
     selected_subdirs := selected_subdirs g;
     language_var := language_var g;
     custom_language_var := custom_language_var g;
     format_var := format_var g;
     custom_output_dir_var := custom_output_dir_var g;
     output_directory := output_directory g |}.

Definition set_custom_language_var (v : string) (g : gui) : gui :=
  {| has_subdir_vars := has_subdir_vars g;
     subdirs := subdirs g; subdir_vars := subdir_vars g;
     selected_subdirs := selected_subdirs g;
     language_var := language_var g;
     custom_language_var := v;
     format_var := format_var g;
     custom_output_dir_var := custom_output_dir_var g;
     output_directory := output_directory g |}.

(** [d[key] = value] on a dictionary kept as its list of items. *)
Fixpoint dict_set (key : string) (value : bool) (items : list (string * bool))
    : list (string * bool) :=
  match items with
  | [] => [(key, value)]
  | (k, v) :: rest =>
      if String.eqb k key then (k, value) :: rest
      else (k, v) :: dict_set key value rest
  end.

(** [get_selected_subdirs] *)
Definition get_selected_subdirs (g : gui) : list string :=
  map fst (List.filter (fun kv => snd kv) (subdir_vars g)).

(** [select_all_subdirs] *)
Definition select_all_subdirs (g : gui) : gui :=
  set_subdir_vars (map (fun kv => (fst kv, true)) (subdir_vars g)) g.

(** [deselect_all_subdirs] *)
Definition deselect_all_subdirs (g : gui) : gui :=
  set_subdir_vars (map (fun kv => (fst kv, false)) (subdir_vars g)) g.

(** [on_language_change] *)
Definition on_language_change (selection : string) (g : gui) : gui :=
  if String.eqb selection "und" then set_custom_language_var EmptyString g
  else set_custom_language_var selection g.

(** How a press on the start button ends: one of the warnings, a declined
    confirmation, or a worker started with these arguments. *)
Inductive start_outcome :=
| WarnNoDirectory
| NotConfirmed
| WarnNoLanguage
| WarnNoOutputDirectory
| Started (directories : list string) (lang output_format : string)
    (output_dir : option string).

(** The extensions [populate_subdirectories] looks for. *)
Definition listed_extensions : list string := [".mkv"; ".mp4"; ".avi"; ".mov"].

Section Shell.

Context (E : environment).

#[local] Existing Instance M_ret.
#[local] Existing Instance M_bind.

(** [get_selected_language] *)
Definition get_selected_language (g : gui) : string :=
  let custom := str_strip E (custom_language_var g) in
  if String.eqb custom EmptyString then language_var g
  else str_lower E custom.

(** The test of [populate_subdirectories] for one sub-directory. *)
Definition has_videos (full_path : string) : bool :=
  existsb
    (fun '(_, _, files) =>
       existsb
         (fun file => PyStr.endswith_any (str_lower E file) listed_extensions)
         files)
    (os_walk E full_path).

(** The sub-directories [populate_subdirectories] adds after the root. *)
Definition listed_subdirs (directory : string) : list string :=
  flat_map
    (fun '(root, dirs, _) =>
       flat_map
         (fun dir_name =>
            let full_path := os_path.join root dir_name in
            if has_videos full_path then [full_path] else [])
         dirs)
    (os_walk E directory).

(** [populate_subdirectories]: the lists it builds and the line it logs
    (the check boxes themselves are widgets). *)
Definition populate_subdirectories (directory : string) (g : gui) : M E gui :=
  let found := listed_subdirs directory in
  let g' :=
    {| has_subdir_vars := true;
       subdirs := directory :: found;
       subdir_vars :=
         fold_left (fun vars p => dict_set p true vars) found [(directory, true)];
       selected_subdirs := [];
       language_var := language_var g;
       custom_language_var := custom_language_var g;
       format_var := format_var g;
       custom_output_dir_var := custom_output_dir_var g;
       output_directory := output_directory g |} in
  match subdirs g' with
  | _ :: _ =>
      log_message E "Use 'Apply Selection' to confirm directory selection."
  | [] => log_message E "No subdirectories with video files found."
  end;;
  ret E g'.

(** [apply_selection]; the first component is the warning shown, if any. *)
Definition apply_selection (g : gui) : M E (option string * gui) :=
  let selected_dirs := get_selected_subdirs g in
  match selected_dirs with
  | [] => ret E (Some "No directories selected.", g)
  | _ :: _ =>
      log_message E ("Selection applied: " +:+ pretty (length selected_dirs)
                     +:+ " directories selected.");;
      (if (length selected_dirs <=? 5)%nat then
         log_message E ("Selected directories: "
                        +:+ PyText.join ", " (map os_path.basename selected_dirs))
       else
         log_message E ("Selected directories (showing 5 of "
                        +:+ pretty (length selected_dirs) +:+ "): "
                        +:+ PyText.join ", "
                              (map os_path.basename (take 5 selected_dirs))
                        +:+ "..."));;
      ret E (None, set_selected_subdirs selected_dirs g)
  end.

(** [start_extraction] together with the worker it starts: the body of the
    worker thread runs here to its end.  [confirm] is the answer to the
    confirmation dialog, should it be shown.  With no applied selection
    the check boxes are read, through [self.subdir_vars]: on a window
    where no directory was ever picked that attribute does not exist and
    the press ends in an [AttributeError]. *)
Definition start_extraction (g : gui) (confirm : bool)
    : M E (start_outcome * gui) :=
  let checked : exn + (start_outcome + gui) :=
    match selected_subdirs g with
    | [] =>
        if has_subdir_vars g then
          match get_selected_subdirs g with
          | [] => inr (inl WarnNoDirectory)
          | selected_dirs =>
              if confirm then inr (inr (set_selected_subdirs selected_dirs g))
              else inr (inl NotConfirmed)
          end
        else inl (AttributeError (attribute_error_text E "subdir_vars"))
    | _ :: _ => inr (inr g)
    end in
  match checked with
  | inl e => raise E e
  | inr (inl stop) => ret E (stop, g)
  | inr (inr g1) =>
      let lang := get_selected_language g1 in
      if String.eqb lang EmptyString then ret E (WarnNoLanguage, g1)
      else
        let output_format := format_var g1 in
        let proceed (output_dir : option string) : M E (start_outcome * gui) :=
          emit E EvClearLog;;
          log_message E ("Starting extraction for "
                         +:+ pretty (length (selected_subdirs g1))
                         +:+ " directories, language: " +:+ lang
                         +:+ ", format: " +:+ output_format);;
          reset E;;
          run_extraction E (selected_subdirs g1) lang output_format output_dir;;
          ret E (Started (selected_subdirs g1) lang output_format output_dir, g1)
        in
        if custom_output_dir_var g1 then
          if String.eqb (output_directory g1) EmptyString
          then ret E (WarnNoOutputDirectory, g1)
          else proceed (Some (output_directory g1))
        else proceed None
  end.

(** [cancel_extraction]; [alive] tells whether a worker is running. *)
Definition cancel_extraction (alive : bool) : M E unit :=
  if alive then cancel E
  else log_message E "No extraction process running.".

End Shell.

(** ** More of what a trace shows, and kinds of surroundings *)

(** The arguments of the extraction-progress callbacks, in order. *)
Definition extract_callbacks (tr : list event) : list (nat * nat) :=
  flat_map (fun e => match e with
                     | EvProgress _ current total message =>
                         if is_scan_message message then [] else [(current, total)]
                     | _ => []
                     end) tr.

(** The snapshots taken by the clean-up, in order. *)
Definition finish_snapshots (tr : list event) : list extractor :=
  flat_map (fun e => match e with EvFinish snap => [snap] | _ => [] end) tr.

(** The directories handed to [os.makedirs], in order. *)
Definition makedirs_calls (tr : list event) : list string :=
  flat_map (fun e => match e with EvMakedirs d => [d] | _ => [] end) tr.

(** Events other than extraction-progress callbacks. *)
Definition beside_extract (e : event) : Prop :=
  match e with
  | EvProgress _ _ _ message => is_scan_message message = true
  | _ => True
  end.

(** Any event. *)
Definition any_event (e : event) : Prop := True.

(** The flag stays as it is. *)
Definition flag_same (a b : extractor) : Prop :=
  cancel_flag b = cancel_flag a.

(** Cancel is never pressed. *)
Definition never_pressed (E : environment) : Prop :=
  forall w, fst (cancel_pressed E w) = false.

(** [os.makedirs] never raises. *)
Definition makedirs_succeeds (E : environment) : Prop :=
  forall d w, fst (os_makedirs E d w) = None.

(** Starting the conversion tool raises nothing but [SubprocessError]. *)
Definition popen_contained (E : environment) : Prop :=
  forall cmd w e, fst (subprocess_Popen E cmd w) = inl e ->
                  exists msg, e = SubprocessError msg.

(** Every target is already there. *)
Definition always_present (E : environment) : Prop :=
  forall p w, fst (os_path_exists E p w) = true.

(** The overwrite box is never ticked. *)
Definition never_overwrite (E : environment) : Prop :=
  forall w, fst (overwrite_var E w) = false.

(** A stream entry of the probe's output as the code expects it: an
    object whose [tags], when present, is an object. *)
Definition stream_shaped (v : json) : bool :=
  match v with
  | JObj members =>
      match dict_get members "tags" (JObj []) with
      | JObj _ => true
      | _ => false
      end
  | _ => false
  end.

(** How the probe describes a well-shaped entry. *)
Definition described (item : json) (info : stream_info) : Prop :=
  exists members tags,
    item = JObj members
    /\ dict_get members "tags" (JObj []) = JObj tags
    /\ index info = dict_get members "index" JNull
    /\ codec_name info = dict_get members "codec_name" (JStr "unknown")
    /\ language info = dict_get tags "language" (JStr "und")
    /\ title info = dict_get tags "title" (JStr EmptyString).

(** The value whose [get] fails when an ill-shaped entry is described:
    the entry itself or, for an object, its [tags]. *)
Definition without_get (item : json) : json :=
  match item with
  | JObj members => dict_get members "tags" (JObj [])
  | _ => item
  end.

(** Every probe returns: the inspection tool can be run and what it
    prints is read without an exception. *)
Definition probes_return (E : environment) : Prop :=
  forall file (s : machine E),
    exists streams, fst (get_subtitle_streams E file s) = Ok streams.

(** At a progress callback no more is processed than planned. *)
Definition processed_within_total (e : event) : Prop :=
  match e with
  | EvProgress snap _ _ _ => processed_streams snap <= total_streams snap
  | _ => True
  end.

(** Shell states for the examples. *)
Module Shells.

(** Nothing applied yet; the root and one sub-directory are ticked. *)
Definition fresh : gui :=
  {| has_subdir_vars := true;
     subdirs := ["/v"; "/v/s"];
     subdir_vars := [("/v", true); ("/v/s", true)];
     selected_subdirs := [];
     language_var := "eng";
     custom_language_var := "eng";
     format_var := "SRT";
     custom_output_dir_var := false;
     output_directory := EmptyString |}.

(** A custom language typed with blanks and capitals. *)
Definition typed : gui := set_custom_language_var "  FrE " fresh.

(** The window as the constructor leaves it: no directory picked yet. *)
Definition new_window : gui :=
  {| has_subdir_vars := false;
     subdirs := [];
     subdir_vars := [];
     selected_subdirs := [];
     language_var := "eng";
     custom_language_var := EmptyString;
     format_var := "SRT";
     custom_output_dir_var := false;
     output_directory := EmptyString |}.

End Shells.

(** ** Runs that do not look at what was observed before *)

(** The same state with [o] observed beforehand. *)
Definition rebase {E : environment} (o : list event) (s : machine E)
    : machine E :=
  {| ext := ext s; wld := wld s; out := o ++ out s |}.

(** A computation whose result, extractor, surroundings and new
    observations do not depend on the earlier observations. *)
Definition framed {E : environment} {A : Type} (m : M E A) : Prop :=
  forall o s, m (rebase o s) = (fst (m s), rebase o (snd (m s))).

(** The keys of a dictionary kept as its list of items. *)
Definition dict_keys (items : list (string * bool)) : list string :=
  map fst items.

(** The exceptions [check_dependencies] catches. *)
Definition dependency_error (e : exn) : bool :=
  match e with
  | SubprocessError _ | FileNotFoundError _ => true
  | _ => false
  end.

(** The line [check_dependencies] logs. *)
Definition dependency_message : string :=
  "ERROR: ffmpeg or ffprobe not found. Please install them "
  +:+ "and make sure they're in your PATH.".

(** More surroundings for the examples. *)
Module Cases.

(** The same surroundings with another [json.loads]. *)
Definition with_loads (f : string -> option json) (E : environment)
    : environment :=
  {| world := world E;
     os_walk := os_walk E;
     subprocess_run := subprocess_run E;
     json_loads := f;
     py_str := py_str E;
     os_makedirs := os_makedirs E;
     os_path_exists := os_path_exists E;
     subprocess_Popen := subprocess_Popen E;
     cancel_pressed := cancel_pressed E;
     overwrite_var := overwrite_var E;
     elapsed_str := elapsed_str E;
     str_lower := str_lower E;
     str_lower_ascii := str_lower_ascii E;
     str_strip := str_strip E;
     str_strip_ascii := str_strip_ascii E;
     attribute_error_text := attribute_error_text E |}.

(** A probe output without the [streams] key. *)
Definition format_only : json := JObj [("format", JObj [])].

(** A probe output whose second stream entry is a string. *)
Definition odd_streams : json :=
  JObj [("streams", JArr [JObj [("index", JInt 1)]; JStr "x"; JObj []])].

(** The conversion tool cannot be started. *)
Definition tool_missing : Scenario.knobs :=
  {| Scenario.probe := Scenario.probe Scenario.calm;
     Scenario.makedirs := Scenario.makedirs Scenario.calm;
     Scenario.present := Scenario.present Scenario.calm;
     Scenario.popen := fun _ =>
       inl (FileNotFoundError "[Errno 2] No such file or directory: 'ffmpeg'");
     Scenario.pressed := Scenario.pressed Scenario.calm;
     Scenario.overwrite := false |}.

(** The overwrite box is ticked. *)
Definition overwriting : Scenario.knobs :=
  {| Scenario.probe := Scenario.probe Scenario.calm;
     Scenario.makedirs := Scenario.makedirs Scenario.calm;
     Scenario.present := fun _ => true;
     Scenario.popen := Scenario.popen Scenario.calm;
     Scenario.pressed := Scenario.pressed Scenario.calm;
     Scenario.overwrite := true |}.

End Cases.

(** * The helpers on examples *)

Example basename_ex : os_path.basename "/v/s/Film.One.mkv" = "Film.One.mkv".
Proof. reflexivity. Qed.
Example dirname_ex : os_path.dirname "/v/s/Film.One.mkv" = "/v/s".
Proof. reflexivity. Qed.
Example dirname_root_ex : os_path.dirname "/a.mkv" = "/".
Proof. reflexivity. Qed.
Example dirname_bare_ex : os_path.dirname "a.mkv" = EmptyString.
Proof. reflexivity. Qed.
Example splitext_ex : os_path.splitext "Film.One.mkv" = ("Film.One", ".mkv").
Proof. reflexivity. Qed.
Example splitext_hidden_ex : os_path.splitext ".mkv" = (".mkv", EmptyString).
Proof. reflexivity. Qed.
Example join_ex : os_path.join "/v/s" "a.eng.srt" = "/v/s/a.eng.srt".
Proof. reflexivity. Qed.
Example join_slash_ex : os_path.join "/out/" "a.eng.srt" = "/out/a.eng.srt".
Proof. reflexivity. Qed.
Example lower_ex : PyStr.lower "Movie.MKV" = "movie.mkv".
Proof. reflexivity. Qed.
Example contains_ex :
  PyStr.contains "x: Output file exists, -n given" "Output file exists" = true.
Proof. reflexivity. Qed.

Example format_srt : extension <$> SUBTITLE_FORMATS !! "SRT" = Some "srt".
Proof. vm_compute. reflexivity. Qed.
Example format_unknown : SUBTITLE_FORMATS !! "XYZ" = None.
Proof. vm_compute. reflexivity. Qed.

(** * Reasoning about programs *)

Section Logic.

Context {E : environment}.

Implicit Types (s : machine E) (P : event -> Prop)
               (R : extractor -> extractor -> Prop).

Lemma evolves_refl P R `{!Reflexive R} s : evolves P R s s.
Proof.
  split; [reflexivity|]. exists []. rewrite app_nil_r. auto.
Qed.

Lemma evolves_trans P R `{!Transitive R} s1 s2 s3 :
  evolves P R s1 s2 -> evolves P R s2 s3 -> evolves P R s1 s3.
Proof.
  intros [H1 (n1 & E1 & F1)] [H2 (n2 & E2 & F2)]. split.
  - etransitivity; eassumption.
  - exists (n1 ++ n2). rewrite E2, E1, app_assoc. split; [done|].
    apply Forall_app; auto.
Qed.

Lemma evolves_weaken P P' R R' s s' :
  (forall e, P e -> P' e) -> (forall a b, R a b -> R' a b) ->
  evolves P R s s' -> evolves P' R' s s'.
Proof.
  intros HP HR [H (n & En & F)]. split; [auto|].
  exists n. split; [done|]. eapply Forall_impl; eauto.
Qed.

Section Rules.

Context (P : event -> Prop) (R : extractor -> extractor -> Prop)
        `{!Reflexive R} `{!Transitive R}.

Lemma preserves_ret {A} (a : A) : preserves P R (ret E a).
Proof. intros s. apply evolves_refl; auto. Qed.

Lemma preserves_raise {A} e : preserves P R (@raise E A e).
Proof. intros s. apply evolves_refl; auto. Qed.

Lemma preserves_gets {A} (f : extractor -> A) : preserves P R (gets E f).
Proof. intros s. apply evolves_refl; auto. Qed.

Lemma preserves_ask {A} (q : world E -> A * world E) : preserves P R (ask E q).
Proof.
  intros s. unfold ask. destruct (q (wld s)) as [a w]. simpl.
  split; [reflexivity|]. exists []. simpl. rewrite app_nil_r. auto.
Qed.

Lemma preserves_modify f : (forall e, R e (f e)) -> preserves P R (modify E f).
Proof.
  intros Hf s. split; simpl; [auto|]. exists []. rewrite app_nil_r. auto.
Qed.

Lemma preserves_emit e : P e -> preserves P R (emit E e).
Proof.
  intros He s. split; simpl; [reflexivity|]. exists [e]. auto.
Qed.

Lemma preserves_bind {A B} (m : M E A) (k : A -> M E B) :
  preserves P R m -> (forall a, preserves P R (k a)) ->
  preserves P R (bind E m k).
Proof.
  intros Hm Hk s. unfold bind. specialize (Hm s).
  destruct (m s) as [[a|e] s1]; simpl in *; [|done].
  eapply evolves_trans; [done| exact Hm | apply Hk].
Qed.

Lemma preserves_try_except {A} (m : M E A) (h : exn -> M E A) :
  preserves P R m -> (forall e, preserves P R (h e)) ->
  preserves P R (try_except E m h).
Proof.
  intros Hm Hh s. unfold try_except. specialize (Hm s).
  destruct (m s) as [[a|e] s1]; simpl in *; [done|].
  eapply evolves_trans; [done| exact Hm | apply Hh].
Qed.

Lemma preserves_try_finally {A} (m : M E A) (c : M E unit) :
  preserves P R m -> preserves P R c ->
  preserves P R (try_finally E m c).
Proof.
  intros Hm Hc s. unfold try_finally. specialize (Hm s).
  destruct (m s) as [r s1]. specialize (Hc s1).
  destruct (c s1) as [[[]|e] s2]; simpl in *;
    (eapply evolves_trans; [done| exact Hm | exact Hc]).
Qed.

End Rules.

End Logic.

(** One step of syntax-directed reasoning for [preserves]. *)
Ltac preserves_step :=
  lazymatch goal with
  | |- preserves _ _ (mbind _ _) =>
      unfold mbind at 1, M_bind at 1; apply preserves_bind; [try done .. | | intros ? ]
  | |- preserves _ _ (bind _ _ _) => apply preserves_bind; [try done .. | | intros ? ]
  | |- preserves _ _ (mret _) => apply preserves_ret; try done
  | |- preserves _ _ (ret _ _) => apply preserves_ret; try done
  | |- preserves _ _ (raise _ _) => apply preserves_raise; try done
  | |- preserves _ _ (gets _ _) => apply preserves_gets; try done
  | |- preserves _ _ (snapshot _) => apply preserves_gets; try done
  | |- preserves _ _ (ask _ _) => apply preserves_ask; try done
  | |- preserves _ _ (try_except _ _ _) =>
      apply preserves_try_except; [try done .. | | intros ? ]
  | |- preserves _ _ (try_finally _ _ _) =>
      apply preserves_try_finally; [try done .. | | ]
  | |- preserves _ _ (match ?x with _ => _ end) => destruct x eqn:?
  | |- preserves _ _ (if ?x then _ else _) => destruct x eqn:?
  end.

(** * Footprints of the program's parts *)

#[local] Instance flag_only_refl : Reflexive flag_only.
Proof. intros e. unfold flag_only. tauto. Qed.

#[local] Instance flag_only_trans : Transitive flag_only.
Proof. intros a b c. unfold flag_only. intuition congruence. Qed.

#[local] Instance outcome_only_refl : Reflexive outcome_only.
Proof. intros e. unfold outcome_only. tauto. Qed.

#[local] Instance outcome_only_trans : Transitive outcome_only.
Proof. intros a b c. unfold outcome_only. intuition congruence. Qed.

#[local] Instance flag_kept_refl : Reflexive flag_kept.
Proof. intros e. unfold flag_kept. tauto. Qed.

#[local] Instance flag_kept_trans : Transitive flag_kept.
Proof. intros a b c. unfold flag_kept. tauto. Qed.

#[local] Instance plan_kept_refl : Reflexive plan_kept.
Proof. intros e. unfold plan_kept. tauto. Qed.

#[local] Instance plan_kept_trans : Transitive plan_kept.
Proof. intros a b c. unfold plan_kept. intuition congruence. Qed.

Lemma flag_only_outcome_only a b : flag_only a b -> outcome_only a b.
Proof. unfold flag_only, outcome_only. tauto. Qed.

Lemma outcome_only_flag_kept a b : outcome_only a b -> flag_kept a b.
Proof. unfold outcome_only, flag_kept. tauto. Qed.

Lemma flag_only_flag_kept a b : flag_only a b -> flag_kept a b.
Proof. unfold flag_only, flag_kept. tauto. Qed.

Lemma eq_flag_only (a b : extractor) : a = b -> flag_only a b.
Proof. intros ->. reflexivity. Qed.

Lemma is_log_probe_event e : is_log e -> probe_event e.
Proof. destruct e; simpl; tauto. Qed.

Lemma is_log_extract_event e : is_log e -> extract_event e.
Proof. destruct e; simpl; tauto. Qed.

Lemma is_log_finish_event e : is_log e -> finish_event e.
Proof. destruct e; simpl; tauto. Qed.

Section Footprints.

Context {E : environment}.

Lemma preserves_weaken {A} P P' R R' (m : M E A) :
  preserves P R m ->
  (forall e, P e -> P' e) -> (forall a b, R a b -> R' a b) ->
  preserves P' R' m.
Proof. intros Hm HP HR s. eapply evolves_weaken; eauto. Qed.

Lemma log_footprint message : preserves is_log flag_only (log E message).
Proof. apply preserves_emit; try apply _; exact I. Qed.

Lemma log_message_footprint message :
  preserves is_log flag_only (log_message E message).
Proof. apply preserves_emit; try apply _; exact I. Qed.

Lemma read_cancel_flag_footprint :
  preserves is_log flag_only (read_cancel_flag E).
Proof.
  unfold read_cancel_flag, cancel.
  repeat first
    [ apply log_footprint
    | apply preserves_modify; try apply _; intros ?; unfold flag_only; simpl; tauto
    | preserves_step; try apply _ ].
Qed.

(** The flag that is returned is the flag that is stored. *)
Lemma read_cancel_flag_returns (s : machine E) :
  fst (read_cancel_flag E s)
  = Ok (cancel_flag (ext (snd (read_cancel_flag E s)))).
Proof.
  unfold read_cancel_flag, cancel, log, mbind, M_bind, bind, ask, modify,
    emit, gets, ret.
  destruct (cancel_pressed E (wld s)) as [[|] w]; reflexivity.
Qed.

Lemma read_stderr_footprint lines :
  forall acc, preserves is_log flag_only (read_stderr E lines acc).
Proof.
  induction lines as [|line rest IH]; intros acc; simpl.
  - apply preserves_ret; apply _.
  - preserves_step; try apply _.
    + apply read_cancel_flag_footprint.
    + preserves_step; [apply preserves_ret; apply _ | apply IH].
Qed.

Lemma py_get_footprint obj key default :
  preserves is_log eq (py_get E obj key default).
Proof. unfold py_get. repeat (preserves_step; try apply _). Qed.

Lemma make_stream_info_footprint stream :
  preserves is_log eq (make_stream_info E stream).
Proof.
  unfold make_stream_info.
  repeat first [ apply py_get_footprint | preserves_step; try apply _ ].
Qed.

Lemma collect_streams_footprint items :
  forall acc, preserves is_log eq (collect_streams E items acc).
Proof.
  induction items as [|stream rest IH]; intros acc; simpl.
  - apply preserves_ret; apply _.
  - preserves_step; try apply _; [apply make_stream_info_footprint | apply IH].
Qed.

Lemma get_subtitle_streams_footprint file :
  preserves probe_event eq (get_subtitle_streams E file).
Proof.
  unfold get_subtitle_streams, log, py_in, py_getitem, py_iter.
  repeat first
    [ eapply preserves_weaken;
        [apply collect_streams_footprint | apply is_log_probe_event | auto]
    | apply preserves_emit; try apply _; exact I
    | preserves_step; try apply _ ].
Qed.

(** A probe runs the inspection tool once, first thing, and otherwise
    only writes to the log. *)
Lemma get_subtitle_streams_probe file (s : machine E) :
  exists new,
    out (snd (get_subtitle_streams E file s))
    = out s ++ EvProbe (ffprobe_cmd file) :: new
    /\ Forall is_log new
    /\ ext (snd (get_subtitle_streams E file s)) = ext s.
Proof.
  unfold get_subtitle_streams.
  unfold mbind at 1, M_bind at 1, bind at 1, emit at 1.
  match goal with
  | |- context [snd (?k ?u ?s1)] =>
      assert (Hk : preserves is_log eq (k u)); [| destruct (Hk s1) as [He (new & Hn & Hf)]]
  end.
  - unfold log, py_in, py_getitem, py_iter.
    repeat first
      [ apply collect_streams_footprint
      | apply preserves_emit; try apply _; exact I
      | preserves_step; try apply _ ].
  - exists new. simpl in *. rewrite Hn, <- app_assoc. auto.
Qed.

Lemma extract_subtitle_footprint file idx lang fmt od ow :
  preserves extract_event outcome_only
    (extract_subtitle E file idx lang fmt od ow).
Proof.
  unfold extract_subtitle, log.
  repeat first
    [ apply preserves_emit; try apply _; exact I
    | apply preserves_modify; try apply _;
        intros ?; unfold outcome_only; simpl; tauto
    | eapply preserves_weaken;
        [apply read_stderr_footprint
        | apply is_log_extract_event | apply flag_only_outcome_only ]
    | preserves_step; try apply _ ].
Qed.

Lemma finish_extraction_footprint :
  preserves finish_event flag_only (finish_extraction E).
Proof.
  unfold finish_extraction, log_message.
  repeat first
    [ apply preserves_emit; try apply _; exact I
    | eapply preserves_weaken;
        [apply read_cancel_flag_footprint
        | apply is_log_finish_event | auto ]
    | preserves_step; try apply _ ].
Qed.

End Footprints.

(** * Paths *)

Lemma append_nil_l (b : string) : EmptyString +:+ b = b.
Proof. reflexivity. Qed.

Lemma append_cons c (a b : string) : String c a +:+ b = String c (a +:+ b).
Proof. reflexivity. Qed.

Lemma has_sep_app a b : PyStr.has_sep (a +:+ b) = PyStr.has_sep a || PyStr.has_sep b.
Proof.
  induction a as [|c a IH]; simpl; [done|].
  rewrite IH. destruct (Ascii.eqb c "/"); reflexivity.
Qed.

Lemma rsplit_sep_app p : fst (PyStr.rsplit_sep p) +:+ snd (PyStr.rsplit_sep p) = p.
Proof.
  induction p as [|c p IH]; simpl; [done|].
  destruct (PyStr.rsplit_sep p) as [[|c' h] t]; simpl in *;
    rewrite ?append_cons, ?append_nil_l in *.
  - destruct (Ascii.eqb_spec c "/"); simpl;
      rewrite ?append_cons, ?append_nil_l; congruence.
  - congruence.
Qed.

Lemma rsplit_sep_tail p : PyStr.has_sep (snd (PyStr.rsplit_sep p)) = false.
Proof.
  induction p as [|c p IH]; simpl; [done|].
  destruct (PyStr.rsplit_sep p) as [[|c' h] t]; simpl in *; [|done].
  destruct (Ascii.eqb c "/") eqn:Hc; simpl; [done|]. rewrite Hc. done.
Qed.

Lemma rsplit_dot_app t a b : PyStr.rsplit_dot t = Some (a, b) -> a +:+ b = t.
Proof.
  revert a b. induction t as [|c t IH]; intros a b; simpl; [done|].
  destruct (PyStr.rsplit_dot t) as [[a' b']|].
  - intros [= <- <-]. rewrite append_cons. f_equal. auto.
  - destruct (Ascii.eqb c "."); [|done]. intros [= <- <-]. reflexivity.
Qed.

(** The stem of a file name holds no separator. *)
Lemma video_basename_no_sep file : PyStr.has_sep (video_basename_of file) = false.
Proof.
  unfold video_basename_of, os_path.basename, os_path.splitext.
  pose proof (rsplit_sep_tail file) as Hb.
  set (b := snd (PyStr.rsplit_sep file)) in *.
  pose proof (rsplit_sep_app b) as Hsplit.
  destruct (PyStr.rsplit_sep b) as [h t]; simpl in Hsplit.
  destruct (PyStr.rsplit_dot t) as [[stem e]|] eqn:Hdot; simpl; [|done].
  destruct (PyStr.all_dots stem); simpl; [done|].
  apply rsplit_dot_app in Hdot. subst t. subst b. rewrite <- Hsplit in Hb.
  rewrite !has_sep_app in Hb. rewrite has_sep_app.
  destruct (PyStr.has_sep h), (PyStr.has_sep stem); simpl in *; congruence.
Qed.

Lemma no_sep_not_absolute a b :
  PyStr.has_sep a = false -> PyStr.startswith (a +:+ "." +:+ b) "/" = false.
Proof.
  destruct a as [|c a]; [done|].
  rewrite append_cons. cbn -[Ascii.eqb].
  rewrite (Ascii.eqb_sym "/" c). destruct (Ascii.eqb c "/"); done.
Qed.

(** Joining a directory that is not empty and has no trailing separator
    with a relative name puts exactly one separator between them. *)
Lemma join_plain d name :
  d <> EmptyString -> PyStr.endswith d "/" = false -> PyStr.startswith name "/" = false ->
  os_path.join d name = d +:+ "/" +:+ name.
Proof.
  intros Hd He Hn. unfold os_path.join. rewrite Hn, He.
  apply String.eqb_neq in Hd. rewrite Hd. reflexivity.
Qed.

(** * One call of [extract_subtitle] *)

Ltac run_prims :=
  unfold mbind, M_bind, bind, try_except, ask, emit, modify, gets, snapshot,
    ret, raise, log, log_message.

#[local] Arguments outcomes : simpl never.

Section Calls.

Context {E : environment}.

Implicit Types (s : machine E).

Lemma read_stderr_cons line rest acc s :
  read_stderr E (line :: rest) acc s
  = let s1 := snd (read_cancel_flag E s) in
    if cancel_flag (ext s1) then (Ok None, s1)
    else read_stderr E rest (acc ++ [line]) s1.
Proof.
  simpl. unfold mbind, M_bind, bind, ret.
  pose proof (read_cancel_flag_returns s) as Hr.
  destruct (read_cancel_flag E s) as [r s1]. simpl in *. subst r.
  destruct (cancel_flag (ext s1)); reflexivity.
Qed.

(** The loop over the diagnostics either sees the flag set, or returns
    every line and has seen the flag down after each of them. *)
Lemma read_stderr_result lines : forall acc s,
  (fst (read_stderr E lines acc s) = Ok None
   /\ cancel_flag (ext (snd (read_stderr E lines acc s))) = true)
  \/ (fst (read_stderr E lines acc s) = Ok (Some (acc ++ lines))
      /\ (lines <> [] -> cancel_flag (ext (snd (read_stderr E lines acc s))) = false)).
Proof.
  induction lines as [|line rest IH]; intros acc s.
  - right. simpl. rewrite app_nil_r. split; [reflexivity | done].
  - rewrite read_stderr_cons. cbv zeta.
    set (s1 := snd (read_cancel_flag E s)).
    destruct (cancel_flag (ext s1)) eqn:Hc.
    + left. simpl. auto.
    + destruct (IH (acc ++ [line]) s1) as [H|[H1 H2]]; [left; exact H|].
      right. rewrite <- app_assoc in H1. split; [exact H1|].
      intros _. destruct rest as [|l rest]; [simpl; exact Hc | apply H2; done].
Qed.

Lemma read_stderr_counters lines acc s :
  flag_only (ext s) (ext (snd (read_stderr E lines acc s))).
Proof. apply (read_stderr_footprint lines acc s). Qed.

Lemma popen_cmds_app a b : popen_cmds (a ++ b) = popen_cmds a ++ popen_cmds b.
Proof. apply flat_map_app. Qed.

Lemma probe_cmds_app a b : probe_cmds (a ++ b) = probe_cmds a ++ probe_cmds b.
Proof. apply flat_map_app. Qed.

Lemma popen_cmds_none (P : event -> Prop) tr :
  (forall cmd, ~ P (EvPopen cmd)) -> Forall P tr -> popen_cmds tr = [].
Proof.
  intros HP. induction 1 as [|e tr He _ IH]; [done|].
  destruct e; simpl; try exact IH. destruct (HP _ He).
Qed.

Lemma probe_cmds_none (P : event -> Prop) tr :
  (forall cmd, ~ P (EvProbe cmd)) -> Forall P tr -> probe_cmds tr = [].
Proof.
  intros HP. induction 1 as [|e tr He _ IH]; [done|].
  destruct e; simpl; try exact IH. destruct (HP _ He).
Qed.

(** The three ways a call ends before the conversion tool is started. *)
Lemma extract_subtitle_makedirs_raises file idx lang fmt od ow s e w1 :
  os_makedirs E (output_dir_of file od) (wld s) = (Some e, w1) ->
  extract_subtitle E file idx lang fmt od ow s
  = (Raise e,
     {| ext := ext s; wld := w1;
        out := out s ++ [EvMakedirs (output_dir_of file od)] |}).
Proof.
  intros Hmk. unfold extract_subtitle. run_prims. simpl. rewrite Hmk.
  reflexivity.
Qed.

Lemma extract_subtitle_unknown_format file idx lang fmt od ow s w1 :
  SUBTITLE_FORMATS !! fmt = None ->
  os_makedirs E (output_dir_of file od) (wld s) = (None, w1) ->
  extract_subtitle E file idx lang fmt od ow s
  = (Ok false,
     {| ext := incr_failed (ext s);
        wld := w1;
        out := out s ++
               [EvMakedirs (output_dir_of file od);
                EvLog ("ERROR: Unsupported format " +:+ fmt)] |}).
Proof.
  intros Hfmt Hmk.
  unfold extract_subtitle. run_prims. simpl. rewrite Hmk, Hfmt. simpl.
  rewrite <- !app_assoc. reflexivity.
Qed.

Lemma extract_subtitle_existing file idx lang fmt od s fi w1 w2 :
  SUBTITLE_FORMATS !! fmt = Some fi ->
  os_makedirs E (output_dir_of file od) (wld s) = (None, w1) ->
  os_path_exists E (output_file_of file lang od (extension fi)) w1 = (true, w2) ->
  extract_subtitle E file idx lang fmt od false s
  = (Ok false,
     {| ext := incr_skipped (ext s);
        wld := w2;
        out := out s ++
               [EvMakedirs (output_dir_of file od);
                EvExists (output_file_of file lang od (extension fi));
                EvLog ("SKIPPED: Subtitle file already exists for "
                       +:+ video_basename_of file +:+ " [" +:+ lang +:+ "]")] |}).
Proof.
  intros Hfmt Hmk Hex.
  unfold extract_subtitle. run_prims. simpl. rewrite Hmk, Hfmt. simpl.
  rewrite Hex. simpl. rewrite <- !app_assoc. reflexivity.
Qed.

(** ** Claim C6 *)

(** C6. When the target of a call with a known format already exists and
    [overwrite] is false, the call logs SKIPPED, adds one to
    [skipped_extractions] and leaves every other attribute of the
    extractor as it was, returns [False] and does not start the
    conversion tool: its events are the directory creation, the existence
    test and the log line. *)
Theorem C6_existing_output_is_skipped file idx lang fmt od s fi w1 w2 :
  SUBTITLE_FORMATS !! fmt = Some fi ->
  os_makedirs E (output_dir_of file od) (wld s) = (None, w1) ->
  os_path_exists E (output_file_of file lang od (extension fi)) w1 = (true, w2) ->
  extract_subtitle E file idx lang fmt od false s
  = (Ok false,
     {| ext := {| cancel_flag := cancel_flag (ext s);
                  total_streams := total_streams (ext s);
                  processed_streams := processed_streams (ext s);
                  successful_extractions := successful_extractions (ext s);
                  failed_extractions := failed_extractions (ext s);
                  skipped_extractions := skipped_extractions (ext s) + 1 |};
        wld := w2;
        out := out s ++
               [EvMakedirs (output_dir_of file od);
                EvExists (output_file_of file lang od (extension fi));
                EvLog ("SKIPPED: Subtitle file already exists for "
                       +:+ video_basename_of file +:+ " [" +:+ lang +:+ "]")] |})
  /\ popen_cmds (out (snd (extract_subtitle E file idx lang fmt od false s)))
     = popen_cmds (out s).
Proof.
  intros Hfmt Hmk Hex.
  pose proof (extract_subtitle_existing file idx lang fmt od s fi w1 w2
                Hfmt Hmk Hex) as Hrun.
  split; [exact Hrun|].
  rewrite Hrun. simpl. rewrite popen_cmds_app. simpl. apply app_nil_r.
Qed.

(** ** Claim C3 *)

(** C3 (as the code has it).  When the loop over the tool's diagnostics
    sees the cancellation flag set, the call terminates the subprocess,
    logs CANCELLED and returns [False]; none of the three outcome
    counters changes, [failed_extractions] included. *)
Theorem C3_cancelled_midstream_is_not_counted
    file idx lang fmt od ow s fi w1 present w2 proc w3 s4 :
  let dir := output_dir_of file od in
  let target := output_file_of file lang od (extension fi) in
  let cmd := ffmpeg_cmd E file idx (ffmpeg_format fi) ow target in
  SUBTITLE_FORMATS !! fmt = Some fi ->
  os_makedirs E dir (wld s) = (None, w1) ->
  os_path_exists E target w1 = (present, w2) ->
  present && negb ow = false ->
  subprocess_Popen E cmd w2 = (inr proc, w3) ->
  read_stderr E (stderr proc) []
    {| ext := ext s; wld := w3;
       out := out s ++ [EvMakedirs dir; EvExists target; EvPopen cmd] |}
  = (Ok None, s4) ->
  extract_subtitle E file idx lang fmt od ow s
  = (Ok false,
     {| ext := ext s4; wld := wld s4;
        out := out s4 ++
               [EvTerminate;
                EvLog ("CANCELLED: Extraction cancelled for "
                       +:+ video_basename_of file +:+ " [" +:+ lang +:+ "]")] |})
  /\ cancel_flag (ext s4) = true
  /\ successful_extractions (ext s4) = successful_extractions (ext s)
  /\ failed_extractions (ext s4) = failed_extractions (ext s)
  /\ skipped_extractions (ext s4) = skipped_extractions (ext s).
Proof.
  intros dir target cmd Hfmt Hmk Hex Hskip Hpopen Hread.
  split.
  - unfold extract_subtitle. run_prims. simpl. fold dir. rewrite Hmk, Hfmt. simpl.
    fold target. rewrite Hex. simpl. rewrite Hskip. simpl. fold cmd.
    rewrite Hpopen. simpl. rewrite <- !app_assoc. simpl.
    rewrite Hread. simpl. rewrite <- !app_assoc. reflexivity.
  - pose proof (read_stderr_result (stderr proc) []
                  {| ext := ext s; wld := w3;
                     out := out s ++ [EvMakedirs dir; EvExists target; EvPopen cmd] |})
      as Hres.
    pose proof (read_stderr_counters (stderr proc) []
                  {| ext := ext s; wld := w3;
                     out := out s ++ [EvMakedirs dir; EvExists target; EvPopen cmd] |})
      as Hcnt.
    rewrite Hread in Hres, Hcnt. simpl in Hres, Hcnt.
    destruct Hres as [[_ Hflag]|[Hsome _]]; [|discriminate].
    unfold flag_only in Hcnt. tauto.
Qed.

Lemma ffmpeg_cmd_last file idx codec ow target :
  last (ffmpeg_cmd E file idx codec ow target) = Some target.
Proof. unfold ffmpeg_cmd. apply last_snoc. Qed.

Lemma popen_cmds_logs tr : Forall is_log tr -> popen_cmds tr = [].
Proof. apply popen_cmds_none. intros cmd []. Qed.

(** ** Claim C8 *)

(** C8. For a call with a format of the table, the path that is tested
    for existence, and handed to the conversion tool as its last argument
    when the tool is run, is the join of the output directory (the given
    one, else the directory of the video) with
    [<stem of the video name>.<language>.<extension of the format>];
    when that directory is not empty and has no trailing separator this
    is the directory, one separator and the name. *)
Theorem C8_output_path file idx lang fmt od ow s fi w1 :
  let dir := match od with Some d => d | None => os_path.dirname file end in
  let name := fst (os_path.splitext (os_path.basename file))
              +:+ "." +:+ lang +:+ "." +:+ extension fi in
  SUBTITLE_FORMATS !! fmt = Some fi ->
  os_makedirs E dir (wld s) = (None, w1) ->
  (exists rest,
      out (snd (extract_subtitle E file idx lang fmt od ow s))
      = out s ++ EvMakedirs dir :: EvExists (os_path.join dir name) :: rest
      /\ (popen_cmds rest = []
          \/ exists cmd, popen_cmds rest = [cmd]
                         /\ last cmd = Some (os_path.join dir name)))
  /\ (dir <> EmptyString -> PyStr.endswith dir "/" = false ->
      os_path.join dir name = dir +:+ "/" +:+ name).
Proof.
  intros dir name Hfmt Hmk. split.
  2:{ intros Hd He. apply join_plain; [done | done |].
      apply no_sep_not_absolute, video_basename_no_sep. }
  change dir with (output_dir_of file od) in *.
  change (os_path.join (output_dir_of file od) name)
    with (output_file_of file lang od (extension fi)).
  set (target := output_file_of file lang od (extension fi)).
  unfold extract_subtitle. run_prims. simpl. rewrite Hmk, Hfmt. simpl.
  fold target.
  destruct (os_path_exists E target w1) as [present w2]. simpl.
  destruct (present && negb ow); simpl.
  { eexists. split; [rewrite <- !app_assoc; reflexivity | left; reflexivity]. }
  set (cmd := ffmpeg_cmd E file idx (ffmpeg_format fi) ow target).
  assert (Hlast : last cmd = Some target) by apply ffmpeg_cmd_last.
  destruct (subprocess_Popen E cmd w2) as [[e|proc] w3]; simpl.
  { destruct e; simpl;
      (eexists; split; [rewrite <- !app_assoc; reflexivity |
                        right; exists cmd; split; [reflexivity | exact Hlast]]). }
  match goal with
  | |- context [read_stderr E ?l ?a ?s3] =>
      pose proof (read_stderr_footprint l a s3) as [_ (new & Hnew & Hlog)];
      pose proof (read_stderr_result l a s3) as Hres;
      destruct (read_stderr E l a s3) as [rr s4]
  end.
  simpl in Hnew, Hres. apply popen_cmds_logs in Hlog.
  assert (Hshape : forall tail, popen_cmds tail = [] ->
            exists rest,
              out s4 ++ tail
              = out s ++ EvMakedirs (output_dir_of file od) :: EvExists target :: rest
              /\ (popen_cmds rest = []
                  \/ exists cmd0, popen_cmds rest = [cmd0] /\ last cmd0 = Some target)).
  { intros tail Htail. exists (EvPopen cmd :: new ++ tail). split.
    - rewrite Hnew, <- !app_assoc. reflexivity.
    - right. exists cmd. split; [|exact Hlast].
      simpl. rewrite popen_cmds_app, Hlog, Htail. reflexivity. }
  destruct Hres as [[-> _]|[-> _]]; simpl.
  - rewrite <- app_assoc. apply Hshape. reflexivity.
  - destruct (negb (return_code proc =? 0)%Z); simpl.
    + destruct (PyStr.contains _ "Unknown encoder"); simpl;
        [apply Hshape; reflexivity|].
      destruct (PyStr.contains _ "Output file exists"); simpl;
        apply Hshape; reflexivity.
    + apply Hshape. reflexivity.
Qed.

(** ** Claim C9 *)

(** C9. Whatever its arguments, a call first creates the output
    directory: the creation precedes the validation of the format name
    and the test for an existing target.  It therefore also happens in a
    call that fails on an unknown format, and in one that is skipped
    because the target exists; neither of these starts the conversion
    tool. *)
Theorem C9_directory_created_first file idx lang fmt od ow s :
  exists rest,
    out (snd (extract_subtitle E file idx lang fmt od ow s))
    = out s ++ EvMakedirs (output_dir_of file od) :: rest
    /\ (SUBTITLE_FORMATS !! fmt = None -> popen_cmds rest = [])
    /\ (forall fi w1 w2,
          SUBTITLE_FORMATS !! fmt = Some fi ->
          os_makedirs E (output_dir_of file od) (wld s) = (None, w1) ->
          os_path_exists E (output_file_of file lang od (extension fi)) w1
          = (true, w2) ->
          ow = false ->
          popen_cmds rest = []).
Proof.
  destruct (extract_subtitle_footprint file idx lang fmt od ow s)
    as [_ (new & Hnew & _)].
  assert (Hfirst : exists rest, new = EvMakedirs (output_dir_of file od) :: rest).
  { revert Hnew. unfold extract_subtitle. cbv zeta.
    unfold mbind at 1, M_bind at 1, bind at 1, emit at 1.
    match goal with
    | |- context [snd (?k ?u ?s1)] =>
        assert (Hk : preserves extract_event outcome_only (k u));
          [| destruct (Hk s1) as [_ (rest & -> & _)] ]
    end.
    - unfold log.
      repeat first
        [ apply preserves_emit; try apply _; exact I
        | apply preserves_modify; try apply _;
            intros ?; unfold outcome_only; simpl; tauto
        | eapply preserves_weaken;
            [apply read_stderr_footprint
            | apply is_log_extract_event | apply flag_only_outcome_only ]
        | preserves_step; try apply _ ].
    - simpl. rewrite <- app_assoc. intros Heq%app_inv_head. eauto. }
  destruct Hfirst as [rest ->]. exists rest. split; [exact Hnew|]. split.
  - intros Hfmt.
    destruct (os_makedirs E (output_dir_of file od) (wld s)) as [[e|] w1] eqn:Hmk.
    + rewrite (extract_subtitle_makedirs_raises _ _ _ _ _ _ _ _ _ Hmk) in Hnew.
      simpl in Hnew. apply app_inv_head in Hnew. injection Hnew as <-.
      reflexivity.
    + rewrite (extract_subtitle_unknown_format _ _ _ _ _ _ _ _ Hfmt Hmk) in Hnew.
      simpl in Hnew. apply app_inv_head in Hnew. injection Hnew as <-.
      reflexivity.
  - intros fi w1 w2 Hfmt Hmk Hex ->.
    rewrite (extract_subtitle_existing _ _ _ _ _ _ _ _ _ Hfmt Hmk Hex) in Hnew.
    simpl in Hnew. apply app_inv_head in Hnew. injection Hnew as <-.
    reflexivity.
Qed.

(** ** Claim C1, for one call *)

Lemma flag_only_eq a b : flag_only a b -> cancel_flag b = false -> b = a.
Proof.
  unfold flag_only. intros (H1 & H2 & H3 & H4 & H5 & H6) Hb.
  destruct a as [fa ta pa sa fla ska], b as [fb tb pb sb flb skb].
  simpl in *. subst. destruct fa; [discriminate (H6 eq_refl) | reflexivity].
Qed.

Lemma one_outcome_recorded_outcomes a b :
  one_outcome_recorded a b -> outcomes b = outcomes a + 1.
Proof. intros [->|[->| ->]]; unfold outcomes; simpl; lia. Qed.

(** Unless the tool reports an existing output, a call changes the sum
    of the outcome counters by at most one, and by exactly one, in one
    counter, when it returns with the flag down. *)
Lemma extract_subtitle_outcome file idx lang fmt od ow s :
  no_exists_race E ->
  outcomes (ext s)
  <= outcomes (ext (snd (extract_subtitle E file idx lang fmt od ow s)))
  <= outcomes (ext s) + 1
  /\ (forall b,
        fst (extract_subtitle E file idx lang fmt od ow s) = Ok b ->
        cancel_flag (ext (snd (extract_subtitle E file idx lang fmt od ow s))) = false ->
        one_outcome_recorded (ext s)
          (ext (snd (extract_subtitle E file idx lang fmt od ow s)))).
Proof.
  intros Hrace.
  assert (Hone : forall b' e' (c : bool),
             (c = false -> one_outcome_recorded (ext s) e') ->
             outcomes (ext s) <= outcomes e' <= outcomes (ext s) + 1 ->
             outcomes (ext s) <= outcomes e' <= outcomes (ext s) + 1
             /\ (forall b : bool, Ok b' = Ok b -> c = false ->
                    one_outcome_recorded (ext s) e')).
  { intros b' e' c H1 H2. split; [exact H2 | intros _ _; exact H1]. }
  unfold extract_subtitle. run_prims. simpl.
  destruct (os_makedirs E _ (wld s)) as [[e|] w1]; simpl.
  { split; [lia | discriminate]. }
  destruct (SUBTITLE_FORMATS !! fmt) as [fi|]; simpl.
  2:{ apply Hone; [intros _; right; left; reflexivity | unfold outcomes; simpl; lia]. }
  destruct (os_path_exists E _ w1) as [present w2]. simpl.
  destruct (present && negb ow); simpl.
  { apply Hone; [intros _; right; right; reflexivity | unfold outcomes; simpl; lia]. }
  destruct (subprocess_Popen E _ w2) as [[e|proc] w3] eqn:Hpopen; simpl.
  { destruct e; simpl; try (split; [lia | discriminate]).
    apply Hone; [intros _; right; left; reflexivity | unfold outcomes; simpl; lia]. }
  match goal with
  | |- context [read_stderr E ?l ?a ?s3] =>
      pose proof (read_stderr_counters l a s3) as Hcnt;
      pose proof (read_stderr_result l a s3) as Hres;
      destruct (read_stderr E l a s3) as [rr s4]
  end.
  simpl in Hcnt, Hres.
  assert (Hsum : outcomes (ext s4) = outcomes (ext s)).
  { unfold outcomes, flag_only in *. intuition congruence. }
  assert (Hsame : forall f : extractor -> extractor,
             (forall e, cancel_flag (f e) = cancel_flag e) ->
             cancel_flag (f (ext s4)) = false -> f (ext s4) = f (ext s)).
  { intros f Hf Hc. rewrite Hf in Hc. f_equal. apply flag_only_eq; assumption. }
  destruct Hres as [[-> Hflag]|[-> _]]; simpl.
  - apply Hone; [intros Hc; congruence | lia].
  - specialize (Hrace _ _ _ _ Hpopen). unfold reports_existing_output in Hrace.
    destruct (negb (return_code proc =? 0)%Z); simpl in *.
    + destruct (PyStr.contains _ "Unknown encoder"); simpl in *.
      * apply Hone; [|unfold outcomes in *; simpl; lia].
        intros Hc. right; left. apply (Hsame incr_failed); [reflexivity | exact Hc].
      * rewrite Hrace. simpl.
        apply Hone; [|unfold outcomes in *; simpl; lia].
        intros Hc. right; left. apply (Hsame incr_failed); [reflexivity | exact Hc].
    + apply Hone; [|unfold outcomes in *; simpl; lia].
      intros Hc. left. apply (Hsame incr_successful); [reflexivity | exact Hc].
Qed.

End Calls.

(** * The two loops and the worker *)

Section Runs.

Context {E : environment}.

Implicit Types (s : machine E).

(** ** One iteration of each loop *)

Lemma scan_loop_cons wl lang file rest acc s :
  scan_loop E wl lang (file :: rest) acc s
  = let s1 := snd (read_cancel_flag E s) in
    if cancel_flag (ext s1) then (Ok acc, s1)
    else
      match get_subtitle_streams E file s1 with
      | (Ok streams, s2) =>
          let acc' := acc ++ matching_streams file lang streams in
          scan_loop E wl lang rest acc'
            {| ext := ext s2; wld := wld s2;
               out := (out s2 ++ [EvStreams file streams])
                      ++ [EvProgress (ext s2) (length acc') (length wl)
                            ("Scanning: " +:+ os_path.basename file)] |}
      | (Raise e, s2) => (Raise e, s2)
      end.
Proof.
  simpl. unfold update_ui_progress. run_prims.
  pose proof (read_cancel_flag_returns s) as Hr.
  destruct (read_cancel_flag E s) as [r s1]. simpl in *. subst r.
  destruct (cancel_flag (ext s1)); [reflexivity|].
  destruct (get_subtitle_streams E file s1) as [[streams|e] s2]; reflexivity.
Qed.

Lemma extract_loop_cons lang fmt od item rest s :
  extract_loop E lang fmt od (item :: rest) s
  = let s1 := snd (read_cancel_flag E s) in
    if cancel_flag (ext s1) then (Ok tt, s1)
    else
      let '(ow, w) := overwrite_var E (wld s1) in
      match extract_subtitle E (video_file item) (index (stream item))
              lang fmt od ow {| ext := ext s1; wld := w; out := out s1 |} with
      | (Ok _, s3) =>
          let e' := set_processed_streams (processed_streams (ext s3) + 1)
                      (ext s3) in
          extract_loop E lang fmt od rest
            {| ext := e'; wld := wld s3;
               out := out s3
                      ++ [EvProgress e' (processed_streams e') (total_streams e')
                            ("Extracting: "
                             +:+ os_path.basename (video_file item))] |}
      | (Raise e, s3) => (Raise e, s3)
      end.
Proof.
  simpl. unfold update_ui_progress. run_prims.
  pose proof (read_cancel_flag_returns s) as Hr.
  destruct (read_cancel_flag E s) as [r s1]. simpl in *. subst r.
  destruct (cancel_flag (ext s1)); [reflexivity|].
  destruct (overwrite_var E (wld s1)) as [ow w]. simpl.
  destruct (extract_subtitle E _ _ _ _ _ _ _) as [[b|e] s3]; reflexivity.
Qed.

(** ** Moving facts along an evolution *)

Lemma evolves_Forall (P Q : event -> Prop) R s s' :
  evolves P R s s' -> (forall e, P e -> Q e) ->
  Forall Q (out s) -> Forall Q (out s').
Proof.
  intros [_ (new & -> & Hnew)] HPQ Hs. apply Forall_app. split; [done|].
  eapply Forall_impl; eauto.
Qed.

Lemma evolves_popen_cmds (P : event -> Prop) R s s' :
  evolves P R s s' -> (forall cmd, ~ P (EvPopen cmd)) ->
  popen_cmds (out s') = popen_cmds (out s).
Proof.
  intros [_ (new & -> & Hnew)] HP. rewrite popen_cmds_app.
  rewrite (popen_cmds_none P new HP Hnew). apply app_nil_r.
Qed.

Lemma evolves_probe_cmds (P : event -> Prop) R s s' :
  evolves P R s s' -> (forall cmd, ~ P (EvProbe cmd)) ->
  probe_cmds (out s') = probe_cmds (out s).
Proof.
  intros [_ (new & -> & Hnew)] HP. rewrite probe_cmds_app.
  rewrite (probe_cmds_none P new HP Hnew). apply app_nil_r.
Qed.

(** ** Footprints of the loops and of the worker *)

Lemma scan_message_yes file :
  is_scan_message ("Scanning: " +:+ os_path.basename file) = true.
Proof. reflexivity. Qed.

Lemma scan_message_no file :
  is_scan_message ("Extracting: " +:+ os_path.basename file) = false.
Proof. reflexivity. Qed.

Lemma scan_loop_footprint wl lang remaining :
  forall acc, preserves scan_event flag_only (scan_loop E wl lang remaining acc).
Proof.
  induction remaining as [|file rest IH]; intros acc; simpl.
  - apply preserves_ret; apply _.
  - unfold update_ui_progress.
    repeat first
      [ apply IH
      | apply preserves_emit; try apply _; first [exact I | apply scan_message_yes]
      | eapply preserves_weaken;
          [apply read_cancel_flag_footprint | by intros [] | auto]
      | eapply preserves_weaken;
          [apply get_subtitle_streams_footprint | by intros [] | apply eq_flag_only]
      | preserves_step; try apply _ ].
Qed.

Lemma extract_loop_footprint lang fmt od items :
  preserves tail_event plan_kept (extract_loop E lang fmt od items).
Proof.
  induction items as [|item rest IH]; simpl.
  - apply preserves_ret; apply _.
  - unfold update_ui_progress.
    repeat first
      [ apply IH
      | apply preserves_emit; try apply _; first [exact I | apply scan_message_no]
      | apply preserves_modify; try apply _;
          intros ?; unfold plan_kept; simpl; tauto
      | eapply preserves_weaken;
          [apply read_cancel_flag_footprint | by intros []
          | unfold flag_only, plan_kept; tauto]
      | eapply preserves_weaken;
          [apply extract_subtitle_footprint | by intros []
          | unfold outcome_only, plan_kept; tauto]
      | preserves_step; try apply _ ].
Qed.

Lemma finish_extraction_ok s : fst (finish_extraction E s) = Ok tt.
Proof.
  unfold finish_extraction, log_message. run_prims. simpl.
  destruct (0 <? total_streams (ext s))%nat; [|reflexivity].
  match goal with
  | |- context [read_cancel_flag E ?s1] =>
      pose proof (read_cancel_flag_returns s1) as Hr;
      destruct (read_cancel_flag E s1) as [r s2]
  end.
  simpl in Hr. subst r.
  destruct (cancel_flag (ext s2)); [reflexivity|].
  match goal with
  | |- context [if ?b then _ else _] => destruct b; [|reflexivity]
  end.
  simpl. destruct (elapsed_str E (wld s2)). reflexivity.
Qed.

Lemma finish_extraction_run s :
  exists s', finish_extraction E s = (Ok tt, s')
             /\ evolves finish_event flag_only s s'.
Proof.
  exists (snd (finish_extraction E s)). split.
  - pose proof (finish_extraction_ok s).
    destruct (finish_extraction E s) as [r s']. simpl in *. congruence.
  - apply finish_extraction_footprint.
Qed.

Lemma logged_evolves s message (P : event -> Prop) :
  P (EvLog message) -> evolves P flag_only s (logged s message).
Proof.
  intros HP. split; [reflexivity|]. exists [EvLog message]. split; [done|].
  repeat constructor. exact HP.
Qed.

(** The [except] and [finally] clauses: the run returns normally and
    ends with log lines and the clean-up. *)
Lemma run_extraction_wrap dirs lang fmt od s :
  fst (run_extraction E dirs lang fmt od s) = Ok tt
  /\ evolves finish_event flag_only
       (snd (run_extraction_try E dirs lang fmt od s))
       (snd (run_extraction E dirs lang fmt od s)).
Proof.
  unfold run_extraction, try_finally, try_except.
  destruct (run_extraction_try E dirs lang fmt od s) as [[[]|e] sb]; simpl.
  - destruct (finish_extraction_run sb) as (s' & -> & Hev). auto.
  - unfold log_message, emit.
    match goal with
    | |- context [finish_extraction E ?s1] =>
        destruct (finish_extraction_run s1) as (s' & -> & Hev)
    end.
    split; [reflexivity|]. simpl.
    eapply evolves_trans; [apply _| |exact Hev].
    apply (logged_evolves sb). exact I.
Qed.

(** The course of the [try] body: an enumeration, the scan loop, and
    the extraction loop when there are tasks. *)
Lemma run_extraction_try_cases dirs lang fmt od s :
  match collect_video_files E dirs [] with
  | [] => evolves finish_event flag_only s
            (snd (run_extraction_try E dirs lang fmt od s))
  | wl =>
      exists message,
        match scan_loop E wl lang wl [] (logged s message) with
        | (Raise e, s2) => snd (run_extraction_try E dirs lang fmt od s) = s2
        | (Ok [], s2) =>
            evolves finish_event flag_only (planned s2 0)
              (snd (run_extraction_try E dirs lang fmt od s))
        | (Ok tasks, s2) =>
            exists message',
              evolves finish_event flag_only
                (snd (extract_loop E lang fmt od tasks
                        (started s2 (length tasks) message')))
                (snd (run_extraction_try E dirs lang fmt od s))
        end
  end.
Proof.
  unfold run_extraction_try.
  destruct (collect_video_files E dirs []) as [|f wl].
  - unfold log_message. run_prims.
    match goal with
    | |- context [finish_extraction E ?s1] =>
        destruct (finish_extraction_run s1) as (s' & -> & Hev)
    end.
    simpl. eapply evolves_trans; [apply _| |exact Hev].
    apply (logged_evolves s). exact I.
  - unfold log_message, logged, planned, started. run_prims.
    match goal with
    | |- context [scan_loop E _ _ _ _ {| ext := _; wld := _; out := _ ++ [EvLog ?m] |}] =>
        exists m
    end.
    destruct (scan_loop E _ _ _ _ _) as [[tasks|e] s2]; [|reflexivity].
    destruct tasks as [|t tasks]; cbn [ext wld out].
    + match goal with
      | |- context [finish_extraction E ?s1] =>
          destruct (finish_extraction_run s1) as (s' & -> & Hev)
      end.
      simpl. eapply evolves_trans; [apply _| |exact Hev].
      apply (logged_evolves (planned s2 0)). exact I.
    + match goal with
      | |- context [extract_loop E _ _ _ _ {| ext := _; wld := _; out := _ ++ [EvLog ?m] |}] =>
          exists m
      end.
      destruct (extract_loop E _ _ _ _ _) as [[[]|e] s4]; cbn [ext wld out snd];
        [|apply evolves_refl; apply _].
      pose proof (read_cancel_flag_footprint s4) as Hrd.
      pose proof (read_cancel_flag_returns s4) as Hret.
      destruct (read_cancel_flag E s4) as [r s5]. simpl in *. subst r.
      eapply evolves_trans;
        [apply _
        | eapply evolves_weaken; [apply is_log_finish_event| |exact Hrd]; auto |].
      destruct (cancel_flag (ext s5)); simpl;
        apply (logged_evolves s5); exact I.
Qed.

(** The course of a run. *)
Lemma run_extraction_cases dirs lang fmt od s :
  fst (run_extraction E dirs lang fmt od s) = Ok tt /\
  match collect_video_files E dirs [] with
  | [] => evolves finish_event flag_only s
            (snd (run_extraction E dirs lang fmt od s))
  | wl =>
      exists message,
        match scan_loop E wl lang wl [] (logged s message) with
        | (Raise e, s2) =>
            evolves finish_event flag_only s2
              (snd (run_extraction E dirs lang fmt od s))
        | (Ok [], s2) =>
            evolves finish_event flag_only (planned s2 0)
              (snd (run_extraction E dirs lang fmt od s))
        | (Ok tasks, s2) =>
            exists message',
              evolves finish_event flag_only
                (snd (extract_loop E lang fmt od tasks
                        (started s2 (length tasks) message')))
                (snd (run_extraction E dirs lang fmt od s))
        end
  end.
Proof.
  destruct (run_extraction_wrap dirs lang fmt od s) as [Hok Hwrap].
  split; [exact Hok|].
  pose proof (run_extraction_try_cases dirs lang fmt od s) as Hbody.
  destruct (collect_video_files E dirs []) as [|f wl].
  - eapply evolves_trans; [apply _|exact Hbody|exact Hwrap].
  - destruct Hbody as [message Hbody]. exists message.
    destruct (scan_loop E _ _ _ _ _) as [[tasks|e] s2].
    + destruct tasks as [|t tasks].
      * eapply evolves_trans; [apply _|exact Hbody|exact Hwrap].
      * destruct Hbody as [message' Hbody]. exists message'.
        eapply evolves_trans; [apply _|exact Hbody|exact Hwrap].
    + rewrite <- Hbody. exact Hwrap.
Qed.

(** ** Claim C10 *)

Lemma read_cancel_flag_set s :
  cancel_flag (ext s) = true ->
  cancel_flag (ext (snd (read_cancel_flag E s))) = true.
Proof. intros Hc. apply (read_cancel_flag_footprint s). exact Hc. Qed.

(** With the flag up, the scan loop stops at its first check. *)
Lemma scan_loop_cancelled wl lang remaining acc s :
  cancel_flag (ext s) = true ->
  fst (scan_loop E wl lang remaining acc s) = Ok acc
  /\ evolves is_log flag_only s (snd (scan_loop E wl lang remaining acc s)).
Proof.
  intros Hc. destruct remaining as [|file rest].
  - simpl. split; [reflexivity | apply evolves_refl; apply _].
  - rewrite scan_loop_cons. cbv zeta.
    rewrite (read_cancel_flag_set s Hc). simpl.
    split; [reflexivity | apply read_cancel_flag_footprint].
Qed.

(** With the flag up, the extraction loop stops at its first check. *)
Lemma extract_loop_cancelled lang fmt od items s :
  cancel_flag (ext s) = true ->
  evolves is_log flag_only s (snd (extract_loop E lang fmt od items s)).
Proof.
  intros Hc. destruct items as [|item rest].
  - simpl. apply evolves_refl; apply _.
  - rewrite extract_loop_cons. cbv zeta.
    rewrite (read_cancel_flag_set s Hc). simpl.
    apply read_cancel_flag_footprint.
Qed.

Lemma run_extraction_cancelled dirs lang fmt od s :
  cancel_flag (ext s) = true ->
  exists new,
    out (snd (run_extraction E dirs lang fmt od s)) = out s ++ new
    /\ Forall finish_event new
    /\ cancel_flag (ext (snd (run_extraction E dirs lang fmt od s))) = true
    /\ processed_streams (ext (snd (run_extraction E dirs lang fmt od s)))
       = processed_streams (ext s)
    /\ outcomes (ext (snd (run_extraction E dirs lang fmt od s)))
       = outcomes (ext s).
Proof.
  intros Hc.
  set (kept := fun a b : extractor =>
                 cancel_flag b = true
                 /\ processed_streams b = processed_streams a
                 /\ outcomes b = outcomes a).
  assert (Hgoal : kept (ext s) (ext (snd (run_extraction E dirs lang fmt od s)))
                  /\ exists new,
                       out (snd (run_extraction E dirs lang fmt od s)) = out s ++ new
                       /\ Forall finish_event new).
  2:{ destruct Hgoal as [(H1 & H2 & H3) (new & H4 & H5)]. exists new. auto. }
  assert (Hstep : forall s0 s1,
             cancel_flag (ext s0) = true -> evolves finish_event flag_only s0 s1 ->
             kept (ext s0) (ext s1)).
  { intros s0 s1 H0 [Hfo _]. unfold kept, outcomes, flag_only in *.
    intuition congruence. }
  destruct (run_extraction_cases dirs lang fmt od s) as [_ Hcases].
  destruct (collect_video_files E dirs []) as [|f wl].
  - split; [apply Hstep; assumption | apply Hcases].
  - destruct Hcases as [message Hcases].
    destruct (scan_loop_cancelled (f :: wl) lang (f :: wl) [] (logged s message) Hc)
      as [Hok Hscan].
    destruct (scan_loop E _ _ _ _ _) as [r s2]. simpl in Hok, Hscan. subst r.
    assert (Hc2 : cancel_flag (ext s2) = true) by (apply Hscan; exact Hc).
    assert (Hall : evolves finish_event flag_only s s2).
    { eapply evolves_trans; [apply _|apply (logged_evolves s message); exact I|].
      eapply evolves_weaken; [apply is_log_finish_event| |exact Hscan]; auto. }
    destruct (Hstep s s2 Hc Hall) as (_ & Hp & Ho).
    destruct (Hstep (planned s2 0) _ Hc2 Hcases) as (Hc' & Hp' & Ho').
    split.
    + unfold kept. simpl in *. unfold outcomes in *. simpl in *. repeat split; congruence.
    + destruct Hall as [_ (n1 & E1 & F1)]. destruct Hcases as [_ (n2 & E2 & F2)].
      exists (n1 ++ n2). simpl in E2. rewrite E2, E1, app_assoc.
      split; [reflexivity | apply Forall_app; auto].
Qed.

(** C10. [cancel] raises the flag and [reset] lowers it; a probe, an
    extraction, either loop and a whole run leave a raised flag raised.
    So a run that starts with the flag up (a run that follows a cancelled
    one with no [reset] in between) stops at its first check: it adds
    only log lines and the clean-up to the trace, runs neither tool, and
    leaves the number of processed streams and the outcome counters as
    they were. *)
Theorem C10_cancel_flag_is_sticky dirs lang fmt od file idx ow wl items acc s :
  cancel_flag (ext (snd (cancel E s))) = true
  /\ cancel_flag (ext (snd (reset E s))) = false
  /\ (cancel_flag (ext s) = true ->
      cancel_flag (ext (snd (get_subtitle_streams E file s))) = true
      /\ cancel_flag (ext (snd (extract_subtitle E file idx lang fmt od ow s))) = true
      /\ cancel_flag (ext (snd (scan_loop E wl lang wl acc s))) = true
      /\ cancel_flag (ext (snd (extract_loop E lang fmt od items s))) = true
      /\ exists new,
           out (snd (run_extraction E dirs lang fmt od s)) = out s ++ new
           /\ Forall finish_event new
           /\ probe_cmds new = []
           /\ popen_cmds new = []
           /\ cancel_flag (ext (snd (run_extraction E dirs lang fmt od s))) = true
           /\ processed_streams (ext (snd (run_extraction E dirs lang fmt od s)))
              = processed_streams (ext s)
           /\ outcomes (ext (snd (run_extraction E dirs lang fmt od s)))
              = outcomes (ext s)).
Proof.
  split; [reflexivity|]. split; [reflexivity|]. intros Hc.
  split.
  { destruct (get_subtitle_streams_footprint file s) as [<- _]. exact Hc. }
  split.
  { destruct (extract_subtitle_footprint file idx lang fmt od ow s) as [Hr _].
    apply Hr. exact Hc. }
  split.
  { destruct (scan_loop_footprint wl lang wl acc s) as [Hr _].
    apply Hr. exact Hc. }
  split.
  { destruct (extract_loop_footprint lang fmt od items s) as [Hr _].
    apply Hr. exact Hc. }
  destruct (run_extraction_cancelled dirs lang fmt od s Hc)
    as (new & H1 & H2 & H3 & H4 & H5).
  exists new. repeat split; try assumption.
  - apply (probe_cmds_none finish_event); [intros cmd [] | exact H2].
  - apply (popen_cmds_none finish_event); [intros cmd [] | exact H2].
Qed.

(** ** The work list and the probes (for claim C4) *)

Lemma collect_video_files_app dirs : forall acc,
  collect_video_files E dirs acc = acc ++ flat_map (get_video_files E) dirs.
Proof.
  induction dirs as [|d dirs IH]; intros acc; simpl.
  - symmetry. apply app_nil_r.
  - rewrite IH, <- app_assoc. reflexivity.
Qed.

(** The scan loop probes the files it is given in order, one probe per
    entry, up to the point where it stops. *)
Lemma scan_loop_probes wl lang remaining : forall acc s,
  exists k,
    probe_cmds (out (snd (scan_loop E wl lang remaining acc s)))
    = probe_cmds (out s) ++ map ffprobe_cmd (take k remaining).
Proof.
  induction remaining as [|file rest IH]; intros acc s.
  - exists 0. simpl. symmetry. apply app_nil_r.
  - rewrite scan_loop_cons. cbv zeta.
    pose proof (read_cancel_flag_footprint s) as Hrd.
    apply evolves_probe_cmds in Hrd; [|intros cmd []].
    set (s1 := snd (read_cancel_flag E s)) in *.
    destruct (cancel_flag (ext s1)).
    { exists 0. simpl. rewrite Hrd. symmetry. apply app_nil_r. }
    destruct (get_subtitle_streams_probe file s1) as (new & Hnew & Hlog & _).
    assert (Hp2 : probe_cmds (out (snd (get_subtitle_streams E file s1)))
                  = probe_cmds (out s) ++ [ffprobe_cmd file]).
    { rewrite Hnew, probe_cmds_app, Hrd. simpl.
      rewrite (probe_cmds_none is_log new); [reflexivity | intros cmd [] | exact Hlog]. }
    destruct (get_subtitle_streams E file s1) as [[streams|e] s2]; simpl in Hp2.
    + match goal with
      | |- context [scan_loop E wl lang rest ?a ?s3] =>
          destruct (IH a s3) as [k Hk]
      end.
      exists (S k). rewrite Hk. simpl. rewrite !probe_cmds_app, Hp2. simpl.
      rewrite !app_nil_r, <- app_assoc. reflexivity.
    + exists 1. simpl. rewrite Hp2. reflexivity.
Qed.

(** ** An unknown format in a run (for claim C2) *)

Lemma extract_subtitle_unknown_popen file idx lang fmt od ow s :
  SUBTITLE_FORMATS !! fmt = None ->
  popen_cmds (out (snd (extract_subtitle E file idx lang fmt od ow s)))
  = popen_cmds (out s).
Proof.
  intros Hfmt.
  destruct (os_makedirs E (output_dir_of file od) (wld s)) as [[e|] w1] eqn:Hmk.
  - rewrite (extract_subtitle_makedirs_raises _ _ _ _ _ _ _ _ _ Hmk). simpl.
    rewrite popen_cmds_app. simpl. apply app_nil_r.
  - rewrite (extract_subtitle_unknown_format _ _ _ _ _ _ _ _ Hfmt Hmk). simpl.
    rewrite popen_cmds_app. simpl. apply app_nil_r.
Qed.

Lemma extract_loop_unknown_popen lang fmt od items :
  SUBTITLE_FORMATS !! fmt = None ->
  forall s,
    popen_cmds (out (snd (extract_loop E lang fmt od items s)))
    = popen_cmds (out s).
Proof.
  intros Hfmt. induction items as [|item rest IH]; intros s; [reflexivity|].
  rewrite extract_loop_cons. cbv zeta.
  pose proof (read_cancel_flag_footprint s) as Hrd.
  apply evolves_popen_cmds in Hrd; [|intros cmd []].
  set (s1 := snd (read_cancel_flag E s)) in *.
  destruct (cancel_flag (ext s1)); [exact Hrd|].
  destruct (overwrite_var E (wld s1)) as [ow w].
  match goal with
  | |- context [extract_subtitle E ?a ?b ?c ?d ?e ?f ?s2] =>
      pose proof (extract_subtitle_unknown_popen a b c d e f s2 Hfmt) as Hex;
      destruct (extract_subtitle E a b c d e f s2) as [[b0|e0] s3]
  end; simpl in Hex.
  - rewrite IH. simpl. rewrite popen_cmds_app, Hex. simpl.
    rewrite app_nil_r. exact Hrd.
  - simpl. rewrite Hex. exact Hrd.
Qed.

Lemma run_unknown_format_popen dirs lang fmt od s :
  SUBTITLE_FORMATS !! fmt = None ->
  popen_cmds (out (snd (run_extraction E dirs lang fmt od s)))
  = popen_cmds (out s).
Proof.
  intros Hfmt.
  assert (Hfin : forall s0 s1, evolves finish_event flag_only s0 s1 ->
                   popen_cmds (out s1) = popen_cmds (out s0)).
  { intros s0 s1 H. apply (evolves_popen_cmds _ _ _ _ H). intros cmd []. }
  destruct (run_extraction_cases dirs lang fmt od s) as [_ Hcases].
  destruct (collect_video_files E dirs []) as [|f wl]; [apply Hfin, Hcases|].
  destruct Hcases as [message Hcases].
  pose proof (scan_loop_footprint (f :: wl) lang (f :: wl) [] (logged s message))
    as Hscan.
  apply evolves_popen_cmds in Hscan; [|intros cmd []].
  assert (Hlog : popen_cmds (out (logged s message)) = popen_cmds (out s)).
  { simpl. rewrite popen_cmds_app. simpl. apply app_nil_r. }
  rewrite Hlog in Hscan.
  destruct (scan_loop E _ _ _ _ _) as [[tasks|e] s2]; simpl in Hscan.
  - destruct tasks as [|t tasks].
    + rewrite (Hfin _ _ Hcases). exact Hscan.
    + destruct Hcases as [message' Hcases]. rewrite (Hfin _ _ Hcases).
      rewrite (extract_loop_unknown_popen lang fmt od (t :: tasks) Hfmt).
      simpl. rewrite popen_cmds_app, Hscan. simpl. apply app_nil_r.
  - rewrite (Hfin _ _ Hcases). exact Hscan.
Qed.

(** ** Claim C5 *)

Lemma found_so_far_app lang a b :
  found_so_far lang (a ++ b) = found_so_far lang a + found_so_far lang b.
Proof. unfold found_so_far. rewrite flat_map_app. apply length_app. Qed.

Lemma scan_callbacks_ok_app lang n a : forall k b,
  scan_callbacks_ok lang n k (a ++ b)
  <-> scan_callbacks_ok lang n k a
      /\ scan_callbacks_ok lang n (k + found_so_far lang a) b.
Proof.
  induction a as [|e a IH]; intros k b.
  - simpl. rewrite Nat.add_0_r. tauto.
  - destruct e; simpl; rewrite ?IH; try tauto.
    unfold found_so_far at 2. simpl. rewrite length_app.
    fold (found_so_far lang a). rewrite Nat.add_assoc. tauto.
Qed.

Lemma beside_scan_ok lang n tr :
  Forall beside_scan tr ->
  found_so_far lang tr = 0 /\ forall k, scan_callbacks_ok lang n k tr.
Proof.
  induction 1 as [|e tr He _ [IH1 IH2]]; [split; [reflexivity | intros; exact I]|].
  destruct e; simpl in *; try (split; [exact IH1 | exact IH2]); [done|].
  split; [exact IH1|]. intros k. split; [congruence | apply IH2].
Qed.

Lemma evolves_beside_scan (P : event -> Prop) R lang n s s' :
  evolves P R s s' -> (forall e, P e -> beside_scan e) ->
  exists new, out s' = out s ++ new
              /\ found_so_far lang new = 0
              /\ forall k, scan_callbacks_ok lang n k new.
Proof.
  intros [_ (new & Hnew & Hall)] HP. exists new. split; [exact Hnew|].
  apply beside_scan_ok. eapply Forall_impl; eauto.
Qed.

(** The callbacks of the scan loop. *)
Lemma scan_loop_callbacks wl lang remaining : forall acc s,
  exists new,
    out (snd (scan_loop E wl lang remaining acc s)) = out s ++ new
    /\ scan_callbacks_ok lang (length wl) (length acc) new.
Proof.
  induction remaining as [|file rest IH]; intros acc s.
  - exists []. simpl. rewrite app_nil_r. auto.
  - rewrite scan_loop_cons. cbv zeta.
    destruct (evolves_beside_scan is_log flag_only lang (length wl)
                s (snd (read_cancel_flag E s)))
      as (n1 & E1 & F1 & K1);
      [apply read_cancel_flag_footprint | by intros [] |].
    set (s1 := snd (read_cancel_flag E s)) in *.
    destruct (cancel_flag (ext s1)); [exists n1; auto|].
    destruct (evolves_beside_scan probe_event eq lang (length wl)
                s1 (snd (get_subtitle_streams E file s1)))
      as (n2 & E2 & F2 & K2);
      [apply get_subtitle_streams_footprint | by intros [] |].
    destruct (get_subtitle_streams E file s1) as [[streams|e] s2]; simpl in E2.
    + match goal with
      | |- context [scan_loop E wl lang rest ?a ?s3] =>
          destruct (IH a s3) as (n3 & E3 & K3)
      end.
      simpl in E3.
      exists (n1 ++ n2 ++ [EvStreams file streams;
                           EvProgress (ext s2)
                             (length (acc ++ matching_streams file lang streams))
                             (length wl)
                             ("Scanning: " +:+ os_path.basename file)] ++ n3).
      split.
      * rewrite E3, E2, E1, <- !app_assoc. reflexivity.
      * rewrite !scan_callbacks_ok_app, F1, F2, !Nat.add_0_r.
        split; [apply K1|]. split; [apply K2|]. split.
        -- simpl. split; [|exact I]. intros _. split; [apply length_app | reflexivity].
        -- unfold found_so_far at 1. simpl. rewrite app_nil_r.
           rewrite length_app in K3. exact K3.
    + simpl. exists (n1 ++ n2). split.
      * rewrite E2, E1, <- app_assoc. reflexivity.
      * rewrite scan_callbacks_ok_app. split; [apply K1 | apply K2].
Qed.

Lemma scan_callbacks_ok_log lang n k message tr :
  scan_callbacks_ok lang n k tr ->
  scan_callbacks_ok lang n k (EvLog message :: tr).
Proof. intros H. exact H. Qed.

Lemma run_scan_callbacks dirs lang fmt od s :
  exists new,
    out (snd (run_extraction E dirs lang fmt od s)) = out s ++ new
    /\ scan_callbacks_ok lang (length (collect_video_files E dirs [])) 0 new.
Proof.
  assert (Hfin : forall s0 s1,
             evolves finish_event flag_only s0 s1 ->
             exists new, out s1 = out s0 ++ new /\ found_so_far lang new = 0
               /\ forall k, scan_callbacks_ok lang
                              (length (collect_video_files E dirs [])) k new).
  { intros s0 s1 H. apply (evolves_beside_scan finish_event flag_only); [exact H|].
    by intros []. }
  destruct (run_extraction_cases dirs lang fmt od s) as [_ Hcases].
  destruct (collect_video_files E dirs []) as [|f wl] eqn:Hwl.
  - destruct (Hfin _ _ Hcases) as (new & H1 & _ & H2). eauto.
  - destruct Hcases as [message Hcases].
    destruct (scan_loop_callbacks (f :: wl) lang (f :: wl) [] (logged s message))
      as (n2 & E2 & K2).
    destruct (scan_loop E _ _ _ _ _) as [[tasks|e] s2];
      unfold logged in E2; cbn [snd out length] in E2, K2.
    + destruct tasks as [|t tasks].
      * destruct (Hfin _ _ Hcases) as (n3 & E3 & _ & K3).
        cbn [planned out] in E3. exists (EvLog message :: n2 ++ n3). split.
        -- rewrite E3, E2, <- !app_assoc. reflexivity.
        -- apply scan_callbacks_ok_log, scan_callbacks_ok_app.
           split; [exact K2 | apply K3].
      * destruct Hcases as [message' Hcases].
        destruct (evolves_beside_scan tail_event plan_kept lang
                    (length (f :: wl))
                    (started s2 (length (t :: tasks)) message')
                    (snd (extract_loop E lang fmt od (t :: tasks)
                            (started s2 (length (t :: tasks)) message'))))
          as (n3 & E3 & F3 & K3);
          [apply extract_loop_footprint | by intros [] |].
        destruct (Hfin _ _ Hcases) as (n4 & E4 & _ & K4).
        exists (EvLog message :: n2 ++ EvLog message' :: n3 ++ n4). split.
        -- rewrite E4, E3. cbn [started out]. rewrite E2, <- !app_assoc.
           reflexivity.
        -- apply scan_callbacks_ok_log, scan_callbacks_ok_app.
           split; [exact K2|].
           apply scan_callbacks_ok_log, scan_callbacks_ok_app.
           split; [apply K3 | apply K4].
    + destruct (Hfin _ _ Hcases) as (n3 & E3 & _ & K3).
      exists (EvLog message :: n2 ++ n3). split.
      * rewrite E3, E2, <- !app_assoc. reflexivity.
      * apply scan_callbacks_ok_log, scan_callbacks_ok_app.
        split; [exact K2 | apply K3].
Qed.

Lemma probes_reported_skip a b :
  Forall beside_scan a -> probes_reported b -> probes_reported (a ++ b).
Proof.
  intros Ha Hb. induction Ha as [|e a He _ IH]; [exact Hb|].
  destruct e; simpl in *; try exact IH. destruct He.
Qed.

Lemma probes_reported_at pre : forall f streams post,
  probes_reported (pre ++ EvStreams f streams :: post) ->
  exists snap current total message post',
    post = EvProgress snap current total message :: post'
    /\ is_scan_message message = true.
Proof.
  induction pre as [|e pre IH]; intros f streams post H.
  - simpl in H. destruct H as [H _].
    destruct post as [|[] post']; try destruct H. eauto 10.
  - destruct e; simpl in H; try (apply (IH _ _ _ H)).
    destruct H as [_ H]. apply (IH _ _ _ H).
Qed.

Lemma evolves_beside_new (P : event -> Prop) R s s' :
  evolves P R s s' -> (forall e, P e -> beside_scan e) ->
  exists new, out s' = out s ++ new /\ Forall beside_scan new.
Proof.
  intros [_ (new & Hnew & Hall)] HP. exists new. split; [exact Hnew|].
  eapply Forall_impl; eauto.
Qed.

(** The scan loop reports every probe that returns. *)
Lemma scan_loop_reports wl lang remaining : forall acc s,
  exists new,
    out (snd (scan_loop E wl lang remaining acc s)) = out s ++ new
    /\ probes_reported new.
Proof.
  induction remaining as [|file rest IH]; intros acc s.
  - exists []. simpl. rewrite app_nil_r. auto.
  - rewrite scan_loop_cons. cbv zeta.
    destruct (evolves_beside_new is_log flag_only s (snd (read_cancel_flag E s)))
      as (n1 & E1 & F1); [apply read_cancel_flag_footprint | by intros [] |].
    set (s1 := snd (read_cancel_flag E s)) in *.
    destruct (cancel_flag (ext s1)).
    { exists n1. split; [exact E1|].
      rewrite <- (app_nil_r n1). apply probes_reported_skip; [exact F1 | exact I]. }
    destruct (evolves_beside_new probe_event eq s1
                (snd (get_subtitle_streams E file s1)))
      as (n2 & E2 & F2); [apply get_subtitle_streams_footprint | by intros [] |].
    destruct (get_subtitle_streams E file s1) as [[streams|e] s2]; simpl in E2.
    + match goal with
      | |- context [scan_loop E wl lang rest ?a ?s3] =>
          destruct (IH a s3) as (n3 & E3 & K3)
      end.
      simpl in E3.
      exists (n1 ++ n2 ++ EvStreams file streams
                 :: EvProgress (ext s2)
                      (length (acc ++ matching_streams file lang streams))
                      (length wl)
                      ("Scanning: " +:+ os_path.basename file) :: n3).
      split.
      * rewrite E3, E2, E1, <- !app_assoc. reflexivity.
      * apply probes_reported_skip; [exact F1|].
        apply probes_reported_skip; [exact F2|].
        simpl. split; [reflexivity | exact K3].
    + simpl. exists (n1 ++ n2). split.
      * rewrite E2, E1, <- app_assoc. reflexivity.
      * apply probes_reported_skip; [exact F1|].
        rewrite <- (app_nil_r n2). apply probes_reported_skip; [exact F2 | exact I].
Qed.

Lemma run_reports dirs lang fmt od s :
  exists new,
    out (snd (run_extraction E dirs lang fmt od s)) = out s ++ new
    /\ probes_reported new.
Proof.
  assert (Hfin : forall s0 s1,
             evolves finish_event flag_only s0 s1 ->
             exists new, out s1 = out s0 ++ new /\ Forall beside_scan new).
  { intros s0 s1 H. apply (evolves_beside_new finish_event flag_only); [exact H|].
    by intros []. }
  assert (Hquiet : forall a, Forall beside_scan a -> probes_reported a).
  { intros a Ha. rewrite <- (app_nil_r a).
    apply probes_reported_skip; [exact Ha | exact I]. }
  destruct (run_extraction_cases dirs lang fmt od s) as [_ Hcases].
  destruct (collect_video_files E dirs []) as [|f wl].
  - destruct (Hfin _ _ Hcases) as (new & H1 & H2). eauto.
  - destruct Hcases as [message Hcases].
    destruct (scan_loop_reports (f :: wl) lang (f :: wl) [] (logged s message))
      as (n2 & E2 & K2).
    assert (Hjoin : forall n3, Forall beside_scan n3 ->
              probes_reported (EvLog message :: n2 ++ n3)).
    { intros n3 H3. simpl. clear E2.
      induction n2 as [|e n2 IH]; [apply Hquiet; exact H3|].
      destruct e; simpl in *; try (apply IH; exact K2).
      destruct K2 as [K2a K2b]. split; [|apply IH; exact K2b].
      destruct n2 as [|[] n2]; simpl in *; try destruct K2a. reflexivity. }
    destruct (scan_loop E _ _ _ _ _) as [[tasks|e] s2];
      unfold logged in E2; cbn [snd out] in E2.
    + destruct tasks as [|t tasks].
      * destruct (Hfin _ _ Hcases) as (n3 & E3 & F3).
        cbn [planned out] in E3. exists (EvLog message :: n2 ++ n3). split.
        -- rewrite E3, E2, <- !app_assoc. reflexivity.
        -- apply Hjoin. exact F3.
      * destruct Hcases as [message' Hcases].
        destruct (evolves_beside_new tail_event plan_kept
                    (started s2 (length (t :: tasks)) message')
                    (snd (extract_loop E lang fmt od (t :: tasks)
                            (started s2 (length (t :: tasks)) message'))))
          as (n3 & E3 & F3);
          [apply extract_loop_footprint | by intros [] |].
        destruct (Hfin _ _ Hcases) as (n4 & E4 & F4).
        exists (EvLog message :: n2 ++ (EvLog message' :: n3 ++ n4)). split.
        -- rewrite E4, E3. cbn [started out]. rewrite E2, <- !app_assoc.
           reflexivity.
        -- apply Hjoin. constructor; [exact I|]. apply Forall_app. auto.
    + destruct (Hfin _ _ Hcases) as (n3 & E3 & F3).
      exists (EvLog message :: n2 ++ n3). split.
      * rewrite E3, E2, <- !app_assoc. reflexivity.
      * apply Hjoin. exact F3.
Qed.

(** C5 (as the code has it).  In a run of a fresh extractor, the return
    of each probe is followed at once by a scan-progress callback, and
    every scan-progress callback carries, as its first argument, the
    number of streams in the requested language found by the probes that
    have returned so far and, as its second argument, the number of video
    files of the whole work list (not the number of files seen so
    far). *)
Theorem C5_scan_progress_arguments dirs lang fmt od w :
  (forall pre f streams post,
      out (snd (run_extraction E dirs lang fmt od (boot E w)))
      = pre ++ EvStreams f streams :: post ->
      exists snap current total message post',
        post = EvProgress snap current total message :: post'
        /\ is_scan_message message = true)
  /\ (forall pre snap current total message post,
        out (snd (run_extraction E dirs lang fmt od (boot E w)))
        = pre ++ EvProgress snap current total message :: post ->
        is_scan_message message = true ->
        current = found_so_far lang pre
        /\ total = length (collect_video_files E dirs [])).
Proof.
  split.
  - intros pre f streams post Hout.
    destruct (run_reports dirs lang fmt od (boot E w)) as (new & Hnew & Hok).
    simpl in Hnew. rewrite Hnew in Hout. subst new.
    apply (probes_reported_at _ _ _ _ Hok).
  - intros pre snap current total message post Hout Hscan.
    destruct (run_scan_callbacks dirs lang fmt od (boot E w)) as (new & Hnew & Hok).
    simpl in Hnew. rewrite Hnew in Hout. subst new.
    apply scan_callbacks_ok_app in Hok. destruct Hok as [_ Hok].
    simpl in Hok. destruct Hok as [Hok _]. apply Hok. exact Hscan.
Qed.

(** ** The counters at the callbacks (for claim C1) *)

Lemma not_progress_agrees e : not_progress e -> progress_agrees e.
Proof. destruct e; simpl; tauto. Qed.

Lemma zeroed_agree e : zeroed e -> counters_agree e.
Proof.
  unfold zeroed, counters_agree, outcomes. intros (-> & -> & -> & -> & ->).
  simpl. repeat split; lia.
Qed.

Lemma flag_only_zeroed a b : flag_only a b -> zeroed a -> zeroed b.
Proof. unfold flag_only, zeroed. intuition congruence. Qed.

(** During the scan nothing is counted. *)
Lemma scan_loop_agrees wl lang remaining : forall acc s,
  zeroed (ext s) -> Forall progress_agrees (out s) ->
  zeroed (ext (snd (scan_loop E wl lang remaining acc s)))
  /\ Forall progress_agrees (out (snd (scan_loop E wl lang remaining acc s))).
Proof.
  induction remaining as [|file rest IH]; intros acc s Hz Hall; [auto|].
  rewrite scan_loop_cons. cbv zeta.
  pose proof (read_cancel_flag_footprint s) as Hrd.
  set (s1 := snd (read_cancel_flag E s)) in *.
  assert (Hz1 : zeroed (ext s1)) by (eapply flag_only_zeroed; [apply Hrd | exact Hz]).
  assert (Hall1 : Forall progress_agrees (out s1)).
  { eapply evolves_Forall; [exact Hrd| |exact Hall]. by intros []. }
  destruct (cancel_flag (ext s1)); [auto|].
  pose proof (get_subtitle_streams_footprint file s1) as Hpr.
  assert (Hall2 : Forall progress_agrees (out (snd (get_subtitle_streams E file s1)))).
  { eapply evolves_Forall; [exact Hpr| |exact Hall1]. by intros []. }
  destruct Hpr as [Heq _].
  destruct (get_subtitle_streams E file s1) as [[streams|e] s2]; simpl in *.
  - apply IH; simpl; [congruence|].
    rewrite <- app_assoc. apply Forall_app. split; [exact Hall2|].
    constructor; [exact I|]. constructor; [|constructor].
    simpl. apply zeroed_agree. congruence.
  - split; [congruence | exact Hall2].
Qed.

(** During the extraction every callback finds the counters in
    agreement. *)
Lemma extract_loop_agrees lang fmt od items :
  no_exists_race E ->
  forall s,
    Forall progress_agrees (out s) ->
    (cancel_flag (ext s) = false ->
     outcomes (ext s) = processed_streams (ext s)
     /\ processed_streams (ext s) + length items <= total_streams (ext s)) ->
    Forall progress_agrees (out (snd (extract_loop E lang fmt od items s))).
Proof.
  intros Hrace. induction items as [|item rest IH]; intros s Hall Hpre; [exact Hall|].
  rewrite extract_loop_cons. cbv zeta.
  pose proof (read_cancel_flag_footprint s) as Hrd.
  set (s1 := snd (read_cancel_flag E s)) in *.
  assert (Hall1 : Forall progress_agrees (out s1)).
  { eapply evolves_Forall; [exact Hrd| |exact Hall]. by intros []. }
  destruct Hrd as [Hfo _].
  destruct (cancel_flag (ext s1)) eqn:Hc1; [exact Hall1|].
  assert (Hc : cancel_flag (ext s) = false).
  { destruct (cancel_flag (ext s)) eqn:Hcs; [|reflexivity].
    unfold flag_only in Hfo. destruct Hfo as (_ & _ & _ & _ & _ & Hk).
    rewrite (Hk Hcs) in Hc1. discriminate. }
  destruct (Hpre Hc) as [Ho Hp]. simpl in Hp.
  destruct (overwrite_var E (wld s1)) as [ow w].
  match goal with
  | |- context [extract_subtitle E ?a ?b ?c ?d ?e ?f ?s2] =>
      pose proof (extract_subtitle_footprint a b c d e f s2) as Hfp;
      pose proof (extract_subtitle_outcome a b c d e f s2 Hrace) as [Hbound Hone];
      destruct (extract_subtitle E a b c d e f s2) as [[b0|e0] s3]
  end; simpl in Hfp, Hbound, Hone.
  2:{ simpl. eapply evolves_Forall; [exact Hfp| |exact Hall1]. by intros []. }
  assert (Hall3 : Forall progress_agrees (out s3)).
  { eapply evolves_Forall; [exact Hfp| |exact Hall1]. by intros []. }
  destruct Hfp as [(Ht & Hpr & _) _]. simpl in Ht, Hpr.
  assert (Heq1 : outcomes (ext s1) = outcomes (ext s)
                 /\ processed_streams (ext s1) = processed_streams (ext s)
                 /\ total_streams (ext s1) = total_streams (ext s)).
  { unfold flag_only, outcomes in *. intuition congruence. }
  destruct Heq1 as (Ho1 & Hp1 & Ht1).
  apply IH.
  - simpl. apply Forall_app. split; [exact Hall3|].
    constructor; [|constructor]. simpl. unfold counters_agree.
    change (outcomes (set_processed_streams (processed_streams (ext s3) + 1) (ext s3)))
      with (outcomes (ext s3)).
    simpl. split; [lia|]. split; [lia|].
    intros Hc3. specialize (Hone b0 eq_refl Hc3).
    apply one_outcome_recorded_outcomes in Hone. lia.
  - simpl. intros Hc3. specialize (Hone b0 eq_refl Hc3).
    apply one_outcome_recorded_outcomes in Hone.
    change (outcomes (set_processed_streams (processed_streams (ext s3) + 1) (ext s3)))
      with (outcomes (ext s3)).
    lia.
Qed.

Lemma run_agrees dirs lang fmt od w :
  no_exists_race E ->
  Forall progress_agrees (out (snd (run_extraction E dirs lang fmt od (boot E w)))).
Proof.
  intros Hrace.
  assert (Hfin : forall s0 s1, evolves finish_event flag_only s0 s1 ->
                   Forall progress_agrees (out s0) -> Forall progress_agrees (out s1)).
  { intros s0 s1 H. apply (evolves_Forall _ _ _ _ _ H). by intros []. }
  assert (Hz : zeroed (ext (boot E w))) by (repeat split).
  destruct (run_extraction_cases dirs lang fmt od (boot E w)) as [_ Hcases].
  destruct (collect_video_files E dirs []) as [|f wl].
  - apply (Hfin _ _ Hcases). constructor.
  - destruct Hcases as [message Hcases].
    destruct (scan_loop_agrees (f :: wl) lang (f :: wl) [] (logged (boot E w) message))
      as [Hz2 Hall2]; [exact Hz | repeat constructor |].
    destruct (scan_loop E _ _ _ _ _) as [[tasks|e] s2]; simpl in Hz2, Hall2.
    + destruct tasks as [|t tasks].
      * apply (Hfin _ _ Hcases). exact Hall2.
      * destruct Hcases as [message' Hcases]. apply (Hfin _ _ Hcases).
        apply extract_loop_agrees; [exact Hrace | |].
        -- simpl. apply Forall_app. split; [exact Hall2 | repeat constructor].
        -- intros _. unfold zeroed in Hz2. unfold outcomes. simpl.
           destruct Hz2 as (_ & _ & -> & -> & ->). lia.
    + apply (Hfin _ _ Hcases). exact Hall2.
Qed.

End Runs.

(** * Probe failures (claim C7) *)

Section Probes.

Context {E : environment}.

Implicit Types (s : machine E).

(** The failures the probe recovers from: a [SubprocessError] of the
    call, and output that is not JSON.  Both are logged and yield no
    stream, so the scan goes on with the next file. *)
Lemma get_subtitle_streams_subprocess_error file s msg w :
  subprocess_run E (ffprobe_cmd file) (wld s) = (inl (SubprocessError msg), w) ->
  get_subtitle_streams E file s
  = (Ok [],
     {| ext := ext s; wld := w;
        out := out s ++
               [EvProbe (ffprobe_cmd file);
                EvLog ("ERROR: Failed to get subtitle streams from "
                       +:+ os_path.basename file +:+ ": " +:+ msg)] |}).
Proof.
  intros Hrun. unfold get_subtitle_streams. run_prims. simpl.
  rewrite Hrun. simpl. rewrite <- !app_assoc. reflexivity.
Qed.

Lemma get_subtitle_streams_not_json file s stdout w :
  subprocess_run E (ffprobe_cmd file) (wld s) = (inr stdout, w) ->
  json_loads E stdout = None ->
  get_subtitle_streams E file s
  = (Ok [],
     {| ext := ext s; wld := w;
        out := out s ++
               [EvProbe (ffprobe_cmd file);
                EvLog ("ERROR: Failed to parse ffprobe output for "
                       +:+ os_path.basename file)] |}).
Proof.
  intros Hrun Hjson. unfold get_subtitle_streams. run_prims. simpl.
  rewrite Hrun. simpl. rewrite Hjson. simpl. rewrite <- !app_assoc. reflexivity.
Qed.

(** A tool that cannot be started is not among them: the exception
    leaves the probe... *)
Lemma get_subtitle_streams_tool_missing file s msg w :
  subprocess_run E (ffprobe_cmd file) (wld s) = (inl (FileNotFoundError msg), w) ->
  get_subtitle_streams E file s
  = (Raise (FileNotFoundError msg),
     {| ext := ext s; wld := w;
        out := out s ++ [EvProbe (ffprobe_cmd file)] |}).
Proof.
  intros Hrun. unfold get_subtitle_streams. run_prims. simpl.
  rewrite Hrun. reflexivity.
Qed.

(** ... and ends the scan loop, whatever files remain. *)
Lemma scan_loop_tool_missing wl lang file rest acc s msg w :
  cancel_flag (ext (snd (read_cancel_flag E s))) = false ->
  subprocess_run E (ffprobe_cmd file) (wld (snd (read_cancel_flag E s)))
  = (inl (FileNotFoundError msg), w) ->
  fst (scan_loop E wl lang (file :: rest) acc s) = Raise (FileNotFoundError msg).
Proof.
  intros Hc Hrun. rewrite scan_loop_cons. cbv zeta. rewrite Hc.
  rewrite (get_subtitle_streams_tool_missing _ _ _ _ Hrun). reflexivity.
Qed.

(** The start-up check does recover from the same exception. *)
Lemma check_dependencies_tool_missing s msg w :
  subprocess_run E ["ffmpeg"; "-version"] (wld s) = (inl (FileNotFoundError msg), w) ->
  fst (check_dependencies E s) = Ok false.
Proof.
  intros Hrun. unfold check_dependencies, from_run. run_prims. simpl.
  rewrite Hrun. reflexivity.
Qed.

End Probes.

(** * The claims on concrete surroundings *)

Import Scenario.

(** C7. The inspection tool cannot be started for the first of two files
    ([FileNotFoundError], which is not a [SubprocessError]): the probe does
    not return an empty list, the scan stops there, the second file is
    never probed and the run ends with the report of an unexpected
    error. *)
Theorem C7_probe_that_cannot_start_ends_the_scan :
  let run := run_extraction (env probe_not_found) ["/v"] "eng" "SRT" None
               (boot (env probe_not_found) 0%nat) in
  collect_video_files (env probe_not_found) ["/v"] [] = ["/v/a.mkv"; "/v/s/b.MKV"]
  /\ fst (get_subtitle_streams (env probe_not_found) "/v/a.mkv"
            (boot (env probe_not_found) 0%nat))
     = Raise (FileNotFoundError "[Errno 2] No such file or directory: 'ffprobe'")
  /\ probe_cmds (out (snd run)) = [ffprobe_cmd "/v/a.mkv"]
  /\ out (snd run)
     = [EvLog "Found 2 video files.";
        EvProbe (ffprobe_cmd "/v/a.mkv");
        EvLog "ERROR: An unexpected error occurred: [Errno 2] No such file or directory: 'ffprobe'";
        EvFinish init_extractor].
Proof. vm_compute. repeat split; reflexivity. Qed.

(** C1, counterexample.  A task cancelled while the tool runs is counted
    as processed and in no outcome counter: at the callback that follows,
    the three counters add up to 0 and [processed_streams] is 1.  (When the
    tool reports an existing output, both [skipped_extractions] and
    [failed_extractions] go up: the counters add up to 2 for 1 processed
    stream.) *)
Lemma C1_counters_differ_from_processed :
  let cancelled := run_extraction (env cancelled_midstream) ["/v/s"] "eng" "SRT"
                     None (boot (env cancelled_midstream) 0%nat) in
  let raced := run_extraction (env exists_race) ["/v/s"] "eng" "SRT"
                 None (boot (env exists_race) 0%nat) in
  (exists snap current total message,
      In (EvProgress snap current total message) (out (snd cancelled))
      /\ outcomes snap = 0 /\ processed_streams snap = 1)
  /\ (exists snap current total message,
         In (EvProgress snap current total message) (out (snd raced))
         /\ outcomes snap = 2 /\ processed_streams snap = 1).
Proof.
  split.
  - exists {| cancel_flag := true; total_streams := 1; processed_streams := 1;
              successful_extractions := 0; failed_extractions := 0;
              skipped_extractions := 0 |}, 1, 1, "Extracting: b.MKV".
    vm_compute. repeat split. repeat (first [left; reflexivity | right]).
  - exists {| cancel_flag := false; total_streams := 1; processed_streams := 1;
              successful_extractions := 0; failed_extractions := 1;
              skipped_extractions := 1 |}, 1, 1, "Extracting: b.MKV".
    vm_compute. repeat split. repeat (first [left; reflexivity | right]).
Qed.

(** C2, counterexample.  With the unknown format [XYZ] the run returns
    normally, has run the inspection tool on both files, and has recorded
    one failure per task. *)
Lemma C2_unknown_format_is_recorded_per_task :
  let run := run_extraction (env calm) ["/v"] "eng" "XYZ" None
               (boot (env calm) 0%nat) in
  SUBTITLE_FORMATS !! "XYZ" = None
  /\ fst run = Ok tt
  /\ probe_cmds (out (snd run)) = [ffprobe_cmd "/v/a.mkv"; ffprobe_cmd "/v/s/b.MKV"]
  /\ failed_extractions (ext (snd run)) = 2
  /\ processed_streams (ext (snd run)) = 2.
Proof. vm_compute. repeat split; reflexivity. Qed.

(** C3, counterexample.  The flag is seen set after the first line of
    diagnostics: the subprocess is terminated and the call returns [False],
    but [failed_extractions] stays at 0. *)
Lemma C3_cancelled_call_leaves_failed_count :
  let call := extract_subtitle (env cancel_on_first_line) "/v/a.mkv" (JInt 2)
                "eng" "SRT" None false (boot (env cancel_on_first_line) 0%nat) in
  fst call = Ok false
  /\ In EvTerminate (out (snd call))
  /\ cancel_flag (ext (snd call)) = true
  /\ failed_extractions (ext (snd call)) = 0.
Proof. vm_compute. repeat split. repeat (first [left; reflexivity | right]). Qed.

(** C4, counterexample.  [/v] and its sub-directory [/v/s] are both
    requested: [/v/s/b.MKV] is listed twice and probed twice. *)
Lemma C4_nested_directories_list_a_file_twice :
  let run := run_extraction (env calm) ["/v"; "/v/s"] "eng" "SRT" None
               (boot (env calm) 0%nat) in
  collect_video_files (env calm) ["/v"; "/v/s"] []
  = ["/v/a.mkv"; "/v/s/b.MKV"; "/v/s/b.MKV"]
  /\ probe_cmds (out (snd run))
     = [ffprobe_cmd "/v/a.mkv"; ffprobe_cmd "/v/s/b.MKV"; ffprobe_cmd "/v/s/b.MKV"].
Proof. vm_compute. split; reflexivity. Qed.

(** C5, counterexample.  After the first of two files has been probed the
    callback carries 2, the length of the work list, where one file has
    been seen. *)
Lemma C5_second_argument_is_the_total :
  let run := run_extraction (env calm) ["/v"] "eng" "SRT" None
               (boot (env calm) 0%nat) in
  exists pre post,
    out (snd run)
    = pre ++ EvProgress init_extractor 1 2 "Scanning: a.mkv" :: post
    /\ files_seen pre = 1.
Proof.
  exists (take 3 (out (snd (run_extraction (env calm) ["/v"] "eng" "SRT" None
                              (boot (env calm) 0%nat))))),
         (drop 4 (out (snd (run_extraction (env calm) ["/v"] "eng" "SRT" None
                              (boot (env calm) 0%nat))))).
  vm_compute. split; reflexivity.
Qed.

(** * The theorems at work *)

(** C3 on a call cancelled after the first line of diagnostics. *)
Lemma C3_cancelled_midstream_is_not_counted_witness :
  let E := env cancel_on_first_line in
  let s := boot E 0%nat in
  let target := output_file_of "/v/a.mkv" "eng" None (extension srt_info) in
  let cmd := ffmpeg_cmd E "/v/a.mkv" (JInt 2) (ffmpeg_format srt_info) false target in
  let s4 := snd (read_stderr E ["Press [q] to stop"] []
                   (Build_machine E (ext s) 0%nat
                      (out s ++ [EvMakedirs (output_dir_of "/v/a.mkv" None);
                                 EvExists target; EvPopen cmd]))) in
  extract_subtitle E "/v/a.mkv" (JInt 2) "eng" "SRT" None false s
  = (Ok false,
     Build_machine E (ext s4) (wld s4)
       (out s4 ++
        [EvTerminate;
         EvLog ("CANCELLED: Extraction cancelled for "
                +:+ video_basename_of "/v/a.mkv" +:+ " [" +:+ "eng" +:+ "]")]))
  /\ cancel_flag (ext s4) = true
  /\ successful_extractions (ext s4) = successful_extractions (ext s)
  /\ failed_extractions (ext s4) = failed_extractions (ext s)
  /\ skipped_extractions (ext s4) = skipped_extractions (ext s).
Proof.
  intros E s target cmd s4.
  apply (@C3_cancelled_midstream_is_not_counted E "/v/a.mkv" (JInt 2) "eng" "SRT"
           None false s srt_info 0%nat false 0%nat
           {| stderr := ["Press [q] to stop"]; return_code := 0 |} 0%nat s4).
  - vm_compute. reflexivity.
  - reflexivity.
  - reflexivity.
  - reflexivity.
  - reflexivity.
  - vm_compute. reflexivity.
Defined.

(** C5 on the first probe and the first callback of a scan of two files. *)
Lemma C5_scan_progress_arguments_witness :
  let trace := out (snd (run_extraction (env calm) ["/v"] "eng" "SRT" None
                           (boot (env calm) 0%nat))) in
  (exists snap current total message post',
      drop 3 trace = EvProgress snap current total message :: post'
      /\ is_scan_message message = true)
  /\ 1 = found_so_far "eng" (take 3 trace)
  /\ 2 = length (collect_video_files (env calm) ["/v"] []).
Proof.
  intros trace.
  destruct (@C5_scan_progress_arguments (env calm) ["/v"] "eng" "SRT" None 0%nat)
    as [H1 H2].
  split.
  - apply (H1 (take 2 trace) "/v/a.mkv"
              [ {| index := JInt 2; codec_name := JStr "subrip";
                   language := JStr "eng"; title := JStr EmptyString |};
                {| index := JInt 3; codec_name := JStr "subrip";
                   language := JStr "heb"; title := JStr EmptyString |} ]
              (drop 3 trace)).
    vm_compute. reflexivity.
  - apply (H2 (take 3 trace) init_extractor 1 2 "Scanning: a.mkv" (drop 4 trace)).
    + vm_compute. reflexivity.
    + reflexivity.
Defined.

(** C6 on a target that is already there. *)
Lemma C6_existing_output_is_skipped_witness :
  let E := env already_there in
  let s := boot E 0%nat in
  extract_subtitle E "/v/a.mkv" (JInt 2) "eng" "SRT" None false s
  = (Ok false,
     Build_machine E
       {| cancel_flag := false; total_streams := 0; processed_streams := 0;
          successful_extractions := 0; failed_extractions := 0;
          skipped_extractions := 1 |}
       0%nat
       (out s ++
        [EvMakedirs (output_dir_of "/v/a.mkv" None);
         EvExists (output_file_of "/v/a.mkv" "eng" None (extension srt_info));
         EvLog ("SKIPPED: Subtitle file already exists for "
                +:+ video_basename_of "/v/a.mkv" +:+ " [" +:+ "eng" +:+ "]")]))
  /\ popen_cmds (out (snd (extract_subtitle E "/v/a.mkv" (JInt 2) "eng" "SRT"
                             None false s)))
     = popen_cmds (out s).
Proof.
  intros E s.
  apply (@C6_existing_output_is_skipped E "/v/a.mkv" (JInt 2) "eng" "SRT" None s
           srt_info 0%nat 0%nat).
  - vm_compute. reflexivity.
  - reflexivity.
  - reflexivity.
Defined.

(** C8 on [/v/a.mkv], English, SRT: the target is [/v/a.eng.srt]. *)
Lemma C8_output_path_witness :
  let E := env calm in
  let dir := os_path.dirname "/v/a.mkv" in
  let name := fst (os_path.splitext (os_path.basename "/v/a.mkv"))
              +:+ "." +:+ "eng" +:+ "." +:+ extension srt_info in
  (exists rest,
      out (snd (extract_subtitle E "/v/a.mkv" (JInt 2) "eng" "SRT" None false
                  (boot E 0%nat)))
      = out (boot E 0%nat) ++ EvMakedirs dir :: EvExists (os_path.join dir name) :: rest
      /\ (popen_cmds rest = []
          \/ exists cmd, popen_cmds rest = [cmd]
                         /\ last cmd = Some (os_path.join dir name)))
  /\ os_path.join dir name = dir +:+ "/" +:+ name
  /\ os_path.join dir name = "/v/a.eng.srt".
Proof.
  intros E dir name.
  assert (Hfmt : SUBTITLE_FORMATS !! "SRT" = Some srt_info) by (vm_compute; reflexivity).
  pose proof (@C8_output_path E "/v/a.mkv" (JInt 2) "eng" "SRT" None false
                (boot E 0%nat) srt_info 0%nat Hfmt eq_refl) as [H1 H2].
  split; [exact H1|]. split; [|reflexivity].
  apply H2; [vm_compute; discriminate | reflexivity].
Defined.

(** C9 on an unknown format and on an existing target. *)
Lemma C9_directory_created_first_witness :
  (exists rest,
      out (snd (extract_subtitle (env calm) "/v/a.mkv" (JInt 2) "eng" "XYZ" None
                  false (boot (env calm) 0%nat)))
      = out (boot (env calm) 0%nat) ++ EvMakedirs (output_dir_of "/v/a.mkv" None) :: rest
      /\ popen_cmds rest = [])
  /\ (exists rest,
         out (snd (extract_subtitle (env already_there) "/v/a.mkv" (JInt 2) "eng"
                     "SRT" None false (boot (env already_there) 0%nat)))
         = out (boot (env already_there) 0%nat)
           ++ EvMakedirs (output_dir_of "/v/a.mkv" None) :: rest
         /\ popen_cmds rest = []).
Proof.
  split.
  - destruct (@C9_directory_created_first (env calm) "/v/a.mkv" (JInt 2) "eng"
                "XYZ" None false (boot (env calm) 0%nat)) as (rest & H1 & H2 & _).
    exists rest. split; [exact H1|]. apply H2. vm_compute. reflexivity.
  - destruct (@C9_directory_created_first (env already_there) "/v/a.mkv" (JInt 2)
                "eng" "SRT" None false (boot (env already_there) 0%nat))
      as (rest & H1 & _ & H3).
    exists rest. split; [exact H1|].
    apply (H3 srt_info 0%nat 0%nat); [vm_compute; reflexivity | reflexivity
                                     | reflexivity | reflexivity].
Defined.

(** C10 on a second run started right after a cancelled one. *)
Lemma C10_cancel_flag_is_sticky_witness :
  let E := env cancelled_before in
  let s := snd (run_extraction E ["/v"] "eng" "SRT" None (boot E 0%nat)) in
  cancel_flag (ext s) = true
  /\ exists new,
       out (snd (run_extraction E ["/v"] "eng" "SRT" None s)) = out s ++ new
       /\ Forall finish_event new
       /\ probe_cmds new = []
       /\ popen_cmds new = []
       /\ cancel_flag (ext (snd (run_extraction E ["/v"] "eng" "SRT" None s))) = true
       /\ processed_streams (ext (snd (run_extraction E ["/v"] "eng" "SRT" None s)))
          = processed_streams (ext s)
       /\ outcomes (ext (snd (run_extraction E ["/v"] "eng" "SRT" None s)))
          = outcomes (ext s).
Proof.
  intros E s.
  assert (H : cancel_flag (ext s) = true) by (vm_compute; reflexivity).
  split; [exact H|].
  destruct (@C10_cancel_flag_is_sticky E ["/v"] "eng" "SRT" None "/v/a.mkv"
              (JInt 2) false ["/v/a.mkv"] [] [] s) as (_ & _ & H3).
  destruct (H3 H) as (_ & _ & _ & _ & Hrun). exact Hrun.
Defined.

(** * More of the code: enumeration, probes and the language filter *)

Lemma endswith_eq s p :
  PyStr.endswith s p
  = if String.eqb s p then true
    else match s with
         | EmptyString => false
         | String _ r => PyStr.endswith r p
         end.
Proof. destruct s; reflexivity. Qed.

(** [endswith] is the suffix test. *)
Lemma endswith_spec s p :
  PyStr.endswith s p = true <-> exists pre, s = pre +:+ p.
Proof.
  induction s as [|c r IH]; rewrite endswith_eq.
  - destruct (String.eqb_spec EmptyString p) as [<-|Hne].
    + split; [intros _; exists EmptyString; reflexivity | reflexivity].
    + split; [discriminate|]. intros [pre Hpre].
      destruct pre; [rewrite append_nil_l in Hpre; congruence|].
      rewrite append_cons in Hpre. discriminate.
  - destruct (String.eqb_spec (String c r) p) as [<-|Hne].
    + split; [intros _; exists EmptyString; reflexivity | reflexivity].
    + rewrite IH. split.
      * intros [pre ->]. exists (String c pre). reflexivity.
      * intros [pre Hpre]. destruct pre as [|c' pre].
        -- rewrite append_nil_l in Hpre. congruence.
        -- rewrite append_cons in Hpre. injection Hpre as _ ->. eauto.
Qed.

Section Enumeration.

Context {E : environment}.

Implicit Types (s : machine E).

(** X1. A path is returned by [get_video_files] exactly when it is the
    join of a directory of the walk with one of its files whose name, put
    in lower case by [str.lower], ends with one of the seven video
    extensions. *)
Theorem get_video_files_spec directory p :
  In p (get_video_files E directory)
  <-> exists root dirs files file stem ext,
        In (root, dirs, files) (os_walk E directory)
        /\ In file files
        /\ In ext video_extensions
        /\ str_lower E file = stem +:+ ext
        /\ p = os_path.join root file.
Proof.
  unfold get_video_files. rewrite in_flat_map. split.
  - intros ([[root dirs] files] & Hwalk & Hp).
    apply in_flat_map in Hp. destruct Hp as (file & Hfile & Hp).
    destruct (PyStr.endswith_any (str_lower E file) video_extensions) eqn:Hext;
      [|destruct Hp].
    destruct Hp as [<-|[]].
    apply existsb_exists in Hext. destruct Hext as (ext & Hin & Hends).
    apply endswith_spec in Hends. destruct Hends as [stem Hstem].
    exists root, dirs, files, file, stem, ext. auto.
  - intros (root & dirs & files & file & stem & ext & Hwalk & Hfile & Hin & Hstem & ->).
    exists (root, dirs, files). split; [exact Hwalk|].
    apply in_flat_map. exists file. split; [exact Hfile|].
    assert (Hext : PyStr.endswith_any (str_lower E file) video_extensions = true).
    { apply existsb_exists. exists ext. split; [exact Hin|].
      apply endswith_spec. eauto. }
    rewrite Hext. left. reflexivity.
Qed.

Lemma matching_streams_spec file lang streams t :
  In t (matching_streams file lang streams) ->
  video_file t = file /\ language (stream t) = JStr lang /\ In (stream t) streams.
Proof.
  unfold matching_streams. intros Hin. apply in_map_iff in Hin.
  destruct Hin as (st & <- & Hst). apply filter_In in Hst. destruct Hst as [Hst Hlang].
  simpl. split; [reflexivity|]. split; [|exact Hst].
  unfold json_eq_str in Hlang. destruct (language st); try discriminate.
  apply String.eqb_eq in Hlang. congruence.
Qed.

Lemma scan_loop_tasks wl lang remaining : forall acc s tasks,
  fst (scan_loop E wl lang remaining acc s) = Ok tasks ->
  exists found,
    tasks = acc ++ found
    /\ Forall (fun t => language (stream t) = JStr lang
                        /\ In (video_file t) remaining) found.
Proof.
  induction remaining as [|file rest IH]; intros acc s tasks.
  - simpl. intros [= <-]. exists []. rewrite app_nil_r. auto.
  - rewrite scan_loop_cons. cbv zeta.
    destruct (cancel_flag (ext (snd (read_cancel_flag E s)))).
    { simpl. intros [= <-]. exists []. rewrite app_nil_r. auto. }
    destruct (get_subtitle_streams E file (snd (read_cancel_flag E s)))
      as [[streams|e] s2]; [|discriminate].
    intros Hrun. apply IH in Hrun. destruct Hrun as (found & -> & Hall).
    exists (matching_streams file lang streams ++ found).
    split; [rewrite app_assoc; reflexivity|].
    apply Forall_app. split.
    + apply Forall_forall. intros t Ht. apply list_elem_of_In in Ht.
      apply matching_streams_spec in Ht.
      destruct Ht as (-> & Hl & _). split; [exact Hl | left; reflexivity].
    + eapply Forall_impl; [exact Hall|]. intros t [H1 H2]. split; [exact H1 | right; exact H2].
Qed.

(** X2. Every task the scan collects is a stream whose language tag is
    the requested language, read from one of the scanned files: a stream
    tagged [fre] is never a task of a request for [eng]. *)
Theorem scan_keeps_requested_language_only wl lang s tasks :
  fst (scan_loop E wl lang wl [] s) = Ok tasks ->
  Forall (fun t => language (stream t) = JStr lang /\ In (video_file t) wl) tasks.
Proof.
  intros Hrun. apply scan_loop_tasks in Hrun.
  destruct Hrun as (found & -> & Hall). exact Hall.
Qed.

(** ** Probes *)

Lemma dict_get_missing members key default :
  dict_has members key = false -> dict_get members key default = default.
Proof.
  unfold dict_has. induction members as [|[k v] rest IH]; simpl; [reflexivity|].
  destruct (String.eqb k key); simpl; [discriminate | exact IH].
Qed.

(** X3. A stream entry without [tags] is described with language [und]
    and an empty title (and codec [unknown], index [None], when these keys
    are missing too); it is selected exactly by a request for [und]. *)
Theorem untagged_stream_is_und members file lang s :
  dict_has members "tags" = false ->
  exists info,
    make_stream_info E (JObj members) s = (Ok info, s)
    /\ language info = JStr "und"
    /\ title info = JStr EmptyString
    /\ index info = dict_get members "index" JNull
    /\ codec_name info = dict_get members "codec_name" (JStr "unknown")
    /\ (matching_streams file lang [info] <> [] <-> lang = "und").
Proof.
  intros Htags. eexists. split.
  - unfold make_stream_info, py_get. run_prims. simpl.
    rewrite (dict_get_missing members "tags" _ Htags). reflexivity.
  - cbn [language title index codec_name].
    split; [reflexivity|]. split; [reflexivity|]. split; [reflexivity|].
    split; [reflexivity|].
    unfold matching_streams. cbn [List.filter json_eq_str language dict_get].
    destruct (String.eqb_spec "und" lang) as [<-|Hne]; cbn [map].
    + split; [reflexivity | discriminate].
    + split; [intros H; destruct H; reflexivity | congruence].
Qed.

Lemma make_stream_info_shaped item s :
  stream_shaped item = true ->
  exists members tags,
    item = JObj members
    /\ dict_get members "tags" (JObj []) = JObj tags
    /\ make_stream_info E item s
       = (Ok {| index := dict_get members "index" JNull;
                codec_name := dict_get members "codec_name" (JStr "unknown");
                language := dict_get tags "language" (JStr "und");
                title := dict_get tags "title" (JStr EmptyString) |}, s).
Proof.
  destruct item as [| | | | |items|members]; try discriminate. simpl.
  destruct (dict_get members "tags" (JObj [])) as [| | | | | |tags] eqn:Htags;
    try discriminate.
  intros _. exists members, tags. split; [reflexivity|]. split; [exact Htags|].
  unfold make_stream_info, py_get. run_prims. simpl. rewrite Htags. reflexivity.
Qed.

Lemma make_stream_info_unshaped item s :
  stream_shaped item = false ->
  make_stream_info E item s = (Raise (no_get (without_get item)), s).
Proof.
  unfold make_stream_info, py_get. run_prims.
  destruct item as [| | | | |items|members]; try reflexivity.
  cbn [stream_shaped without_get]. cbv beta iota.
  destruct (dict_get members "tags" (JObj [])); try reflexivity. discriminate.
Qed.

Lemma collect_streams_shaped items : forall acc s,
  forallb stream_shaped items = true ->
  exists infos,
    collect_streams E items acc s = (Ok (acc ++ infos), s)
    /\ Forall2 described items infos.
Proof.
  induction items as [|item rest IH]; intros acc s Hall.
  - exists []. simpl. rewrite app_nil_r. split; [reflexivity | constructor].
  - simpl in Hall. apply andb_prop in Hall. destruct Hall as [Hitem Hrest].
    destruct (make_stream_info_shaped item s Hitem) as (members & tags & -> & Htags & Hrun).
    simpl. unfold mbind, M_bind, bind. rewrite Hrun.
    destruct (IH (acc ++ [ {| index := dict_get members "index" JNull;
                              codec_name := dict_get members "codec_name" (JStr "unknown");
                              language := dict_get tags "language" (JStr "und");
                              title := dict_get tags "title" (JStr EmptyString) |} ])
                 s Hrest) as (infos & -> & Hdesc).
    eexists (_ :: infos). split; [rewrite <- app_assoc; reflexivity|].
    constructor; [|exact Hdesc].
    exists members, tags. simpl. auto 10.
Qed.

Lemma collect_streams_unshaped good bad rest : forall acc s,
  forallb stream_shaped good = true ->
  stream_shaped bad = false ->
  collect_streams E (good ++ bad :: rest) acc s
  = (Raise (no_get (without_get bad)), s).
Proof.
  induction good as [|item good IH]; intros acc s Hgood Hbad.
  - simpl. unfold mbind, M_bind, bind.
    rewrite (make_stream_info_unshaped bad s Hbad). reflexivity.
  - simpl in Hgood. apply andb_prop in Hgood. destruct Hgood as [Hitem Hgood].
    destruct (make_stream_info_shaped item s Hitem) as (members & tags & -> & Htags & Hrun).
    simpl. unfold mbind, M_bind, bind. rewrite Hrun. apply IH; assumption.
Qed.

(** X4. When the tool's output parses to an object whose [streams] is a
    list of well-shaped entries, the probe returns one description per
    entry, in order, with the defaults for missing keys; it logs nothing
    and leaves the extractor untouched. *)
Theorem probe_describes_each_stream file s stdout w top items :
  subprocess_run E (ffprobe_cmd file) (wld s) = (inr stdout, w) ->
  json_loads E stdout = Some (JObj top) ->
  dict_has top "streams" = true ->
  dict_get top "streams" JNull = JArr items ->
  forallb stream_shaped items = true ->
  exists infos,
    get_subtitle_streams E file s
    = (Ok infos,
       {| ext := ext s; wld := w; out := out s ++ [EvProbe (ffprobe_cmd file)] |})
    /\ Forall2 described items infos.
Proof.
  intros Hrun Hjson Hhas Hget Hall.
  match goal with
  | |- exists infos, _ = (_, ?s1) /\ _ =>
      destruct (collect_streams_shaped items [] s1 Hall) as (infos & Hc & Hd)
  end.
  exists infos. split; [|exact Hd].
  unfold get_subtitle_streams, py_in, py_getitem, py_iter. run_prims. simpl.
  rewrite Hrun. simpl. rewrite Hjson. simpl. rewrite Hhas. simpl. rewrite Hget.
  simpl. exact Hc.
Qed.

(** X5. Output that parses to an object without a [streams] key (what the
    tool prints when it cannot read the file) gives no stream and no log
    line. *)
Theorem probe_without_streams_key_is_silent file s stdout w top :
  subprocess_run E (ffprobe_cmd file) (wld s) = (inr stdout, w) ->
  json_loads E stdout = Some (JObj top) ->
  dict_has top "streams" = false ->
  get_subtitle_streams E file s
  = (Ok [],
     {| ext := ext s; wld := w; out := out s ++ [EvProbe (ffprobe_cmd file)] |}).
Proof.
  intros Hrun Hjson Hhas.
  unfold get_subtitle_streams, py_in. run_prims. simpl.
  rewrite Hrun. simpl. rewrite Hjson. simpl. rewrite Hhas. reflexivity.
Qed.

(** X6. An entry of [streams] that is not an object, or whose [tags] is
    not an object (a JSON [null], say), makes the probe raise the
    [AttributeError] of the first [get] that fails, on the entry or on
    its [tags], whose text names the type of that value: neither handler
    of the probe catches it, no description of the file is returned and
    nothing is logged by the probe. *)
Theorem probe_raises_on_ill_shaped_stream file s stdout w top good bad rest :
  subprocess_run E (ffprobe_cmd file) (wld s) = (inr stdout, w) ->
  json_loads E stdout = Some (JObj top) ->
  dict_has top "streams" = true ->
  dict_get top "streams" JNull = JArr (good ++ bad :: rest) ->
  forallb stream_shaped good = true ->
  stream_shaped bad = false ->
  let culprit := match bad with
                 | JObj members => dict_get members "tags" (JObj [])
                 | _ => bad
                 end in
  let type_name := match culprit with
                   | JNull => "NoneType"
                   | JBool _ => "bool"
                   | JInt _ => "int"
                   | JFloat _ => "float"
                   | JStr _ => "str"
                   | JArr _ => "list"
                   | JObj _ => "dict"
                   end in
  get_subtitle_streams E file s
  = (Raise (AttributeError ("'" +:+ type_name
                            +:+ "' object has no attribute 'get'")),
     {| ext := ext s; wld := w; out := out s ++ [EvProbe (ffprobe_cmd file)] |}).
Proof.
  intros Hrun Hjson Hhas Hget Hgood Hbad culprit type_name.
  change (AttributeError ("'" +:+ type_name
                          +:+ "' object has no attribute 'get'"))
    with (no_get (without_get bad)).
  unfold get_subtitle_streams, py_in, py_getitem, py_iter. run_prims. simpl.
  rewrite Hrun. simpl. rewrite Hjson. simpl. rewrite Hhas. simpl. rewrite Hget.
  simpl. apply collect_streams_unshaped; assumption.
Qed.

End Enumeration.

(** * More of the code: the outcomes of one extraction *)

Section Outcomes.

Context {E : environment}.

Implicit Types (s : machine E).

(** X7. The returned value tells whether the stream was extracted: a call
    adds one to [successful_extractions] exactly when it returns [True];
    it never lowers a counter nor adds more than one to any; a call that
    returns [True] touches no other counter, and one that raises touches
    none. *)
Theorem extract_subtitle_result_and_counters file idx lang fmt od ow s :
  let r := fst (extract_subtitle E file idx lang fmt od ow s) in
  let e' := ext (snd (extract_subtitle E file idx lang fmt od ow s)) in
  successful_extractions e'
  = successful_extractions (ext s) + (match r with Ok true => 1 | _ => 0 end)
  /\ failed_extractions (ext s) <= failed_extractions e'
     <= failed_extractions (ext s) + 1
  /\ skipped_extractions (ext s) <= skipped_extractions e'
     <= skipped_extractions (ext s) + 1
  /\ (r = Ok true ->
      failed_extractions e' = failed_extractions (ext s)
      /\ skipped_extractions e' = skipped_extractions (ext s))
  /\ (forall e, r = Raise e ->
      failed_extractions e' = failed_extractions (ext s)
      /\ skipped_extractions e' = skipped_extractions (ext s)).
Proof.
  unfold extract_subtitle. run_prims. simpl.
  destruct (os_makedirs E _ (wld s)) as [[e|] w1]; simpl.
  { repeat split; try lia; discriminate. }
  destruct (SUBTITLE_FORMATS !! fmt) as [fi|]; simpl.
  2:{ repeat split; try lia; discriminate. }
  destruct (os_path_exists E _ w1) as [present w2]. simpl.
  destruct (present && negb ow); simpl.
  { repeat split; try lia; discriminate. }
  destruct (subprocess_Popen E _ w2) as [[e|proc] w3]; simpl.
  { destruct e; simpl; repeat split; try lia; discriminate. }
  match goal with
  | |- context [read_stderr E ?l ?a ?s3] =>
      pose proof (read_stderr_counters l a s3) as (_ & _ & Hs & Hf & Hk & _);
      pose proof (read_stderr_result l a s3) as Hres;
      destruct (read_stderr E l a s3) as [rr s4]
  end.
  simpl in Hs, Hf, Hk, Hres.
  destruct Hres as [[-> _]|[-> _]]; simpl.
  - repeat split; try lia; discriminate.
  - destruct (negb (return_code proc =? 0)%Z); simpl.
    + destruct (PyStr.contains _ "Unknown encoder"); simpl.
      * repeat split; try lia; discriminate.
      * destruct (PyStr.contains _ "Output file exists"); simpl;
          repeat split; try lia; discriminate.
    + repeat split; try lia; discriminate.
Qed.

(** X8. When the tool has run to its end without the flag being seen,
    its exit status decides: status 0 is a success ([True], one more
    success, SUCCESS logged); any other status is a failure ([False], one
    more failure), logged as a format mismatch when the diagnostics hold
    [Unknown encoder], else as skipped (and counted as skipped too) when
    they hold [Output file exists], else as a plain error. *)
Theorem completed_tool_outcome
    file idx lang fmt od ow s fi w1 present w2 proc w3 lines s4 :
  let dir := output_dir_of file od in
  let target := output_file_of file lang od (extension fi) in
  let cmd := ffmpeg_cmd E file idx (ffmpeg_format fi) ow target in
  let who := video_basename_of file +:+ " [" +:+ lang +:+ "]" in
  let diagnostics := PyStr.join_lines (stderr proc) in
  SUBTITLE_FORMATS !! fmt = Some fi ->
  os_makedirs E dir (wld s) = (None, w1) ->
  os_path_exists E target w1 = (present, w2) ->
  present && negb ow = false ->
  subprocess_Popen E cmd w2 = (inr proc, w3) ->
  read_stderr E (stderr proc) []
    {| ext := ext s; wld := w3;
       out := out s ++ [EvMakedirs dir; EvExists target; EvPopen cmd] |}
  = (Ok (Some lines), s4) ->
  extract_subtitle E file idx lang fmt od ow s
  = if (return_code proc =? 0)%Z then
      (Ok true,
       {| ext := incr_successful (ext s4); wld := wld s4;
          out := out s4 ++
                 [EvLog ("SUCCESS: Extracted " +:+ fmt +:+ " subtitle for " +:+ who)] |})
    else if PyStr.contains diagnostics "Unknown encoder" then
      (Ok false,
       {| ext := incr_failed (ext s4); wld := wld s4;
          out := out s4 ++
                 [EvLog ("ERROR: Format mismatch or unsupported format for " +:+ who)] |})
    else if PyStr.contains diagnostics "Output file exists" then
      (Ok false,
       {| ext := incr_failed (incr_skipped (ext s4)); wld := wld s4;
          out := out s4 ++
                 [EvLog ("SKIPPED: Subtitle file already exists for " +:+ who)] |})
    else
      (Ok false,
       {| ext := incr_failed (ext s4); wld := wld s4;
          out := out s4 ++
                 [EvLog ("ERROR: Failed to extract subtitle from " +:+ who)] |}).
Proof.
  intros dir target cmd who diagnostics Hfmt Hmk Hex Hskip Hpopen Hread.
  assert (Hlines : lines = stderr proc).
  { pose proof (read_stderr_result (stderr proc) []
                  {| ext := ext s; wld := w3;
                     out := out s ++ [EvMakedirs dir; EvExists target; EvPopen cmd] |})
      as Hres.
    rewrite Hread in Hres. simpl in Hres.
    destruct Hres as [[Hnone _]|[Hsome _]]; congruence. }
  subst lines.
  unfold extract_subtitle. run_prims. simpl. fold dir. rewrite Hmk, Hfmt. simpl.
  fold target. rewrite Hex. simpl. rewrite Hskip. simpl. fold cmd.
  rewrite Hpopen. simpl. rewrite <- !app_assoc. simpl.
  rewrite Hread. simpl. fold diagnostics. fold who.
  destruct (return_code proc =? 0)%Z; simpl; [reflexivity|].
  destruct (PyStr.contains diagnostics "Unknown encoder"); simpl; [reflexivity|].
  destruct (PyStr.contains diagnostics "Output file exists"); reflexivity.
Qed.

(** X9. When the conversion tool cannot be started: a [SubprocessError]
    is a failure of the task ([False], one more failure, logged); any
    other exception (the executable is missing, say) leaves the call with
    the counters untouched. *)
Theorem unstarted_tool_outcome file idx lang fmt od ow s fi w1 present w2 e w3 :
  let dir := output_dir_of file od in
  let target := output_file_of file lang od (extension fi) in
  let cmd := ffmpeg_cmd E file idx (ffmpeg_format fi) ow target in
  SUBTITLE_FORMATS !! fmt = Some fi ->
  os_makedirs E dir (wld s) = (None, w1) ->
  os_path_exists E target w1 = (present, w2) ->
  present && negb ow = false ->
  subprocess_Popen E cmd w2 = (inl e, w3) ->
  extract_subtitle E file idx lang fmt od ow s
  = match e with
    | SubprocessError msg =>
        (Ok false,
         {| ext := incr_failed (ext s); wld := w3;
            out := out s ++
                   [EvMakedirs dir; EvExists target; EvPopen cmd;
                    EvLog ("ERROR: Failed to run ffmpeg for "
                           +:+ video_basename_of file +:+ " [" +:+ lang +:+ "]: "
                           +:+ msg)] |})
    | _ =>
        (Raise e,
         {| ext := ext s; wld := w3;
            out := out s ++ [EvMakedirs dir; EvExists target; EvPopen cmd] |})
    end.
Proof.
  intros dir target cmd Hfmt Hmk Hex Hskip Hpopen.
  unfold extract_subtitle. run_prims. simpl. fold dir. rewrite Hmk, Hfmt. simpl.
  fold target. rewrite Hex. simpl. rewrite Hskip. simpl. fold cmd.
  rewrite Hpopen. simpl.
  destruct e; simpl; rewrite <- !app_assoc; reflexivity.
Qed.

(** The conversion tool is run at most once by a call, and exactly once
    when the call gets past the test for an existing target. *)
Lemma extract_subtitle_invocations file idx lang fmt od ow s :
  exists cmds,
    popen_cmds (out (snd (extract_subtitle E file idx lang fmt od ow s)))
    = popen_cmds (out s) ++ cmds
    /\ (cmds = []
        \/ exists fi, SUBTITLE_FORMATS !! fmt = Some fi
                      /\ cmds = [ffmpeg_cmd E file idx (ffmpeg_format fi) ow
                                   (output_file_of file lang od (extension fi))])
    /\ (forall fi w1 present w2,
          SUBTITLE_FORMATS !! fmt = Some fi ->
          os_makedirs E (output_dir_of file od) (wld s) = (None, w1) ->
          os_path_exists E (output_file_of file lang od (extension fi)) w1
          = (present, w2) ->
          present && negb ow = false ->
          cmds = [ffmpeg_cmd E file idx (ffmpeg_format fi) ow
                    (output_file_of file lang od (extension fi))]).
Proof.
  assert (Hnone : forall tr, popen_cmds tr = [] ->
             exists cmds, popen_cmds (out s ++ tr) = popen_cmds (out s) ++ cmds
                          /\ cmds = []).
  { intros tr Htr. exists []. rewrite popen_cmds_app, Htr. auto. }
  unfold extract_subtitle. run_prims. simpl.
  destruct (os_makedirs E _ (wld s)) as [[e|] w1] eqn:Hmk; simpl.
  { exists []. rewrite !popen_cmds_app. simpl. rewrite ?app_nil_r.
    split; [reflexivity|].
    split; [left; reflexivity | intros; congruence]. }
  destruct (SUBTITLE_FORMATS !! fmt) as [fi|] eqn:Hfmt; simpl.
  2:{ exists []. rewrite !popen_cmds_app. simpl. rewrite ?app_nil_r.
      split; [reflexivity|].
      split; [left; reflexivity | intros; congruence]. }
  destruct (os_path_exists E _ w1) as [present w2] eqn:Hex. simpl.
  destruct (present && negb ow) eqn:Hskip; simpl.
  { exists []. rewrite !popen_cmds_app. simpl. rewrite ?app_nil_r.
    split; [reflexivity|].
    split; [left; reflexivity|].
    intros fi' w1' present' w2' [= <-] [= <-] Hex' Hskip'.
    rewrite Hex in Hex'. injection Hex' as <- <-. congruence. }
  set (cmd := ffmpeg_cmd E file idx (ffmpeg_format fi) ow
                (output_file_of file lang od (extension fi))).
  exists [cmd].
  assert (Hrest : forall fi' w1' present' w2',
             Some fi = Some fi' ->
             (@None exn, w1) = (None, w1') ->
             os_path_exists E (output_file_of file lang od (extension fi')) w1'
             = (present', w2') ->
             present' && negb ow = false ->
             [cmd] = [ffmpeg_cmd E file idx (ffmpeg_format fi') ow
                        (output_file_of file lang od (extension fi'))]).
  { intros fi' w1' present' w2' [= <-] _ _ _. reflexivity. }
  assert (Hshape : forall s4 tail,
             popen_cmds (out s4) = popen_cmds (out s) ++ [cmd] ->
             popen_cmds tail = [] ->
             popen_cmds (out s4 ++ tail) = popen_cmds (out s) ++ [cmd]).
  { intros s4 tail H4 Ht. rewrite popen_cmds_app, H4, Ht. apply app_nil_r. }
  split; [|split; [right; exists fi; auto | exact Hrest]].
  destruct (subprocess_Popen E cmd w2) as [[e|proc] w3]; simpl.
  { destruct e; simpl; rewrite !popen_cmds_app; simpl;
      rewrite ?app_nil_r; reflexivity. }
  match goal with
  | |- context [read_stderr E ?l ?a ?s3] =>
      pose proof (read_stderr_footprint l a s3) as Hfp;
      pose proof (read_stderr_result l a s3) as Hres;
      destruct (read_stderr E l a s3) as [rr s4]
  end.
  simpl in Hfp, Hres.
  apply evolves_popen_cmds in Hfp; [|intros c []]. simpl in Hfp.
  rewrite !popen_cmds_app in Hfp. simpl in Hfp. rewrite !app_nil_r in Hfp.
  destruct Hres as [[-> _]|[-> _]]; simpl.
  - rewrite <- app_assoc. apply Hshape; [exact Hfp | reflexivity].
  - destruct (negb (return_code proc =? 0)%Z); simpl.
    + destruct (PyStr.contains _ "Unknown encoder"); simpl;
        [apply Hshape; [exact Hfp | reflexivity]|].
      destruct (PyStr.contains _ "Output file exists"); simpl;
        (apply Hshape; [exact Hfp | reflexivity]).
    + apply Hshape; [exact Hfp | reflexivity].
Qed.

(** X10. The conversion tool is run at most once per call, with the
    command line [ffmpeg -loglevel warning (-y|-n) -i <video> -map
    0:<index> -c:s <codec of the format> <target>], where [-y] is passed
    exactly when [overwrite] is set; with [overwrite] set and a format of
    the table the tool is run even though the target exists. *)
Theorem conversion_command_line file idx lang fmt od ow s :
  exists cmds,
    popen_cmds (out (snd (extract_subtitle E file idx lang fmt od ow s)))
    = popen_cmds (out s) ++ cmds
    /\ (cmds = []
        \/ exists fi,
             SUBTITLE_FORMATS !! fmt = Some fi
             /\ cmds = [["ffmpeg"; "-loglevel"; "warning";
                         if ow then "-y" else "-n";
                         "-i"; file;
                         "-map"; "0:" +:+ py_str E idx;
                         "-c:s"; ffmpeg_format fi;
                         os_path.join (output_dir_of file od)
                           (video_basename_of file +:+ "." +:+ lang +:+ "."
                            +:+ extension fi)]])
    /\ (forall fi w1,
          ow = true ->
          SUBTITLE_FORMATS !! fmt = Some fi ->
          os_makedirs E (output_dir_of file od) (wld s) = (None, w1) ->
          length cmds = 1).
Proof.
  destruct (extract_subtitle_invocations file idx lang fmt od ow s)
    as (cmds & Hcmds & Hshape & Hforced).
  exists cmds. split; [exact Hcmds|]. split.
  - destruct Hshape as [->|(fi & Hfmt & ->)]; [left; reflexivity|].
    right. exists fi. split; [exact Hfmt | reflexivity].
  - intros fi w1 -> Hfmt Hmk.
    destruct (os_path_exists E (output_file_of file lang od (extension fi)) w1)
      as [present w2] eqn:Hex.
    rewrite (Hforced fi w1 present w2 Hfmt Hmk Hex); [reflexivity|].
    simpl. apply andb_false_r.
Qed.

End Outcomes.

(** * More of the code: whole runs *)

#[local] Instance flag_same_refl : Reflexive flag_same.
Proof. intros e. reflexivity. Qed.

#[local] Instance flag_same_trans : Transitive flag_same.
Proof. intros a b c. unfold flag_same. congruence. Qed.

Section WholeRuns.

Context {E : environment}.

Implicit Types (s : machine E).

Lemma extract_callbacks_app a b :
  extract_callbacks (a ++ b) = extract_callbacks a ++ extract_callbacks b.
Proof. apply flat_map_app. Qed.

Lemma extract_callbacks_none tr :
  Forall beside_extract tr -> extract_callbacks tr = [].
Proof.
  induction 1 as [|e tr He _ IH]; [reflexivity|].
  destruct e; simpl in *; try exact IH. rewrite He. exact IH.
Qed.

Lemma evolves_extract_callbacks (P : event -> Prop) R s s' :
  evolves P R s s' -> (forall e, P e -> beside_extract e) ->
  extract_callbacks (out s') = extract_callbacks (out s).
Proof.
  intros [_ (new & -> & Hnew)] HP. rewrite extract_callbacks_app.
  rewrite (extract_callbacks_none new); [apply app_nil_r|].
  eapply Forall_impl; eauto.
Qed.

(** The callbacks of the extraction loop count the tasks one by one. *)
Lemma extract_loop_callbacks lang fmt od items : forall s,
  exists k,
    k <= length items
    /\ extract_callbacks (out (snd (extract_loop E lang fmt od items s)))
       = extract_callbacks (out s)
         ++ map (fun i => (i, total_streams (ext s)))
                (seq (S (processed_streams (ext s))) k)
    /\ processed_streams (ext (snd (extract_loop E lang fmt od items s)))
       = processed_streams (ext s) + k
    /\ total_streams (ext (snd (extract_loop E lang fmt od items s)))
       = total_streams (ext s).
Proof.
  induction items as [|item rest IH]; intros s.
  - exists 0. simpl. rewrite app_nil_r, Nat.add_0_r. auto.
  - rewrite extract_loop_cons. cbv zeta.
    pose proof (read_cancel_flag_footprint s) as Hrd.
    pose proof (evolves_extract_callbacks _ _ _ _ Hrd) as Hcb1.
    destruct Hrd as [(Ht1 & Hp1 & _) _].
    set (s1 := snd (read_cancel_flag E s)) in *.
    assert (Hcb1' : extract_callbacks (out s1) = extract_callbacks (out s))
      by (apply Hcb1; by intros []).
    destruct (cancel_flag (ext s1)).
    { exists 0. simpl. rewrite app_nil_r, Nat.add_0_r.
      split; [lia|]. auto. }
    destruct (overwrite_var E (wld s1)) as [ow w].
    match goal with
    | |- context [extract_subtitle E ?a ?b ?c ?d ?e ?f ?s2] =>
        pose proof (extract_subtitle_footprint a b c d e f s2) as Hfp;
        destruct (extract_subtitle E a b c d e f s2) as [[b0|e0] s3]
    end; simpl in Hfp.
    2:{ exists 0. simpl. rewrite app_nil_r, Nat.add_0_r.
        rewrite (evolves_extract_callbacks _ _ _ _ Hfp); [|by intros []].
        destruct Hfp as [(Ht & Hp & _) _]. simpl in *.
        split; [lia|]. split; [exact Hcb1'|]. split; congruence. }
    pose proof (evolves_extract_callbacks _ _ _ _ Hfp) as Hcb3.
    destruct Hfp as [(Ht & Hp & _) _]. simpl in Ht, Hp, Hcb3.
    match goal with
    | |- context [extract_loop E lang fmt od rest ?s4] =>
        destruct (IH s4) as (k & Hk & Hcb & Hproc & Htot)
    end.
    exists (S k). rewrite Hcb, Hproc, Htot. clear Hcb Hproc Htot.
    cbn [ext wld out processed_streams total_streams set_processed_streams].
    split; [simpl; lia|].
    split; [|split; [lia | congruence]].
    rewrite extract_callbacks_app, Hcb3, Hcb1' by (by intros []).
    simpl. rewrite <- app_assoc. simpl.
    replace (processed_streams (ext s3) + 1) with (S (processed_streams (ext s)))
      by lia.
    rewrite Ht, Ht1. reflexivity.
Qed.

(** X11. In a run of a fresh extractor the extraction-progress callbacks
    carry [(1, n), (2, n), ..., (k, n)], where [n] is the final
    [total_streams] and [k <= n] the final [processed_streams]: progress
    goes up by one per callback and never past the total. *)
Theorem extraction_progress_counts_up dirs lang fmt od w :
  let s' := snd (run_extraction E dirs lang fmt od (boot E w)) in
  extract_callbacks (out s')
  = map (fun i => (i, total_streams (ext s')))
        (seq 1 (processed_streams (ext s')))
  /\ processed_streams (ext s') <= total_streams (ext s').
Proof.
  cbv zeta.
  assert (Hfin : forall s0 s1, evolves finish_event flag_only s0 s1 ->
             extract_callbacks (out s1) = extract_callbacks (out s0)
             /\ processed_streams (ext s1) = processed_streams (ext s0)
             /\ total_streams (ext s1) = total_streams (ext s0)).
  { intros s0 s1 H. split; [apply (evolves_extract_callbacks _ _ _ _ H); by intros []|].
    destruct H as [(H1 & H2 & _) _]. auto. }
  destruct (run_extraction_cases dirs lang fmt od (boot E w)) as [_ Hcases].
  destruct (collect_video_files E dirs []) as [|f wl].
  - destruct (Hfin _ _ Hcases) as (-> & -> & ->). simpl. auto.
  - destruct Hcases as [message Hcases].
    pose proof (scan_loop_footprint (f :: wl) lang (f :: wl) []
                  (logged (boot E w) message)) as Hscan.
    pose proof (evolves_extract_callbacks _ _ _ _ Hscan) as Hcb2.
    destruct Hscan as [(Ht2 & Hp2 & _) _].
    destruct (scan_loop E _ _ _ _ _) as [[tasks|e] s2]; simpl in *.
    + assert (Hcb2' : extract_callbacks (out s2) = [])
        by (rewrite Hcb2; [reflexivity | by intros []]).
      destruct tasks as [|t tasks].
      * destruct (Hfin _ _ Hcases) as (-> & -> & ->). simpl.
        rewrite Hcb2', Hp2. simpl. split; [reflexivity | lia].
      * destruct Hcases as [message' Hcases].
        destruct (Hfin _ _ Hcases) as (-> & -> & ->).
        destruct (extract_loop_callbacks lang fmt od (t :: tasks)
                    (started s2 (length (t :: tasks)) message'))
          as (k & Hk & Hcb & Hproc & Htot).
        rewrite Hcb, Hproc, Htot. simpl in *.
        rewrite extract_callbacks_app, Hcb2'. simpl.
        split; [reflexivity | lia].
    + assert (Hcb2' : extract_callbacks (out s2) = [])
        by (rewrite Hcb2; [reflexivity | by intros []]).
      destruct (Hfin _ _ Hcases) as (-> & -> & ->).
      rewrite Hcb2', Hp2. simpl. split; [reflexivity | lia].
Qed.

Lemma extract_loop_invocations lang fmt od items : forall s,
  length (popen_cmds (out (snd (extract_loop E lang fmt od items s))))
  <= length (popen_cmds (out s)) + length items.
Proof.
  induction items as [|item rest IH]; intros s; [simpl; lia|].
  rewrite extract_loop_cons. cbv zeta.
  pose proof (read_cancel_flag_footprint s) as Hrd.
  apply evolves_popen_cmds in Hrd; [|intros cmd []].
  set (s1 := snd (read_cancel_flag E s)) in *.
  destruct (cancel_flag (ext s1)); [simpl; rewrite Hrd; lia|].
  destruct (overwrite_var E (wld s1)) as [ow w].
  match goal with
  | |- context [extract_subtitle E ?a ?b ?c ?d ?e ?f ?s2] =>
      destruct (extract_subtitle_invocations a b c d e f s2) as (cmds & Hc & Hshape & _);
      destruct (extract_subtitle E a b c d e f s2) as [[b0|e0] s3]
  end; simpl in Hc.
  - match goal with
    | |- context [extract_loop E lang fmt od rest ?s4] => pose proof (IH s4) as Hrest
    end.
    simpl in Hrest. rewrite popen_cmds_app in Hrest. simpl in Hrest.
    rewrite app_nil_r, Hc, length_app, Hrd in Hrest.
    destruct Hshape as [->|(fi & _ & ->)]; simpl in *; lia.
  - simpl. rewrite Hc, length_app, Hrd.
    destruct Hshape as [->|(fi & _ & ->)]; simpl; lia.
Qed.

(** X12. A run of a fresh extractor starts the conversion tool at most
    once per task: the number of its invocations never exceeds the final
    [total_streams]. *)
Theorem at_most_one_conversion_per_task dirs lang fmt od w :
  length (popen_cmds (out (snd (run_extraction E dirs lang fmt od (boot E w)))))
  <= total_streams (ext (snd (run_extraction E dirs lang fmt od (boot E w)))).
Proof.
  assert (Hfin : forall s0 s1, evolves finish_event flag_only s0 s1 ->
             popen_cmds (out s1) = popen_cmds (out s0)
             /\ total_streams (ext s1) = total_streams (ext s0)).
  { intros s0 s1 H. split; [apply (evolves_popen_cmds _ _ _ _ H); intros cmd []|].
    destruct H as [(H1 & _) _]. exact H1. }
  destruct (run_extraction_cases dirs lang fmt od (boot E w)) as [_ Hcases].
  destruct (collect_video_files E dirs []) as [|f wl].
  - destruct (Hfin _ _ Hcases) as (-> & ->). simpl. lia.
  - destruct Hcases as [message Hcases].
    pose proof (scan_loop_footprint (f :: wl) lang (f :: wl) []
                  (logged (boot E w) message)) as Hscan.
    apply evolves_popen_cmds in Hscan; [|intros cmd []].
    assert (Hscan' : popen_cmds
                       (out (snd (scan_loop E (f :: wl) lang (f :: wl) []
                                    (logged (boot E w) message)))) = [])
      by (rewrite Hscan; reflexivity).
    clear Hscan.
    destruct (scan_loop E _ _ _ _ _) as [[tasks|e] s2]; cbn [snd] in Hscan'.
    + destruct tasks as [|t tasks].
      * destruct (Hfin _ _ Hcases) as (-> & ->). cbn [planned out].
        rewrite Hscan'. simpl. lia.
      * destruct Hcases as [message' Hcases].
        destruct (Hfin _ _ Hcases) as (-> & ->).
        pose proof (extract_loop_invocations lang fmt od (t :: tasks)
                      (started s2 (length (t :: tasks)) message')) as Hloop.
        destruct (extract_loop_callbacks lang fmt od (t :: tasks)
                    (started s2 (length (t :: tasks)) message'))
          as (_ & _ & _ & _ & ->).
        cbn [started out ext] in *. rewrite popen_cmds_app, Hscan' in Hloop.
        simpl in *. lia.
    + destruct (Hfin _ _ Hcases) as (-> & ->). rewrite Hscan'. simpl. lia.
Qed.

(** ** Runs nobody cancels *)

Lemma read_cancel_flag_unpressed s :
  never_pressed E ->
  read_cancel_flag E s
  = (Ok (cancel_flag (ext s)),
     {| ext := ext s; wld := snd (cancel_pressed E (wld s)); out := out s |}).
Proof.
  intros Hn. unfold read_cancel_flag. run_prims.
  specialize (Hn (wld s)). destruct (cancel_pressed E (wld s)) as [p w'].
  simpl in *. subst p. reflexivity.
Qed.

Lemma read_cancel_flag_flag_same :
  never_pressed E -> preserves any_event flag_same (read_cancel_flag E).
Proof.
  intros Hn s. rewrite (read_cancel_flag_unpressed s Hn). simpl.
  split; [reflexivity|]. exists []. simpl. rewrite app_nil_r. auto.
Qed.

Lemma read_stderr_unpressed lines : forall acc s,
  never_pressed E -> cancel_flag (ext s) = false ->
  exists w',
    read_stderr E lines acc s
    = (Ok (Some (acc ++ lines)), {| ext := ext s; wld := w'; out := out s |}).
Proof.
  induction lines as [|line rest IH]; intros acc s Hn Hc.
  - exists (wld s). simpl. rewrite app_nil_r. destruct s; reflexivity.
  - rewrite read_stderr_cons, (read_cancel_flag_unpressed s Hn). cbv zeta.
    cbn [snd ext]. rewrite Hc.
    destruct (IH (acc ++ [line])
                {| ext := ext s; wld := snd (cancel_pressed E (wld s)); out := out s |}
                Hn Hc) as [w' Hrun].
    exists w'. rewrite Hrun, <- app_assoc. reflexivity.
Qed.

Ltac flag_same_steps Hn :=
  repeat first
    [ apply preserves_emit; try apply _; exact I
    | apply preserves_modify; try apply _; intros ?; reflexivity
    | apply (read_cancel_flag_flag_same Hn)
    | preserves_step; try apply _ ].

Lemma read_stderr_flag_same lines :
  never_pressed E ->
  forall acc, preserves any_event flag_same (read_stderr E lines acc).
Proof.
  intros Hn. induction lines as [|line rest IH]; intros acc; simpl.
  - apply preserves_ret; apply _.
  - flag_same_steps Hn. apply IH.
Qed.

Lemma get_subtitle_streams_flag_same file :
  preserves any_event flag_same (get_subtitle_streams E file).
Proof.
  eapply preserves_weaken; [apply get_subtitle_streams_footprint | done|].
  intros a b ->. reflexivity.
Qed.

Lemma extract_subtitle_flag_same file idx lang fmt od ow :
  never_pressed E ->
  preserves any_event flag_same (extract_subtitle E file idx lang fmt od ow).
Proof.
  intros Hn. unfold extract_subtitle, log.
  repeat first
    [ apply (read_stderr_flag_same _ Hn)
    | apply preserves_emit; try apply _; exact I
    | apply preserves_modify; try apply _; intros ?; reflexivity
    | preserves_step; try apply _ ].
Qed.

Lemma scan_loop_flag_same wl lang remaining :
  never_pressed E ->
  forall acc, preserves any_event flag_same (scan_loop E wl lang remaining acc).
Proof.
  intros Hn. induction remaining as [|file rest IH]; intros acc; simpl.
  - apply preserves_ret; apply _.
  - unfold update_ui_progress.
    repeat first
      [ apply IH
      | apply get_subtitle_streams_flag_same
      | apply preserves_emit; try apply _; exact I
      | apply (read_cancel_flag_flag_same Hn)
      | preserves_step; try apply _ ].
Qed.

Lemma extract_loop_flag_same lang fmt od items :
  never_pressed E ->
  preserves any_event flag_same (extract_loop E lang fmt od items).
Proof.
  intros Hn. induction items as [|item rest IH]; simpl.
  - apply preserves_ret; apply _.
  - unfold update_ui_progress.
    repeat first
      [ apply IH
      | apply (extract_subtitle_flag_same _ _ _ _ _ _ Hn)
      | apply preserves_emit; try apply _; exact I
      | apply preserves_modify; try apply _; intros ?; reflexivity
      | apply (read_cancel_flag_flag_same Hn)
      | preserves_step; try apply _ ].
Qed.

Lemma finish_extraction_flag_same :
  never_pressed E -> preserves any_event flag_same (finish_extraction E).
Proof.
  intros Hn. unfold finish_extraction, log_message. flag_same_steps Hn.
Qed.

Lemma run_extraction_flag_same dirs lang fmt od :
  never_pressed E ->
  preserves any_event flag_same (run_extraction E dirs lang fmt od).
Proof.
  intros Hn. unfold run_extraction, run_extraction_try, log_message.
  repeat first
    [ apply (finish_extraction_flag_same Hn)
    | apply (scan_loop_flag_same _ _ _ Hn)
    | apply (extract_loop_flag_same _ _ _ _ Hn)
    | apply preserves_emit; try apply _; exact I
    | apply preserves_modify; try apply _; intros ?; reflexivity
    | apply (read_cancel_flag_flag_same Hn)
    | preserves_step; try apply _ ].
Qed.

(** Without cancellation and with tools that can be started, a call
    returns and records its outcome. *)
Lemma extract_subtitle_settles file idx lang fmt od ow s :
  never_pressed E -> makedirs_succeeds E -> popen_contained E ->
  no_exists_race E ->
  cancel_flag (ext s) = false ->
  exists b,
    fst (extract_subtitle E file idx lang fmt od ow s) = Ok b
    /\ outcomes (ext (snd (extract_subtitle E file idx lang fmt od ow s)))
       = outcomes (ext s) + 1.
Proof.
  intros Hn Hmk Hpc Hrace Hc.
  unfold extract_subtitle. run_prims. simpl.
  specialize (Hmk (output_dir_of file od) (wld s)).
  destruct (os_makedirs E _ (wld s)) as [[e|] w1]; simpl in *; [discriminate|].
  destruct (SUBTITLE_FORMATS !! fmt) as [fi|]; simpl.
  2:{ exists false. split; [reflexivity | unfold outcomes; simpl; lia]. }
  destruct (os_path_exists E _ w1) as [present w2]. simpl.
  destruct (present && negb ow); simpl.
  { exists false. split; [reflexivity | unfold outcomes; simpl; lia]. }
  destruct (subprocess_Popen E _ w2) as [[e|proc] w3] eqn:Hpopen; simpl.
  { destruct (Hpc _ _ e ltac:(rewrite Hpopen; reflexivity)) as [msg ->]. simpl.
    exists false. split; [reflexivity | unfold outcomes; simpl; lia]. }
  match goal with
  | |- context [read_stderr E ?l ?a ?s3] =>
      destruct (read_stderr_unpressed l a s3 Hn Hc) as [w' Hread]
  end.
  rewrite Hread. simpl.
  specialize (Hrace _ _ _ _ Hpopen). unfold reports_existing_output in Hrace.
  destruct (negb (return_code proc =? 0)%Z); simpl in *.
  - destruct (PyStr.contains _ "Unknown encoder"); simpl in *.
    + exists false. split; [reflexivity | unfold outcomes; simpl; lia].
    + rewrite Hrace. simpl.
      exists false. split; [reflexivity | unfold outcomes; simpl; lia].
  - exists true. split; [reflexivity | unfold outcomes; simpl; lia].
Qed.

Lemma extract_loop_settles lang fmt od items :
  never_pressed E -> makedirs_succeeds E -> popen_contained E ->
  no_exists_race E ->
  forall s,
    cancel_flag (ext s) = false ->
    processed_streams (ext (snd (extract_loop E lang fmt od items s)))
    = processed_streams (ext s) + length items
    /\ outcomes (ext (snd (extract_loop E lang fmt od items s)))
       = outcomes (ext s) + length items.
Proof.
  intros Hn Hmk Hpc Hrace. induction items as [|item rest IH]; intros s Hc.
  - simpl. lia.
  - rewrite extract_loop_cons, (read_cancel_flag_unpressed s Hn). cbv zeta.
    cbn [snd ext wld out]. rewrite Hc.
    destruct (overwrite_var E _) as [ow w].
    match goal with
    | |- context [extract_subtitle E ?a ?b ?c ?d ?e ?f ?s2] =>
        destruct (extract_subtitle_settles a b c d e f s2 Hn Hmk Hpc Hrace Hc)
          as (b0 & Hok & Hsum);
        pose proof (extract_subtitle_flag_same a b c d e f Hn s2) as [Hflag _];
        pose proof (extract_subtitle_footprint a b c d e f s2) as [(_ & Hp & _) _];
        destruct (extract_subtitle E a b c d e f s2) as [r s3]
    end.
    simpl in Hok, Hsum, Hflag, Hp. subst r. unfold flag_same in Hflag.
    match goal with
    | |- context [extract_loop E lang fmt od rest ?s4] =>
        destruct (IH s4) as [H1 H2]; [simpl; congruence|]
    end.
    rewrite H1, H2. simpl.
    change (outcomes (set_processed_streams (processed_streams (ext s3) + 1) (ext s3)))
      with (outcomes (ext s3)).
    lia.
Qed.

(** X13. In a run of a fresh extractor that nobody cancels, in which the
    directories can be created, the conversion tool can be started (or
    fails to with a [SubprocessError]) and never reports an existing
    output, every task is processed and has exactly one recorded outcome:
    at the end [processed_streams], [total_streams] and the sum of the
    three outcome counters are equal, and the flag is down. *)
Theorem uncancelled_run_accounts_for_every_task dirs lang fmt od w :
  never_pressed E -> makedirs_succeeds E -> popen_contained E ->
  no_exists_race E ->
  let e' := ext (snd (run_extraction E dirs lang fmt od (boot E w))) in
  processed_streams e' = total_streams e'
  /\ outcomes e' = total_streams e'
  /\ cancel_flag e' = false.
Proof.
  intros Hn Hmk Hpc Hrace. cbv zeta.
  assert (Hgoal : processed_streams (ext (snd (run_extraction E dirs lang fmt od (boot E w))))
                  = total_streams (ext (snd (run_extraction E dirs lang fmt od (boot E w))))
                  /\ outcomes (ext (snd (run_extraction E dirs lang fmt od (boot E w))))
                     = total_streams (ext (snd (run_extraction E dirs lang fmt od (boot E w))))).
  2:{ destruct Hgoal as [H1 H2]. split; [exact H1|]. split; [exact H2|].
      destruct (run_extraction_flag_same dirs lang fmt od Hn (boot E w)) as [-> _].
      reflexivity. }
  assert (Hfin : forall s0 s1, evolves finish_event flag_only s0 s1 ->
             processed_streams (ext s1) = processed_streams (ext s0)
             /\ outcomes (ext s1) = outcomes (ext s0)
             /\ total_streams (ext s1) = total_streams (ext s0))
    by (intros s0 s1 [Hfo _]; unfold flag_only, outcomes in *; intuition congruence).
  destruct (run_extraction_cases dirs lang fmt od (boot E w)) as [_ Hcases].
  destruct (collect_video_files E dirs []) as [|f wl].
  { destruct (Hfin _ _ Hcases) as (-> & -> & ->). split; reflexivity. }
  destruct Hcases as [message Hcases].
  destruct (scan_loop_agrees (f :: wl) lang (f :: wl) []
              (logged (boot E w) message)) as [Hz _];
    [repeat split | repeat constructor |].
  pose proof (scan_loop_flag_same (f :: wl) lang (f :: wl) Hn []
                (logged (boot E w) message)) as [Hflag _].
  unfold flag_same in Hflag.
  destruct (scan_loop E _ _ _ _ _) as [[tasks|e] s2]; simpl in Hz, Hflag.
  all: destruct Hz as (Hz1 & Hz2 & Hz3 & Hz4 & Hz5).
  - destruct tasks as [|t tasks].
    + destruct (Hfin _ _ Hcases) as (-> & -> & ->).
      unfold outcomes. simpl. lia.
    + destruct Hcases as [message' Hcases].
      destruct (Hfin _ _ Hcases) as (-> & -> & ->).
      destruct (extract_loop_settles lang fmt od (t :: tasks) Hn Hmk Hpc Hrace
                  (started s2 (length (t :: tasks)) message') Hflag)
        as [-> ->].
      destruct (extract_loop_callbacks lang fmt od (t :: tasks)
                  (started s2 (length (t :: tasks)) message'))
        as (_ & _ & _ & _ & ->).
      unfold outcomes. simpl. lia.
  - destruct (Hfin _ _ Hcases) as (-> & -> & ->).
    unfold outcomes. lia.
Qed.

(** ** A second run over the same files *)

Lemma extract_loop_all_present lang fmt od fi items :
  never_pressed E -> makedirs_succeeds E -> always_present E ->
  never_overwrite E -> SUBTITLE_FORMATS !! fmt = Some fi ->
  forall s,
    cancel_flag (ext s) = false ->
    let e' := ext (snd (extract_loop E lang fmt od items s)) in
    skipped_extractions e' = skipped_extractions (ext s) + length items
    /\ processed_streams e' = processed_streams (ext s) + length items
    /\ successful_extractions e' = successful_extractions (ext s)
    /\ failed_extractions e' = failed_extractions (ext s)
    /\ popen_cmds (out (snd (extract_loop E lang fmt od items s)))
       = popen_cmds (out s).
Proof.
  intros Hn Hmk Hpres Hno Hfmt.
  induction items as [|item rest IH]; intros s Hc; cbv zeta.
  - simpl. repeat split; lia.
  - rewrite extract_loop_cons, (read_cancel_flag_unpressed s Hn). cbv zeta.
    cbn [snd ext wld out]. rewrite Hc.
    specialize (Hno (snd (cancel_pressed E (wld s)))).
    destruct (overwrite_var E _) as [ow w]. simpl in Hno. subst ow.
    pose proof (Hmk (output_dir_of (video_file item) od) w) as Hmk1.
    destruct (os_makedirs E (output_dir_of (video_file item) od) w)
      as [m w1] eqn:Emk. simpl in Hmk1. subst m.
    pose proof (Hpres (output_file_of (video_file item) lang od (extension fi)) w1)
      as Hex1.
    destruct (os_path_exists E
                (output_file_of (video_file item) lang od (extension fi)) w1)
      as [p w2] eqn:Eex. simpl in Hex1. subst p.
    rewrite (extract_subtitle_existing (video_file item) (index (stream item))
               lang fmt od {| ext := ext s; wld := w; out := out s |}
               fi w1 w2 Hfmt Emk Eex).
    match goal with
    | |- context [extract_loop E lang fmt od rest ?s4] =>
        destruct (IH s4) as (H1 & H2 & H3 & H4 & H5); [exact Hc|]
    end.
    rewrite H1, H2, H3, H4, H5. simpl.
    rewrite !popen_cmds_app. simpl. rewrite !app_nil_r.
    repeat split; lia.
Qed.

(** X14. A run of a fresh extractor over files whose targets all exist,
    with the overwrite box unticked, a format of the table and nobody
    cancelling, skips every task: at the end [skipped_extractions],
    [processed_streams] and [total_streams] are equal, nothing succeeded or
    failed, and the conversion tool was never started. *)
Theorem second_run_skips_everything dirs lang fmt od fi w :
  never_pressed E -> makedirs_succeeds E -> always_present E ->
  never_overwrite E -> SUBTITLE_FORMATS !! fmt = Some fi ->
  let s' := snd (run_extraction E dirs lang fmt od (boot E w)) in
  skipped_extractions (ext s') = total_streams (ext s')
  /\ processed_streams (ext s') = total_streams (ext s')
  /\ successful_extractions (ext s') = 0
  /\ failed_extractions (ext s') = 0
  /\ popen_cmds (out s') = [].
Proof.
  intros Hn Hmk Hpres Hno Hfmt. cbv zeta.
  assert (Hfin : forall s0 s1, evolves finish_event flag_only s0 s1 ->
             skipped_extractions (ext s1) = skipped_extractions (ext s0)
             /\ processed_streams (ext s1) = processed_streams (ext s0)
             /\ successful_extractions (ext s1) = successful_extractions (ext s0)
             /\ failed_extractions (ext s1) = failed_extractions (ext s0)
             /\ total_streams (ext s1) = total_streams (ext s0)
             /\ popen_cmds (out s1) = popen_cmds (out s0)).
  { intros s0 s1 H.
    pose proof (evolves_popen_cmds _ _ _ _ H ltac:(intros cmd [])) as Hp.
    destruct H as [Hfo _]. unfold flag_only in Hfo. intuition congruence. }
  destruct (run_extraction_cases dirs lang fmt od (boot E w)) as [_ Hcases].
  destruct (collect_video_files E dirs []) as [|f wl].
  { destruct (Hfin _ _ Hcases) as (-> & -> & -> & -> & -> & ->). simpl. auto. }
  destruct Hcases as [message Hcases].
  destruct (scan_loop_agrees (f :: wl) lang (f :: wl) []
              (logged (boot E w) message)) as [Hz _];
    [repeat split | repeat constructor |].
  pose proof (scan_loop_flag_same (f :: wl) lang (f :: wl) Hn []
                (logged (boot E w) message)) as [Hflag _].
  unfold flag_same in Hflag.
  pose proof (scan_loop_footprint (f :: wl) lang (f :: wl) []
                (logged (boot E w) message)) as Hscan.
  apply evolves_popen_cmds in Hscan; [|intros cmd []].
  assert (Hscan' : popen_cmds
                     (out (snd (scan_loop E (f :: wl) lang (f :: wl) []
                                  (logged (boot E w) message)))) = [])
    by (rewrite Hscan; reflexivity).
  clear Hscan.
  destruct (scan_loop E _ _ _ _ _) as [[tasks|e] s2];
    cbn [snd] in Hz, Hflag, Hscan'; simpl in Hflag.
  all: destruct Hz as (Hz1 & Hz2 & Hz3 & Hz4 & Hz5).
  - destruct tasks as [|t tasks].
    + destruct (Hfin _ _ Hcases) as (-> & -> & -> & -> & -> & ->).
      simpl. rewrite Hscan'. repeat split; lia.
    + destruct Hcases as [message' Hcases].
      destruct (Hfin _ _ Hcases) as (-> & -> & -> & -> & -> & ->).
      destruct (extract_loop_all_present lang fmt od fi (t :: tasks)
                  Hn Hmk Hpres Hno Hfmt
                  (started s2 (length (t :: tasks)) message') Hflag)
        as (-> & -> & -> & -> & ->).
      destruct (extract_loop_callbacks lang fmt od (t :: tasks)
                  (started s2 (length (t :: tasks)) message'))
        as (_ & _ & _ & _ & ->).
      simpl. rewrite popen_cmds_app, Hscan'. simpl. repeat split; lia.
  - destruct (Hfin _ _ Hcases) as (-> & -> & -> & -> & -> & ->).
    rewrite Hscan'. repeat split; lia.
Qed.

(** ** The clean-up *)

Lemma finish_extraction_shape s :
  exists logs,
    out (snd (finish_extraction E s)) = out s ++ EvFinish (ext s) :: logs
    /\ Forall is_log logs
    /\ flag_only (ext s) (ext (snd (finish_extraction E s))).
Proof.
  unfold finish_extraction.
  unfold mbind at 1, M_bind at 1, bind at 1, snapshot, gets at 1.
  unfold mbind at 1, M_bind at 1, bind at 1, emit at 1.
  match goal with
  | |- context [snd (?k ?u ?s1)] =>
      assert (Hk : preserves is_log flag_only (k u));
        [| destruct (Hk s1) as [He (logs & Hn & Hf)] ]
  end.
  - unfold log_message.
    repeat first
      [ apply preserves_emit; try apply _; exact I
      | apply read_cancel_flag_footprint
      | preserves_step; try apply _ ].
  - exists logs. simpl in *. rewrite Hn, <- app_assoc. auto.
Qed.

Lemma run_extraction_try_footprint dirs lang fmt od :
  preserves any_event flag_kept (run_extraction_try E dirs lang fmt od).
Proof.
  unfold run_extraction_try, log_message.
  repeat first
    [ preserves_step; try apply _
    | apply preserves_emit; try apply _; exact I
    | apply preserves_modify; try apply _; intros ?; unfold flag_kept; simpl; tauto
    | lazymatch goal with
      | |- preserves _ _ (finish_extraction _) =>
          eapply preserves_weaken;
            [apply finish_extraction_footprint | done | apply flag_only_flag_kept]
      | |- preserves _ _ (scan_loop _ _ _ _ _) =>
          eapply preserves_weaken;
            [apply scan_loop_footprint | done | apply flag_only_flag_kept]
      | |- preserves _ _ (extract_loop _ _ _ _ _) =>
          eapply preserves_weaken;
            [apply extract_loop_footprint | done
            | unfold plan_kept, flag_kept; tauto]
      | |- preserves _ _ (read_cancel_flag _) =>
          eapply preserves_weaken;
            [apply read_cancel_flag_footprint | done
            | apply flag_only_flag_kept]
      end ].
Qed.

(** X15. Whatever happens in a run (an early return, an exception of a
    probe or of an extraction, a cancellation), the run returns normally
    and its last act is the clean-up: the trace ends with the clean-up's
    snapshot followed by log lines only, and that snapshot holds the final
    counters. *)
Theorem run_always_ends_with_the_clean_up dirs lang fmt od s :
  fst (run_extraction E dirs lang fmt od s) = Ok tt
  /\ exists pre snap logs,
       out (snd (run_extraction E dirs lang fmt od s))
       = out s ++ pre ++ EvFinish snap :: logs
       /\ Forall is_log logs
       /\ flag_only snap (ext (snd (run_extraction E dirs lang fmt od s))).
Proof.
  split; [apply run_extraction_cases|].
  pose proof (run_extraction_try_footprint dirs lang fmt od s)
    as [_ (body & Hbody & _)].
  unfold run_extraction, try_finally, try_except.
  destruct (run_extraction_try E dirs lang fmt od s) as [[[]|e] sb];
    simpl in Hbody.
  - destruct (finish_extraction_shape sb) as (logs & Hout & Hlogs & Hfo).
    destruct (finish_extraction_run sb) as (s' & Hrun & _).
    rewrite Hrun in *. simpl in *.
    exists body, (ext sb), logs. rewrite Hout, Hbody, <- app_assoc. auto.
  - unfold log_message, emit.
    match goal with
    | |- context [finish_extraction E ?s1] =>
        destruct (finish_extraction_shape s1) as (logs & Hout & Hlogs & Hfo);
        destruct (finish_extraction_run s1) as (s' & Hrun & _)
    end.
    rewrite Hrun in *. simpl in *.
    eexists (body ++ [_]), (ext sb), logs.
    rewrite Hout, Hbody, <- !app_assoc. auto.
Qed.

(** X16. The two early returns of the worker run the clean-up twice, once
    themselves and once through [finally]: a fresh extractor that finds no
    video file logs that and ends; a run whose scan finds no stream in the
    requested language sets [total_streams] to 0, logs that and ends. *)
Theorem early_returns_clean_up_twice dirs lang fmt od w :
  (collect_video_files E dirs [] = [] ->
   run_extraction E dirs lang fmt od (boot E w)
   = (Ok tt,
      {| ext := init_extractor; wld := w;
         out := [EvLog "No video files found in the selected directories.";
                 EvFinish init_extractor; EvFinish init_extractor] |}))
  /\ (forall s s2,
        collect_video_files E dirs [] <> [] ->
        scan_loop E (collect_video_files E dirs []) lang
          (collect_video_files E dirs []) []
          (logged s ("Found " +:+ pretty (length (collect_video_files E dirs []))
                     +:+ " video files."))
        = (Ok [], s2) ->
        run_extraction E dirs lang fmt od s
        = (Ok tt,
           {| ext := set_total_streams 0 (ext s2); wld := wld s2;
              out := out s2 ++
                     [EvLog ("No subtitle streams found matching language '"
                             +:+ lang +:+ "'.");
                      EvFinish (set_total_streams 0 (ext s2));
                      EvFinish (set_total_streams 0 (ext s2))] |})).
Proof.
  split.
  - intros Hwl. unfold run_extraction, try_finally, try_except, run_extraction_try.
    rewrite Hwl. reflexivity.
  - intros s s2 Hwl Hscan.
    unfold run_extraction, try_finally, try_except, run_extraction_try.
    destruct (collect_video_files E dirs []) as [|f wl] eqn:Ewl; [congruence|].
    unfold log_message, logged in *. run_prims. rewrite Hscan.
    unfold finish_extraction. run_prims. simpl. rewrite <- !app_assoc. reflexivity.
Qed.

End WholeRuns.

(** * The claims on whole runs: C1, C2 and C4 *)

Section RunClaims.

Context {E : environment}.

Implicit Types (s : machine E).

(** ** Claim C1 *)

Lemma progress_agrees_within e : progress_agrees e -> processed_within_total e.
Proof. destruct e; simpl; try tauto. unfold counters_agree. tauto. Qed.

(** During the extraction no callback finds more processed than planned,
    whatever the calls do. *)
Lemma extract_loop_within lang fmt od items : forall s,
  Forall processed_within_total (out s) ->
  processed_streams (ext s) + length items <= total_streams (ext s) ->
  Forall processed_within_total (out (snd (extract_loop E lang fmt od items s))).
Proof.
  induction items as [|item rest IH]; intros s Hall Hpre; [exact Hall|].
  rewrite extract_loop_cons. cbv zeta.
  pose proof (read_cancel_flag_footprint s) as Hrd.
  set (s1 := snd (read_cancel_flag E s)) in *.
  assert (Hall1 : Forall processed_within_total (out s1)).
  { eapply evolves_Forall; [exact Hrd| |exact Hall]. by intros []. }
  destruct Hrd as [Hfo _].
  destruct (cancel_flag (ext s1)); [exact Hall1|].
  destruct (overwrite_var E (wld s1)) as [ow w].
  match goal with
  | |- context [extract_subtitle E ?a ?b ?c ?d ?e ?f ?s2] =>
      pose proof (extract_subtitle_footprint a b c d e f s2) as Hfp;
      destruct (extract_subtitle E a b c d e f s2) as [[b0|e0] s3]
  end; simpl in Hfp.
  2:{ simpl. eapply evolves_Forall; [exact Hfp| |exact Hall1]. by intros []. }
  assert (Hall3 : Forall processed_within_total (out s3)).
  { eapply evolves_Forall; [exact Hfp| |exact Hall1]. by intros []. }
  destruct Hfp as [(Ht & Hpr & _) _]. simpl in Ht, Hpr, Hpre.
  unfold flag_only in Hfo. destruct Hfo as (Ht1 & Hp1 & _).
  apply IH.
  - simpl. apply Forall_app. split; [exact Hall3|].
    constructor; [|constructor]. simpl. lia.
  - simpl. lia.
Qed.

Lemma run_within_total dirs lang fmt od w :
  Forall processed_within_total
    (out (snd (run_extraction E dirs lang fmt od (boot E w)))).
Proof.
  assert (Hfin : forall s0 s1, evolves finish_event flag_only s0 s1 ->
                   Forall processed_within_total (out s0) ->
                   Forall processed_within_total (out s1)).
  { intros s0 s1 H. apply (evolves_Forall _ _ _ _ _ H). by intros []. }
  assert (Hz : zeroed (ext (boot E w))) by (repeat split).
  destruct (run_extraction_cases dirs lang fmt od (boot E w)) as [_ Hcases].
  destruct (collect_video_files E dirs []) as [|f wl].
  - apply (Hfin _ _ Hcases). constructor.
  - destruct Hcases as [message Hcases].
    destruct (scan_loop_agrees (f :: wl) lang (f :: wl) [] (logged (boot E w) message))
      as [Hz2 Hall2]; [exact Hz | repeat constructor |].
    pose proof (Forall_impl _ _ _ Hall2 progress_agrees_within) as Hall2'.
    clear Hall2.
    destruct (scan_loop E _ _ _ _ _) as [[tasks|e] s2]; simpl in Hz2, Hall2'.
    + destruct tasks as [|t tasks].
      * apply (Hfin _ _ Hcases). exact Hall2'.
      * destruct Hcases as [message' Hcases]. apply (Hfin _ _ Hcases).
        apply extract_loop_within.
        -- simpl. apply Forall_app. split; [exact Hall2' | repeat constructor].
        -- simpl. lia.
    + apply (Hfin _ _ Hcases). exact Hall2'.
Qed.

(** A call cancelled while the tool runs: what the call itself does. *)
Lemma extract_subtitle_cancelled
    file idx lang fmt od ow s fi w1 present w2 proc w3 s4 :
  SUBTITLE_FORMATS !! fmt = Some fi ->
  os_makedirs E (output_dir_of file od) (wld s) = (None, w1) ->
  os_path_exists E (output_file_of file lang od (extension fi)) w1
  = (present, w2) ->
  present && negb ow = false ->
  subprocess_Popen E
    (ffmpeg_cmd E file idx (ffmpeg_format fi) ow
       (output_file_of file lang od (extension fi))) w2
  = (inr proc, w3) ->
  read_stderr E (stderr proc) []
    {| ext := ext s; wld := w3;
       out := out s ++
              [EvMakedirs (output_dir_of file od);
               EvExists (output_file_of file lang od (extension fi));
               EvPopen (ffmpeg_cmd E file idx (ffmpeg_format fi) ow
                          (output_file_of file lang od (extension fi)))] |}
  = (Ok None, s4) ->
  fst (extract_subtitle E file idx lang fmt od ow s) = Ok false
  /\ flag_only (ext s) (ext (snd (extract_subtitle E file idx lang fmt od ow s)))
  /\ cancel_flag (ext (snd (extract_subtitle E file idx lang fmt od ow s))) = true.
Proof.
  intros Hfmt Hmk Hex Hskip Hpopen Hread.
  pose proof (read_stderr_result (stderr proc) []
                {| ext := ext s; wld := w3;
                   out := out s ++
                          [EvMakedirs (output_dir_of file od);
                           EvExists (output_file_of file lang od (extension fi));
                           EvPopen (ffmpeg_cmd E file idx (ffmpeg_format fi) ow
                                      (output_file_of file lang od (extension fi)))] |})
    as Hres.
  pose proof (read_stderr_counters (stderr proc) []
                {| ext := ext s; wld := w3;
                   out := out s ++
                          [EvMakedirs (output_dir_of file od);
                           EvExists (output_file_of file lang od (extension fi));
                           EvPopen (ffmpeg_cmd E file idx (ffmpeg_format fi) ow
                                      (output_file_of file lang od (extension fi)))] |})
    as Hcnt.
  rewrite Hread in Hres, Hcnt. simpl in Hres, Hcnt.
  destruct Hres as [[_ Hflag]|[Hsome _]]; [|discriminate].
  unfold extract_subtitle. run_prims. simpl. rewrite Hmk, Hfmt. simpl.
  rewrite Hex. simpl. rewrite Hskip. simpl.
  rewrite Hpopen. simpl. rewrite <- !app_assoc. simpl.
  rewrite Hread. simpl. auto.
Qed.

(** C1 (as the code has it).  In every run of a fresh extractor each
    progress callback finds [processed_streams <= total_streams].
    Provided the conversion tool never fails with the diagnostics of an
    existing output, each callback moreover finds the sum of the three
    outcome counters equal to [processed_streams] as long as the
    cancellation flag is down, and never more than one behind it; and a
    call that returns with the flag still down has added one to exactly
    one of the three counters.  A call cancelled while the tool is
    running adds nothing to them, yet the loop counts it in
    [processed_streams] before it stops. *)
Theorem C1_counters_at_progress_callbacks :
  (forall dirs lang fmt od w,
      Forall processed_within_total
        (out (snd (run_extraction E dirs lang fmt od (boot E w)))))
  /\ (no_exists_race E ->
      forall dirs lang fmt od w,
        Forall progress_agrees
          (out (snd (run_extraction E dirs lang fmt od (boot E w)))))
  /\ (no_exists_race E ->
      forall file idx lang fmt od ow s b,
        fst (extract_subtitle E file idx lang fmt od ow s) = Ok b ->
        cancel_flag (ext (snd (extract_subtitle E file idx lang fmt od ow s)))
        = false ->
        let e' := ext (snd (extract_subtitle E file idx lang fmt od ow s)) in
        total_streams e' = total_streams (ext s)
        /\ processed_streams e' = processed_streams (ext s)
        /\ successful_extractions e' + failed_extractions e'
           + skipped_extractions e'
           = successful_extractions (ext s) + failed_extractions (ext s)
             + skipped_extractions (ext s) + 1
        /\ successful_extractions (ext s) <= successful_extractions e'
        /\ failed_extractions (ext s) <= failed_extractions e'
        /\ skipped_extractions (ext s) <= skipped_extractions e')
  /\ (forall lang fmt od item rest s s0 ow w fi w1 present w2 proc w3 s4,
        let file := video_file item in
        let dir := output_dir_of file od in
        let target := output_file_of file lang od (extension fi) in
        let cmd := ffmpeg_cmd E file (index (stream item)) (ffmpeg_format fi)
                     ow target in
        read_cancel_flag E s = (Ok false, s0) ->
        overwrite_var E (wld s0) = (ow, w) ->
        SUBTITLE_FORMATS !! fmt = Some fi ->
        os_makedirs E dir w = (None, w1) ->
        os_path_exists E target w1 = (present, w2) ->
        present && negb ow = false ->
        subprocess_Popen E cmd w2 = (inr proc, w3) ->
        read_stderr E (stderr proc) []
          {| ext := ext s0; wld := w3;
             out := out s0 ++ [EvMakedirs dir; EvExists target; EvPopen cmd] |}
        = (Ok None, s4) ->
        let e' := ext (snd (extract_loop E lang fmt od (item :: rest) s)) in
        processed_streams e' = processed_streams (ext s) + 1
        /\ successful_extractions e' = successful_extractions (ext s)
        /\ failed_extractions e' = failed_extractions (ext s)
        /\ skipped_extractions e' = skipped_extractions (ext s)).
Proof.
  split; [apply run_within_total|].
  split; [intros Hrace dirs lang fmt od w; apply run_agrees; exact Hrace|].
  split.
  - intros Hrace file idx lang fmt od ow s b Hb Hc. cbv zeta.
    destruct (extract_subtitle_outcome file idx lang fmt od ow s Hrace)
      as [_ Hone].
    specialize (Hone b Hb Hc).
    destruct Hone as [-> | [-> | ->]]; simpl; repeat split; lia.
  - intros lang fmt od item rest s s0 ow w fi w1 present w2 proc w3 s4
      file dir target cmd Hrd How Hfmt Hmk Hex Hskip Hpopen Hread.
    cbv zeta. rewrite extract_loop_cons. cbv zeta.
    pose proof (read_cancel_flag_footprint s) as [Hfo0 _].
    pose proof (read_cancel_flag_returns s) as Hret.
    rewrite Hrd in *. cbn [fst snd] in *.
    injection Hret as Hc0. rewrite <- Hc0. rewrite How.
    destruct (extract_subtitle_cancelled
                file (index (stream item)) lang fmt od ow
                {| ext := ext s0; wld := w; out := out s0 |}
                fi w1 present w2 proc w3 s4 Hfmt Hmk Hex Hskip Hpopen Hread)
      as (Hfst & Hfo & Hflag).
    fold file.
    destruct (extract_subtitle E file (index (stream item)) lang fmt od ow
                {| ext := ext s0; wld := w; out := out s0 |}) as [r s5].
    cbn [fst snd ext] in Hfst, Hfo, Hflag. subst r. cbv beta iota zeta.
    match goal with
    | |- context [extract_loop E lang fmt od rest ?s6] =>
        pose proof (extract_loop_cancelled lang fmt od rest s6) as [Hfo6 _]
    end; [exact Hflag|].
    match goal with
    | |- context [extract_loop E lang fmt od rest ?s6] =>
        set (s7 := snd (extract_loop E lang fmt od rest s6)) in *
    end.
    unfold flag_only in Hfo6, Hfo, Hfo0.
    cbn [ext processed_streams total_streams successful_extractions
         failed_extractions skipped_extractions set_processed_streams
         cancel_flag] in Hfo6, Hfo.
    destruct Hfo6 as (_ & H61 & H62 & H63 & H64 & _).
    destruct Hfo as (_ & H51 & H52 & H53 & H54 & _).
    destruct Hfo0 as (_ & H01 & H02 & H03 & H04 & _).
    repeat split; lia.
Qed.

(** ** Claim C2 *)

(** With a format that is not in the table, each task the loop gets
    through is one more failure and nothing else. *)
Lemma extract_loop_unknown_counts lang fmt od items :
  SUBTITLE_FORMATS !! fmt = None ->
  forall s,
    let e' := ext (snd (extract_loop E lang fmt od items s)) in
    failed_extractions e' + processed_streams (ext s)
    = failed_extractions (ext s) + processed_streams e'
    /\ successful_extractions e' = successful_extractions (ext s)
    /\ skipped_extractions e' = skipped_extractions (ext s)
    /\ total_streams e' = total_streams (ext s)
    /\ processed_streams e' <= processed_streams (ext s) + length items.
Proof.
  intros Hfmt. induction items as [|item rest IH]; intros s; cbv zeta.
  { simpl. repeat split; lia. }
  rewrite extract_loop_cons. cbv zeta.
  pose proof (read_cancel_flag_footprint s) as [Hfo _].
  set (s1 := snd (read_cancel_flag E s)) in *.
  unfold flag_only in Hfo. destruct Hfo as (H1 & H2 & H3 & H4 & H5 & _).
  destruct (cancel_flag (ext s1)).
  { cbn [snd length]. repeat split; lia. }
  destruct (overwrite_var E (wld s1)) as [ow w].
  destruct (os_makedirs E (output_dir_of (video_file item) od) w)
    as [[e|] w1] eqn:Hmk.
  - rewrite (extract_subtitle_makedirs_raises (video_file item)
               (index (stream item)) lang fmt od ow
               {| ext := ext s1; wld := w; out := out s1 |} e w1 Hmk).
    cbn [snd ext length]. repeat split; lia.
  - rewrite (extract_subtitle_unknown_format (video_file item)
               (index (stream item)) lang fmt od ow
               {| ext := ext s1; wld := w; out := out s1 |} w1 Hfmt Hmk).
    match goal with
    | |- context [extract_loop E lang fmt od rest ?s4] =>
        destruct (IH s4) as (G1 & G2 & G3 & G4 & G5);
        set (s5 := snd (extract_loop E lang fmt od rest s4)) in *
    end.
    cbn [ext processed_streams total_streams successful_extractions
         failed_extractions skipped_extractions set_processed_streams
         incr_failed] in G1, G2, G3, G4, G5.
    cbn [length]. repeat split; lia.
Qed.

(** When moreover nobody cancels and the directories can be created, the
    loop gets through every task. *)
Lemma extract_loop_unknown_settles lang fmt od items :
  SUBTITLE_FORMATS !! fmt = None ->
  never_pressed E -> makedirs_succeeds E ->
  forall s,
    cancel_flag (ext s) = false ->
    processed_streams (ext (snd (extract_loop E lang fmt od items s)))
    = processed_streams (ext s) + length items.
Proof.
  intros Hfmt Hn Hmk. induction items as [|item rest IH]; intros s Hc.
  { simpl. lia. }
  rewrite extract_loop_cons, (read_cancel_flag_unpressed s Hn). cbv zeta.
  cbn [snd ext wld out]. rewrite Hc.
  destruct (overwrite_var E (snd (cancel_pressed E (wld s)))) as [ow w].
  pose proof (Hmk (output_dir_of (video_file item) od) w) as Hmk1.
  destruct (os_makedirs E (output_dir_of (video_file item) od) w)
    as [m w1] eqn:Emk. simpl in Hmk1. subst m.
  rewrite (extract_subtitle_unknown_format (video_file item)
             (index (stream item)) lang fmt od ow
             {| ext := ext s; wld := w; out := out s |} w1 Hfmt Emk).
  rewrite IH; [|exact Hc]. cbn [ext processed_streams set_processed_streams
    incr_failed length]. lia.
Qed.

(** C2 (as the code has it).  A format name that is not in the table
    does not fail the run: the run returns normally and never starts the
    conversion tool.  Each call made for a task whose output directory
    can be created logs the unsupported format, adds one to
    [failed_extractions], leaves every other attribute of the extractor
    as it was and returns [False].  So at the end of a run of a fresh
    extractor [failed_extractions] equals [processed_streams] while the
    two other outcome counters are zero: one failure per task processed;
    and when nobody cancels and the directories can be created every
    task is processed, so that [failed_extractions] equals
    [total_streams]. *)
Theorem C2_unknown_format_fails_each_task dirs file idx lang fmt od ow s w :
  SUBTITLE_FORMATS !! fmt = None ->
  fst (run_extraction E dirs lang fmt od s) = Ok tt
  /\ popen_cmds (out (snd (run_extraction E dirs lang fmt od s)))
     = popen_cmds (out s)
  /\ (forall w1,
        os_makedirs E (output_dir_of file od) (wld s) = (None, w1) ->
        extract_subtitle E file idx lang fmt od ow s
        = (Ok false,
           {| ext := {| cancel_flag := cancel_flag (ext s);
                        total_streams := total_streams (ext s);
                        processed_streams := processed_streams (ext s);
                        successful_extractions := successful_extractions (ext s);
                        failed_extractions := failed_extractions (ext s) + 1;
                        skipped_extractions := skipped_extractions (ext s) |};
              wld := w1;
              out := out s ++
                     [EvMakedirs (output_dir_of file od);
                      EvLog ("ERROR: Unsupported format " +:+ fmt)] |}))
  /\ (let e' := ext (snd (run_extraction E dirs lang fmt od (boot E w))) in
      failed_extractions e' = processed_streams e'
      /\ successful_extractions e' = 0
      /\ skipped_extractions e' = 0
      /\ processed_streams e' <= total_streams e'
      /\ (never_pressed E -> makedirs_succeeds E ->
          failed_extractions e' = total_streams e')).
Proof.
  intros Hfmt. split; [apply run_extraction_cases|].
  split; [apply run_unknown_format_popen; exact Hfmt|].
  split.
  { intros w1 Hmk.
    apply (extract_subtitle_unknown_format file idx lang fmt od ow s w1 Hfmt Hmk). }
  cbv zeta.
  assert (Hfin : forall s0 s1, evolves finish_event flag_only s0 s1 ->
             failed_extractions (ext s1) = failed_extractions (ext s0)
             /\ processed_streams (ext s1) = processed_streams (ext s0)
             /\ successful_extractions (ext s1) = successful_extractions (ext s0)
             /\ skipped_extractions (ext s1) = skipped_extractions (ext s0)
             /\ total_streams (ext s1) = total_streams (ext s0)).
  { intros s0 s1 [Hfo _]. unfold flag_only in Hfo. intuition congruence. }
  destruct (run_extraction_cases dirs lang fmt od (boot E w)) as [_ Hcases].
  destruct (collect_video_files E dirs []) as [|f wl].
  { destruct (Hfin _ _ Hcases) as (-> & -> & -> & -> & ->). simpl.
    repeat split; reflexivity. }
  destruct Hcases as [message Hcases].
  destruct (scan_loop_agrees (f :: wl) lang (f :: wl) []
              (logged (boot E w) message)) as [Hz _];
    [repeat split | repeat constructor |].
  assert (Hflag : never_pressed E ->
            cancel_flag (ext (snd (scan_loop E (f :: wl) lang (f :: wl) []
                                     (logged (boot E w) message)))) = false).
  { intros Hn.
    destruct (scan_loop_flag_same (f :: wl) lang (f :: wl) Hn []
                (logged (boot E w) message)) as [Hsame _].
    exact Hsame. }
  destruct (scan_loop E _ _ _ _ _) as [[tasks|e] s2]; cbn [snd] in Hz, Hflag.
  all: destruct Hz as (Hz1 & Hz2 & Hz3 & Hz4 & Hz5).
  - destruct tasks as [|t tasks].
    + destruct (Hfin _ _ Hcases) as (-> & -> & -> & -> & ->). simpl.
      repeat split; lia.
    + destruct Hcases as [message' Hcases].
      destruct (Hfin _ _ Hcases) as (-> & -> & -> & -> & ->).
      destruct (extract_loop_unknown_counts lang fmt od (t :: tasks) Hfmt
                  (started s2 (length (t :: tasks)) message'))
        as (G1 & G2 & G3 & G4 & G5).
      pose proof (extract_loop_unknown_settles lang fmt od (t :: tasks) Hfmt)
        as Hall.
      set (s3 := snd (extract_loop E lang fmt od (t :: tasks)
                        (started s2 (length (t :: tasks)) message'))) in *.
      cbn [started ext processed_streams total_streams successful_extractions
           failed_extractions skipped_extractions set_processed_streams
           set_total_streams] in G1, G2, G3, G4, G5.
      repeat split; try lia.
      intros Hn Hmk. specialize (Hall Hn Hmk
        (started s2 (length (t :: tasks)) message') (Hflag Hn)).
      fold s3 in Hall.
      cbn [started ext processed_streams set_processed_streams
           set_total_streams] in Hall. lia.
  - destruct (Hfin _ _ Hcases) as (-> & -> & -> & -> & ->).
    repeat split; lia.
Qed.

(** ** Claim C4 *)

(** A scan that nobody cancels and in which every probe returns goes
    through the whole list, one probe per entry. *)
Lemma scan_loop_probes_all wl lang remaining :
  never_pressed E -> probes_return E ->
  forall acc s,
    cancel_flag (ext s) = false ->
    (exists tasks, fst (scan_loop E wl lang remaining acc s) = Ok tasks)
    /\ probe_cmds (out (snd (scan_loop E wl lang remaining acc s)))
       = probe_cmds (out s) ++ map ffprobe_cmd remaining.
Proof.
  intros Hn Hret. induction remaining as [|file rest IH]; intros acc s Hc.
  { simpl. split; [eauto | symmetry; apply app_nil_r]. }
  rewrite scan_loop_cons, (read_cancel_flag_unpressed s Hn). cbv zeta.
  cbn [snd ext]. rewrite Hc.
  set (s1 := {| ext := ext s; wld := snd (cancel_pressed E (wld s));
                out := out s |}).
  destruct (Hret file s1) as [streams Hok].
  destruct (get_subtitle_streams_probe file s1) as (new & Hnew & Hlog & Hext).
  destruct (get_subtitle_streams E file s1) as [r s2].
  cbn [fst snd] in Hok, Hnew, Hext. subst r.
  match goal with
  | |- context [scan_loop E wl lang rest ?a ?s3] =>
      destruct (IH a s3) as [Htasks Hprobes]
  end.
  { cbn [ext]. rewrite Hext. exact Hc. }
  split; [exact Htasks|].
  rewrite Hprobes. cbn [out]. rewrite !probe_cmds_app, Hnew, probe_cmds_app.
  cbn [probe_cmds flat_map app map].
  fold (probe_cmds new).
  rewrite (probe_cmds_none is_log new); [|intros cmd []|exact Hlog].
  cbn [out s1 app]. rewrite !app_nil_r, <- app_assoc. reflexivity.
Qed.

(** C4 (as the code has it).  The work list is the concatenation, in
    the order requested, of what each directory yields, with nothing
    removed: a path that two requested directories yield is listed
    twice.  The files are probed in the order of the work list, one
    probe per entry, up to the point where the scan stops; when nobody
    cancels and every probe returns, every entry is probed, a path
    listed twice being probed twice. *)
Theorem C4_work_list_is_concatenation dirs lang fmt od s :
  collect_video_files E dirs [] = flat_map (get_video_files E) dirs
  /\ (forall before d1 between d2 after p,
        dirs = before ++ d1 :: between ++ d2 :: after ->
        In p (get_video_files E d1) -> In p (get_video_files E d2) ->
        exists a b c,
          collect_video_files E dirs [] = a ++ p :: b ++ p :: c)
  /\ (exists k,
        probe_cmds (out (snd (run_extraction E dirs lang fmt od s)))
        = probe_cmds (out s)
          ++ map ffprobe_cmd (take k (collect_video_files E dirs [])))
  /\ (never_pressed E -> probes_return E -> cancel_flag (ext s) = false ->
      probe_cmds (out (snd (run_extraction E dirs lang fmt od s)))
      = probe_cmds (out s)
        ++ map ffprobe_cmd (collect_video_files E dirs [])).
Proof.
  split; [apply (collect_video_files_app dirs [])|].
  split.
  { intros before d1 between d2 after p -> H1 H2.
    rewrite (collect_video_files_app _ []). cbn [app].
    rewrite flat_map_app. cbn [flat_map]. rewrite flat_map_app. cbn [flat_map].
    apply in_split in H1 as (x1 & y1 & ->).
    apply in_split in H2 as (x2 & y2 & ->).
    exists (flat_map (get_video_files E) before ++ x1),
           (y1 ++ flat_map (get_video_files E) between ++ x2),
           (y2 ++ flat_map (get_video_files E) after).
    repeat (rewrite <- app_assoc; cbn [app]). reflexivity. }
  assert (Hfin : forall s0 s1, evolves finish_event flag_only s0 s1 ->
                   probe_cmds (out s1) = probe_cmds (out s0)).
  { intros s0 s1 H. apply (evolves_probe_cmds _ _ _ _ H). intros cmd []. }
  assert (Htail : forall (r : result (list task)) s2,
            match r with
            | Raise e =>
                evolves finish_event flag_only s2
                  (snd (run_extraction E dirs lang fmt od s))
            | Ok [] =>
                evolves finish_event flag_only (planned s2 0)
                  (snd (run_extraction E dirs lang fmt od s))
            | Ok tasks =>
                exists message',
                  evolves finish_event flag_only
                    (snd (extract_loop E lang fmt od tasks
                            (started s2 (length tasks) message')))
                    (snd (run_extraction E dirs lang fmt od s))
            end ->
            probe_cmds (out (snd (run_extraction E dirs lang fmt od s)))
            = probe_cmds (out s2)).
  { intros r s2 Hcases. destruct r as [[|t tasks]|e].
    - rewrite (Hfin _ _ Hcases). reflexivity.
    - destruct Hcases as [message' Hcases]. rewrite (Hfin _ _ Hcases).
      pose proof (extract_loop_footprint lang fmt od (t :: tasks)
                    (started s2 (length (t :: tasks)) message')) as Hloop.
      apply evolves_probe_cmds in Hloop; [|intros cmd []].
      rewrite Hloop. simpl. rewrite probe_cmds_app. simpl. apply app_nil_r.
    - apply (Hfin _ _ Hcases). }
  destruct (run_extraction_cases dirs lang fmt od s) as [_ Hcases].
  destruct (collect_video_files E dirs []) as [|f wl].
  { rewrite (Hfin _ _ Hcases). split.
    - exists 0. simpl. symmetry. apply app_nil_r.
    - intros _ _ _. simpl. symmetry. apply app_nil_r. }
  destruct Hcases as [message Hcases].
  assert (Hlog : probe_cmds (out (logged s message)) = probe_cmds (out s)).
  { simpl. rewrite probe_cmds_app. simpl. apply app_nil_r. }
  split.
  - destruct (scan_loop_probes (f :: wl) lang (f :: wl) [] (logged s message))
      as [k Hk].
    exists k. rewrite Hlog in Hk. rewrite <- Hk.
    destruct (scan_loop E _ _ _ _ _) as [r s2]. cbn [snd].
    apply (Htail r s2). exact Hcases.
  - intros Hn Hret Hc.
    destruct (scan_loop_probes_all (f :: wl) lang (f :: wl) Hn Hret []
                (logged s message) Hc) as [_ Hall].
    rewrite Hlog in Hall. rewrite <- Hall.
    destruct (scan_loop E _ _ _ _ _) as [r s2]. cbn [snd].
    apply (Htail r s2). exact Hcases.
Qed.

End RunClaims.

(** C1 on a run in which both tasks succeed, on one successful call, and
    on a loop whose first call is cancelled while the tool runs. *)
Lemma C1_counters_at_progress_callbacks_witness :
  Forall processed_within_total
    (out (snd (run_extraction (env calm) ["/v"] "eng" "SRT" None
                 (boot (env calm) 0%nat))))
  /\ Forall progress_agrees
       (out (snd (run_extraction (env calm) ["/v"] "eng" "SRT" None
                    (boot (env calm) 0%nat))))
  /\ (let e' := ext (snd (extract_subtitle (env calm) "/v/a.mkv" (JInt 2) "eng"
                            "SRT" None false (boot (env calm) 0%nat))) in
      total_streams e' = 0 /\ processed_streams e' = 0
      /\ successful_extractions e' + failed_extractions e'
         + skipped_extractions e' = 1)
  /\ (let E := env cancelled_midstream in
      let item := {| video_file := "/v/a.mkv";
                     stream := {| index := JInt 2; codec_name := JStr "subrip";
                                  language := JStr "eng";
                                  title := JStr EmptyString |} |} in
      let e' := ext (snd (extract_loop E "eng" "SRT" None [item; item]
                            (Build_machine E init_extractor 1%nat []))) in
      processed_streams e' = 1
      /\ successful_extractions e' = 0
      /\ failed_extractions e' = 0
      /\ skipped_extractions e' = 0).
Proof.
  assert (H : no_exists_race (env calm)).
  { intros cmd w proc w' Heq. injection Heq as <- <-. reflexivity. }
  destruct (@C1_counters_at_progress_callbacks (env calm))
    as (H1 & H2 & H3 & _).
  split; [apply H1|]. split; [apply (H2 H)|]. split.
  - destruct (H3 H "/v/a.mkv" (JInt 2) "eng" "SRT" None false
                (boot (env calm) 0%nat) true)
      as (G1 & G2 & G3 & _).
    + vm_compute. reflexivity.
    + vm_compute. reflexivity.
    + cbv zeta. split; [exact G1|]. split; [exact G2|]. exact G3.
  - intros E item.
    destruct (@C1_counters_at_progress_callbacks E) as (_ & _ & _ & H4).
    apply (H4 "eng" "SRT" None item [item]
             (Build_machine E init_extractor 1%nat [])
             (Build_machine E init_extractor 2%nat [])
             false 2%nat srt_info 2%nat false 2%nat
             {| stderr := ["Press [q] to stop"]; return_code := 0 |} 2%nat
             (snd (read_stderr E ["Press [q] to stop"] []
                     (Build_machine E init_extractor 2%nat
                        [EvMakedirs "/v"; EvExists "/v/a.eng.srt";
                         EvPopen ["ffmpeg"; "-loglevel"; "warning"; "-n"; "-i";
                                  "/v/a.mkv"; "-map"; "0:2"; "-c:s"; "srt";
                                  "/v/a.eng.srt"]])))).
    + vm_compute. reflexivity.
    + reflexivity.
    + vm_compute. reflexivity.
    + reflexivity.
    + reflexivity.
    + reflexivity.
    + reflexivity.
    + vm_compute. reflexivity.
Defined.

(** C2 on the format [XYZ]. *)
Lemma C2_unknown_format_fails_each_task_witness :
  SUBTITLE_FORMATS !! "XYZ" = None
  /\ fst (run_extraction (env calm) ["/v"] "eng" "XYZ" None (boot (env calm) 0%nat))
     = Ok tt
  /\ popen_cmds (out (snd (run_extraction (env calm) ["/v"] "eng" "XYZ" None
                             (boot (env calm) 0%nat))))
     = popen_cmds (out (boot (env calm) 0%nat))
  /\ extract_subtitle (env calm) "/v/a.mkv" (JInt 2) "eng" "XYZ" None false
       (boot (env calm) 0%nat)
     = (Ok false,
        Build_machine (env calm)
          {| cancel_flag := false; total_streams := 0; processed_streams := 0;
             successful_extractions := 0; failed_extractions := 1;
             skipped_extractions := 0 |}
          0%nat
          [EvMakedirs "/v"; EvLog "ERROR: Unsupported format XYZ"])
  /\ (let e' := ext (snd (run_extraction (env calm) ["/v"] "eng" "XYZ" None
                            (boot (env calm) 0%nat))) in
      failed_extractions e' = processed_streams e'
      /\ successful_extractions e' = 0
      /\ skipped_extractions e' = 0
      /\ failed_extractions e' = total_streams e').
Proof.
  assert (H : SUBTITLE_FORMATS !! "XYZ" = None) by (vm_compute; reflexivity).
  split; [exact H|].
  destruct (@C2_unknown_format_fails_each_task (env calm) ["/v"] "/v/a.mkv"
              (JInt 2) "eng" "XYZ" None false (boot (env calm) 0%nat) 0%nat H)
    as (H1 & H2 & H3 & H4 & H5 & H6 & _ & H7).
  split; [exact H1|]. split; [exact H2|].
  split; [apply (H3 0%nat); reflexivity|].
  cbv zeta. split; [exact H4|]. split; [exact H5|]. split; [exact H6|].
  apply H7.
  - intros w. reflexivity.
  - intros d w. reflexivity.
Defined.

(** C4 on [/v] requested together with its sub-directory [/v/s]: the
    file of the sub-directory is listed twice and probed twice. *)
Lemma C4_work_list_is_concatenation_witness :
  (exists a b c,
      collect_video_files (env calm) ["/v"; "/v/s"] []
      = a ++ "/v/s/b.MKV" :: b ++ "/v/s/b.MKV" :: c)
  /\ probe_cmds (out (snd (run_extraction (env calm) ["/v"; "/v/s"] "eng" "SRT"
                             None (boot (env calm) 0%nat))))
     = map ffprobe_cmd ["/v/a.mkv"; "/v/s/b.MKV"; "/v/s/b.MKV"].
Proof.
  destruct (@C4_work_list_is_concatenation (env calm) ["/v"; "/v/s"] "eng" "SRT"
              None (boot (env calm) 0%nat)) as (_ & Htwice & _ & Hall).
  split.
  - apply (Htwice [] "/v" [] "/v/s" [] "/v/s/b.MKV").
    + reflexivity.
    + right. left. reflexivity.
    + left. reflexivity.
  - rewrite Hall.
    + reflexivity.
    + intros w. reflexivity.
    + intros file s. eexists. reflexivity.
    + reflexivity.
Defined.

(** * The shell around the worker *)

(** ** The language field *)

Lemma lower_char_not_upper c : PyStr.is_upper (PyStr.lower_char c) = false.
Proof. destruct c as [[] [] [] [] [] [] [] []]; reflexivity. Qed.

Lemma lower_char_is_space c :
  PyText.is_space (PyStr.lower_char c) = PyText.is_space c.
Proof. destruct c as [[] [] [] [] [] [] [] []]; reflexivity. Qed.

Lemma lower_has_no_upper s : PyText.has_upper (PyStr.lower s) = false.
Proof.
  induction s as [|c r IH]; [reflexivity|].
  cbn [PyStr.lower PyText.has_upper]. rewrite lower_char_not_upper, IH.
  reflexivity.
Qed.

Lemma lower_empty s : PyStr.lower s = EmptyString <-> s = EmptyString.
Proof. destruct s; cbn [PyStr.lower]; split; congruence. Qed.

Lemma lstrip_lower s : PyText.lstrip (PyStr.lower s) = PyStr.lower (PyText.lstrip s).
Proof.
  induction s as [|c r IH]; [reflexivity|].
  cbn [PyStr.lower PyText.lstrip]. rewrite lower_char_is_space.
  destruct (PyText.is_space c); [exact IH | reflexivity].
Qed.

Lemma rstrip_lower s : PyText.rstrip (PyStr.lower s) = PyStr.lower (PyText.rstrip s).
Proof.
  induction s as [|c r IH]; [reflexivity|].
  cbn [PyStr.lower PyText.rstrip]. rewrite IH, lower_char_is_space.
  destruct (PyText.rstrip r) as [|c' r']; cbn [PyStr.lower].
  - destruct (PyText.is_space c); reflexivity.
  - reflexivity.
Qed.

Lemma rstrip_idem s : PyText.rstrip (PyText.rstrip s) = PyText.rstrip s.
Proof.
  induction s as [|c r IH]; [reflexivity|].
  cbn [PyText.rstrip].
  destruct (PyText.rstrip r) as [|c' r'] eqn:Hr.
  - destruct (PyText.is_space c) eqn:Hc; [reflexivity|].
    cbn [PyText.rstrip]. rewrite Hc. reflexivity.
  - change (PyText.rstrip (String c (String c' r'))) with
      (match PyText.rstrip (String c' r') with
       | EmptyString =>
           if PyText.is_space c then EmptyString else String c EmptyString
       | r'' => String c r''
       end).
    rewrite IH. reflexivity.
Qed.

Lemma lstrip_head s c r :
  PyText.lstrip s = String c r -> PyText.is_space c = false.
Proof.
  induction s as [|a t IH]; cbn [PyText.lstrip]; [discriminate|].
  destruct (PyText.is_space a) eqn:Ha; [exact IH|].
  intros [= -> _]. exact Ha.
Qed.

Lemma rstrip_head c r :
  PyText.is_space c = false ->
  exists r', PyText.rstrip (String c r) = String c r'.
Proof.
  intros Hc. cbn [PyText.rstrip]. rewrite Hc.
  destruct (PyText.rstrip r); eauto.
Qed.

Lemma strip_head s c r :
  PyText.strip s = String c r -> PyText.is_space c = false.
Proof.
  unfold PyText.strip. destruct (PyText.lstrip s) as [|a t] eqn:Hl;
    [discriminate|].
  pose proof (lstrip_head _ _ _ Hl) as Ha.
  destruct (rstrip_head a t Ha) as [r' ->]. intros [= -> _]. exact Ha.
Qed.

Lemma strip_idem s : PyText.strip (PyText.strip s) = PyText.strip s.
Proof.
  destruct (PyText.strip s) as [|c r] eqn:Hs; [reflexivity|].
  pose proof (strip_head _ _ _ Hs) as Hc.
  unfold PyText.strip in *. cbn [PyText.lstrip]. rewrite Hc, <- Hs.
  apply rstrip_idem.
Qed.

Lemma strip_lower s : PyText.strip (PyStr.lower s) = PyStr.lower (PyText.strip s).
Proof. unfold PyText.strip. rewrite lstrip_lower, rstrip_lower. reflexivity. Qed.

Lemma lower_char_ascii c :
  PyStr.is_ascii_char c = true -> PyStr.is_ascii_char (PyStr.lower_char c) = true.
Proof. destruct c as [[] [] [] [] [] [] [] []]; intros H; try exact H; reflexivity. Qed.

Lemma lower_ascii s : PyStr.is_ascii s = true -> PyStr.is_ascii (PyStr.lower s) = true.
Proof.
  induction s as [|c r IH]; [reflexivity|].
  cbn [PyStr.is_ascii PyStr.lower]. intros H.
  apply andb_prop in H as [Hc Hr]. rewrite (lower_char_ascii c Hc), (IH Hr).
  reflexivity.
Qed.

Lemma lstrip_ascii s : PyStr.is_ascii s = true -> PyStr.is_ascii (PyText.lstrip s) = true.
Proof.
  induction s as [|c r IH]; [reflexivity|].
  cbn [PyText.lstrip]. intros H. destruct (PyText.is_space c); [|exact H].
  cbn [PyStr.is_ascii] in H. apply andb_prop in H as [_ Hr]. exact (IH Hr).
Qed.

Lemma rstrip_ascii s : PyStr.is_ascii s = true -> PyStr.is_ascii (PyText.rstrip s) = true.
Proof.
  induction s as [|c r IH]; [reflexivity|].
  cbn [PyStr.is_ascii PyText.rstrip]. intros H.
  apply andb_prop in H as [Hc Hr]. specialize (IH Hr).
  destruct (PyText.rstrip r) as [|c' r'].
  - destruct (PyText.is_space c); [reflexivity|].
    cbn [PyStr.is_ascii]. rewrite Hc. reflexivity.
  - change (PyStr.is_ascii (String c (String c' r')))
      with (PyStr.is_ascii_char c && PyStr.is_ascii (String c' r')).
    rewrite Hc, IH. reflexivity.
Qed.

Lemma strip_ascii s : PyStr.is_ascii s = true -> PyStr.is_ascii (PyText.strip s) = true.
Proof. intros H. unfold PyText.strip. apply rstrip_ascii, lstrip_ascii, H. Qed.

Section LanguageField.

Context {E : environment}.

(** On an ASCII text field the language is computed by the ASCII
    operations. *)
Lemma get_selected_language_ascii g :
  PyStr.is_ascii (custom_language_var g) = true ->
  get_selected_language E g
  = if String.eqb (PyText.strip (custom_language_var g)) EmptyString
    then language_var g
    else PyStr.lower (PyText.strip (custom_language_var g)).
Proof.
  intros H. unfold get_selected_language.
  rewrite (str_strip_ascii E _ H).
  destruct (String.eqb _ EmptyString); [reflexivity|].
  apply str_lower_ascii, strip_ascii, H.
Qed.

(** X17. The language handed to the worker when the text field holds
    ASCII text: the menu's value when the field is blank, otherwise the
    field's text without the blanks around it and in lower case; in that
    case it is ASCII text again, not empty, without an upper-case letter,
    and stripping it again changes nothing. *)
Theorem selected_language_normal_form g :
  PyStr.is_ascii (custom_language_var g) = true ->
  (PyText.strip (custom_language_var g) = EmptyString
   /\ get_selected_language E g = language_var g)
  \/ (get_selected_language E g
      = PyStr.lower (PyText.strip (custom_language_var g))
      /\ get_selected_language E g <> EmptyString
      /\ PyStr.is_ascii (get_selected_language E g) = true
      /\ PyText.has_upper (get_selected_language E g) = false
      /\ PyText.strip (get_selected_language E g) = get_selected_language E g).
Proof.
  intros Hascii. rewrite (get_selected_language_ascii g Hascii).
  destruct (String.eqb_spec (PyText.strip (custom_language_var g)) EmptyString)
    as [Hs|Hs]; [left; auto|right].
  repeat split.
  - rewrite lower_empty. exact Hs.
  - apply lower_ascii, strip_ascii, Hascii.
  - apply lower_has_no_upper.
  - rewrite strip_lower, strip_idem. reflexivity.
Qed.

(** X18. Choosing an entry of [LANGUAGE_MAPPING] in the menu: after
    [on_language_change] the selected language is the chosen code, except
    for ["und"], which empties the text field and leaves the menu's own
    value to be used. *)
Theorem menu_choice_is_selected code name g :
  LANGUAGE_MAPPING !! code = Some name ->
  get_selected_language E (on_language_change code g)
  = if String.eqb code "und" then language_var g else code.
Proof.
  unfold LANGUAGE_MAPPING. intros H.
  apply lookup_insert_Some in H as [[<- _]|[_ H]];
    [rewrite get_selected_language_ascii by reflexivity; reflexivity|].
  apply lookup_insert_Some in H as [[<- _]|[_ H]];
    [rewrite get_selected_language_ascii by reflexivity; reflexivity|].
  apply lookup_insert_Some in H as [[<- _]|[_ H]];
    [rewrite get_selected_language_ascii by reflexivity; reflexivity|].
  rewrite lookup_empty in H. discriminate.
Qed.

End LanguageField.

(** ** The check boxes *)

Lemma dict_set_keys key v items k :
  In k (dict_keys (dict_set key v items)) <-> k = key \/ In k (dict_keys items).
Proof.
  induction items as [|[k0 v0] rest IH]; cbn [dict_set dict_keys map fst In].
  - intuition congruence.
  - destruct (String.eqb_spec k0 key) as [->|Hne];
      cbn [dict_keys map fst In] in *; [intuition congruence|].
    unfold dict_keys in IH. rewrite IH. intuition congruence.
Qed.

Lemma dict_set_NoDup key v items :
  NoDup (dict_keys items) -> NoDup (dict_keys (dict_set key v items)).
Proof.
  induction items as [|[k0 v0] rest IH]; cbn [dict_set dict_keys map fst].
  - intros _. apply NoDup_singleton.
  - intros Hnd. apply NoDup_cons in Hnd as [Hnot Hnd].
    destruct (String.eqb_spec k0 key) as [->|Hne]; cbn [dict_keys map fst].
    + apply NoDup_cons. auto.
    + apply NoDup_cons. split; [|apply IH; exact Hnd].
      intros Hin. apply list_elem_of_In in Hin.
      apply (dict_set_keys key v rest k0) in Hin as [->|Hin]; [congruence|].
      apply Hnot, list_elem_of_In. exact Hin.
Qed.

Lemma dict_set_ticked key items :
  Forall (fun kv => snd kv = true) items ->
  Forall (fun kv => snd kv = true) (dict_set key true items).
Proof.
  induction items as [|[k0 v0] rest IH]; cbn [dict_set].
  - repeat constructor.
  - intros H. apply Forall_cons in H as [H0 H].
    destruct (String.eqb k0 key); apply Forall_cons; auto.
Qed.

Lemma fold_dict_set found : forall init,
  NoDup (dict_keys init) -> Forall (fun kv => snd kv = true) init ->
  let vars := fold_left (fun vars p => dict_set p true vars) found init in
  NoDup (dict_keys vars)
  /\ Forall (fun kv => snd kv = true) vars
  /\ forall k, In k (dict_keys vars) <-> In k (dict_keys init) \/ In k found.
Proof.
  induction found as [|p rest IH]; intros init Hnd Hall; cbv zeta; cbn [fold_left].
  - repeat split; auto; cbn [In]; tauto.
  - destruct (IH (dict_set p true init)) as (H1 & H2 & H3);
      [apply dict_set_NoDup; exact Hnd | apply dict_set_ticked; exact Hall|].
    repeat split; auto.
    + intros Hk. apply H3 in Hk. rewrite dict_set_keys in Hk.
      cbn [In]. intuition auto.
    + intros Hk. apply H3. rewrite dict_set_keys. cbn [In] in Hk.
      intuition auto.
Qed.

Lemma all_ticked_selected vars :
  Forall (fun kv => snd kv = true) vars ->
  map fst (List.filter (fun kv : string * bool => snd kv) vars) = dict_keys vars.
Proof.
  induction 1 as [|[k v] rest Hv _ IH]; [reflexivity|].
  simpl in Hv. subst v. cbn [List.filter snd map fst dict_keys].
  f_equal. exact IH.
Qed.

Lemma none_ticked_selected (vars : list (string * bool)) :
  map fst (List.filter (fun kv : string * bool => snd kv)
             (map (fun kv : string * bool => (fst kv, false)) vars)) = [].
Proof. induction vars as [|kv rest IH]; [reflexivity|exact IH]. Qed.

Lemma endswith_any_mono s small large :
  (forall x, In x small -> In x large) ->
  PyStr.endswith_any s small = true -> PyStr.endswith_any s large = true.
Proof.
  unfold PyStr.endswith_any. rewrite !existsb_exists.
  intros Hsub (x & Hx & Hend). exists x. auto.
Qed.

Section ShellFacts.

Context {E : environment}.

#[local] Existing Instance M_ret.
#[local] Existing Instance M_bind.

Implicit Types (s : machine E) (g : gui).

Lemma has_videos_get_video_files p :
  has_videos E p = true -> get_video_files E p <> [].
Proof.
  unfold has_videos, get_video_files. rewrite existsb_exists.
  intros ([[root dirs] files] & Hw & Hfiles).
  rewrite existsb_exists in Hfiles. destruct Hfiles as (file & Hfile & Hext).
  apply (endswith_any_mono _ _ video_extensions) in Hext.
  2:{ unfold listed_extensions, video_extensions. cbn [In]. tauto. }
  intros Hnil.
  assert (Hin : In (os_path.join root file)
                   (flat_map
                      (fun '(root, _, files) =>
                         flat_map
                           (fun file =>
                              if PyStr.endswith_any (str_lower E file)
                                   video_extensions
                              then [os_path.join root file] else [])
                           files)
                      (os_walk E p))).
  { apply in_flat_map. exists (root, dirs, files). split; [exact Hw|].
    apply in_flat_map. exists file. split; [exact Hfile|].
    rewrite Hext. left. reflexivity. }
  rewrite Hnil in Hin. exact Hin.
Qed.

(** The test for one sub-directory, spelled out. *)
Lemma has_videos_spec p :
  has_videos E p = true
  <-> exists root dirs files file ext,
        In (root, dirs, files) (os_walk E p)
        /\ In file files
        /\ In ext [".mkv"; ".mp4"; ".avi"; ".mov"]
        /\ PyStr.endswith (str_lower E file) ext = true.
Proof.
  unfold has_videos. rewrite existsb_exists. split.
  - intros ([[root dirs] files] & Hw & Hfiles).
    rewrite existsb_exists in Hfiles. destruct Hfiles as (file & Hfile & Hext).
    unfold PyStr.endswith_any in Hext. rewrite existsb_exists in Hext.
    destruct Hext as (ext & Hin & Hends).
    exists root, dirs, files, file, ext. auto.
  - intros (root & dirs & files & file & ext & Hw & Hfile & Hin & Hends).
    exists (root, dirs, files). split; [exact Hw|].
    rewrite existsb_exists. exists file. split; [exact Hfile|].
    unfold PyStr.endswith_any. rewrite existsb_exists. exists ext. auto.
Qed.

(** The sub-directories offered, spelled out. *)
Lemma listed_subdirs_spec directory p :
  In p (listed_subdirs E directory)
  <-> exists root dirs files dir_name,
        In (root, dirs, files) (os_walk E directory)
        /\ In dir_name dirs
        /\ p = os_path.join root dir_name
        /\ has_videos E p = true.
Proof.
  unfold listed_subdirs. rewrite in_flat_map. split.
  - intros ([[root dirs] files] & Hw & Hin).
    rewrite in_flat_map in Hin. destruct Hin as (dir_name & Hdir & Hin).
    destruct (has_videos E (os_path.join root dir_name)) eqn:Hv; [|destruct Hin].
    destruct Hin as [<-|[]]. exists root, dirs, files, dir_name. auto.
  - intros (root & dirs & files & dir_name & Hw & Hdir & -> & Hv).
    exists (root, dirs, files). split; [exact Hw|].
    rewrite in_flat_map. exists dir_name. split; [exact Hdir|].
    rewrite Hv. left. reflexivity.
Qed.

Lemma listed_subdirs_have_videos directory p :
  In p (listed_subdirs E directory) -> has_videos E p = true.
Proof.
  unfold listed_subdirs. rewrite in_flat_map.
  intros ([[root dirs] files] & _ & Hin).
  rewrite in_flat_map in Hin. destruct Hin as (dir_name & _ & Hin).
  destruct (has_videos E (os_path.join root dir_name)) eqn:Hv; [|destruct Hin].
  destruct Hin as [<-|[]]. exact Hv.
Qed.

(** What [populate_subdirectories] leaves in the shell. *)
Lemma populate_subdirectories_run directory g s :
  exists g',
    populate_subdirectories E directory g s
    = (Ok g',
       {| ext := ext s; wld := wld s;
          out := out s ++
                 [EvLog "Use 'Apply Selection' to confirm directory selection."] |})
    /\ subdirs g' = directory :: listed_subdirs E directory
    /\ has_subdir_vars g' = true
    /\ selected_subdirs g' = []
    /\ (forall p, In p (get_selected_subdirs g') <-> In p (subdirs g'))
    /\ NoDup (get_selected_subdirs g').
Proof.
  eexists. split; [reflexivity|]. cbn [subdirs selected_subdirs has_subdir_vars].
  destruct (fold_dict_set (listed_subdirs E directory) [(directory, true)])
    as (Hnd & Hall & Hkeys).
  { apply NoDup_singleton. }
  { repeat constructor. }
  unfold get_selected_subdirs. cbn [subdir_vars].
  rewrite (all_ticked_selected _ Hall).
  repeat split; auto.
  - intros Hp. apply Hkeys in Hp. cbn [dict_keys map fst In] in *. tauto.
  - intros Hp. apply Hkeys. cbn [dict_keys map fst In] in *. tauto.
Qed.

(** X19. Picking a directory, the walk raising nothing: the list offered
    is the directory itself followed by the sub-directories, at any depth,
    whose own walk finds a file with one of the four extensions
    [.mkv .mp4 .avi .mov] at the end of its lower-cased name; each of
    these holds at least one file of the worker's own enumeration; every
    offered directory is ticked, once; the applied selection is emptied;
    and the line logged is always the prompt to apply the selection. *)
Theorem populate_subdirectories_offer directory g s :
  exists g' offered,
    populate_subdirectories E directory g s
    = (Ok g',
       {| ext := ext s; wld := wld s;
          out := out s ++
                 [EvLog "Use 'Apply Selection' to confirm directory selection."] |})
    /\ subdirs g' = directory :: offered
    /\ (forall p,
          In p offered
          <-> exists root dirs files dir_name,
                In (root, dirs, files) (os_walk E directory)
                /\ In dir_name dirs
                /\ p = os_path.join root dir_name
                /\ exists root' dirs' files' file ext,
                     In (root', dirs', files') (os_walk E p)
                     /\ In file files'
                     /\ In ext [".mkv"; ".mp4"; ".avi"; ".mov"]
                     /\ PyStr.endswith (str_lower E file) ext = true)
    /\ has_subdir_vars g' = true
    /\ selected_subdirs g' = []
    /\ (forall p, In p (get_selected_subdirs g') <-> In p (subdirs g'))
    /\ NoDup (get_selected_subdirs g')
    /\ (forall p, In p offered -> get_video_files E p <> []).
Proof.
  destruct (populate_subdirectories_run directory g s)
    as (g' & Hrun & Hsub & Hhas & Hsel & Hin & Hnd).
  exists g', (listed_subdirs E directory).
  split; [exact Hrun|]. split; [exact Hsub|]. split.
  { intros p. rewrite listed_subdirs_spec. split.
    - intros (root & dirs & files & dir_name & Hw & Hdir & Hp & Hv).
      exists root, dirs, files, dir_name. repeat split; try assumption.
      apply has_videos_spec. exact Hv.
    - intros (root & dirs & files & dir_name & Hw & Hdir & Hp & Hv).
      exists root, dirs, files, dir_name. repeat split; try assumption.
      apply has_videos_spec. exact Hv. }
  repeat split; try assumption.
  - apply Hin.
  - apply Hin.
  - intros p Hp. apply has_videos_get_video_files.
    eapply listed_subdirs_have_videos. exact Hp.
Qed.

(** X20. The two buttons over the check boxes: the boxes stay the same
    ones; after "select all" every one of them is selected, after
    "deselect all" none is, and applying the selection then only warns
    and changes nothing, even an earlier applied selection. *)
Theorem select_all_and_deselect_all g s :
  dict_keys (subdir_vars (select_all_subdirs g)) = dict_keys (subdir_vars g)
  /\ dict_keys (subdir_vars (deselect_all_subdirs g)) = dict_keys (subdir_vars g)
  /\ get_selected_subdirs (select_all_subdirs g) = dict_keys (subdir_vars g)
  /\ get_selected_subdirs (deselect_all_subdirs g) = []
  /\ apply_selection E (deselect_all_subdirs g) s
     = (Ok (Some "No directories selected.", deselect_all_subdirs g), s)
  /\ selected_subdirs (deselect_all_subdirs g) = selected_subdirs g.
Proof.
  assert (Hk : forall b, dict_keys (map (fun kv : string * bool => (fst kv, b))
                                        (subdir_vars g))
                         = dict_keys (subdir_vars g)).
  { intros b. unfold dict_keys. rewrite map_map. reflexivity. }
  assert (Hon : get_selected_subdirs (select_all_subdirs g)
                = dict_keys (subdir_vars g)).
  { unfold get_selected_subdirs, select_all_subdirs. cbn [subdir_vars set_subdir_vars].
    rewrite all_ticked_selected; [apply Hk|].
    apply Forall_map, Forall_forall. reflexivity. }
  assert (Hoff : get_selected_subdirs (deselect_all_subdirs g) = []).
  { unfold get_selected_subdirs, deselect_all_subdirs.
    cbn [subdir_vars set_subdir_vars]. apply none_ticked_selected. }
  repeat split; try apply Hk; auto.
  unfold apply_selection. rewrite Hoff. reflexivity.
Qed.

(** ** The start button *)

Lemma start_run_ok dirs lang fmt od g1 message s :
  exists s',
    (emit E EvClearLog;;
     log_message E message;;
     reset E;;
     run_extraction E dirs lang fmt od;;
     ret E (Started dirs lang fmt od, g1)) s
    = (Ok (Started dirs lang fmt od, g1), s').
Proof.
  unfold log_message, reset. run_prims. cbv beta iota.
  match goal with
  | |- context [run_extraction E dirs lang fmt od ?s1] =>
      destruct (run_extraction_cases dirs lang fmt od s1) as [Hok _];
      destruct (run_extraction E dirs lang fmt od s1) as [r s2]
  end.
  simpl in Hok. subst r. eauto.
Qed.

Lemma get_selected_language_set_selected l g :
  get_selected_language E (set_selected_subdirs l g) = get_selected_language E g.
Proof. reflexivity. Qed.

(** X21. What a press on the start button can lead to.  On a window where
    no directory was ever picked (and so nothing applied) the press ends
    in the [AttributeError] of the missing [subdir_vars], nothing else
    having happened.  Otherwise it returns, and a worker is started only
    with a non-empty list of directories (the applied selection when
    there is one, whatever the check boxes say now; otherwise the ticked
    boxes, after a confirmation), the language of
    [get_selected_language], which is not empty, the format of the menu
    and, when the custom output box is ticked, a non-empty output
    directory.  In every case but a start the press leaves the extractor,
    the surroundings and the log as they were. *)
Theorem start_extraction_guards g confirm s :
  match fst (start_extraction E g confirm s) with
  | Raise e =>
      has_subdir_vars g = false /\ selected_subdirs g = []
      /\ e = AttributeError (attribute_error_text E "subdir_vars")
      /\ snd (start_extraction E g confirm s) = s
  | Ok (Started dirs lang fmt od, g') =>
      dirs <> [] /\ selected_subdirs g' = dirs
      /\ (dirs = selected_subdirs g
          \/ (selected_subdirs g = [] /\ has_subdir_vars g = true
              /\ confirm = true /\ dirs = get_selected_subdirs g))
      /\ lang = get_selected_language E g /\ lang <> EmptyString
      /\ fmt = format_var g
      /\ od = (if custom_output_dir_var g
               then Some (output_directory g) else None)
      /\ od <> Some EmptyString
  | Ok _ => snd (start_extraction E g confirm s) = s
  end
  /\ (has_subdir_vars g = false -> selected_subdirs g = [] ->
      fst (start_extraction E g confirm s)
      = Raise (AttributeError (attribute_error_text E "subdir_vars"))).
Proof.
  unfold start_extraction.
  destruct (selected_subdirs g) as [|d ds] eqn:Hsel;
    [destruct (has_subdir_vars g) eqn:Hhas;
       [destruct (get_selected_subdirs g) as [|d ds] eqn:Hget;
          [|destruct confirm]|]|].
  all: cbv beta iota zeta.
  all: try (split; [cbn; auto | intros; first [discriminate | reflexivity]]; fail).
  all: rewrite ?get_selected_language_set_selected;
    cbn [custom_output_dir_var format_var output_directory selected_subdirs
         set_selected_subdirs].
  all: destruct (String.eqb_spec (get_selected_language E g) EmptyString)
         as [Hl|Hl];
    [split; [reflexivity | intros; discriminate]|].
  all: destruct (custom_output_dir_var g) eqn:Hc;
    [destruct (String.eqb_spec (output_directory g) EmptyString) as [Ho|Ho];
       [split; [reflexivity | intros; discriminate]|]|].
  all: match goal with
       | |- context [mbind _ (log_message E ?m)] =>
           match goal with
           | |- context [run_extraction E ?dirs ?l ?f ?o] =>
               match goal with
               | |- context [ret E (_, ?g1)] =>
                   destruct (start_run_ok dirs l f o g1 m s) as [s' ->]
               end
           end
       end.
  all: split; [cbn [fst] | intros; discriminate].
  all: repeat split; auto 10; try congruence; try discriminate.
Qed.

End ShellFacts.

(** * The log is only written *)

Section Frame.

Context {E : environment}.

Lemma framed_ret {A} (a : A) : framed (ret E a).
Proof. intros o s. reflexivity. Qed.

Lemma framed_raise {A} e : framed (@raise E A e).
Proof. intros o s. reflexivity. Qed.

Lemma framed_gets {A} (f : extractor -> A) : framed (gets E f).
Proof. intros o s. reflexivity. Qed.

Lemma framed_modify f : framed (modify E f).
Proof. intros o s. reflexivity. Qed.

Lemma framed_emit e : framed (emit E e).
Proof.
  intros o s. unfold emit, rebase. simpl. rewrite app_assoc. reflexivity.
Qed.

Lemma framed_ask {A} (q : world E -> A * world E) : framed (ask E q).
Proof.
  intros o s. unfold ask, rebase. simpl. destruct (q (wld s)). reflexivity.
Qed.

Lemma framed_bind {A B} (m : M E A) (k : A -> M E B) :
  framed m -> (forall a, framed (k a)) -> framed (bind E m k).
Proof.
  intros Hm Hk o s. unfold bind. rewrite Hm.
  destruct (m s) as [[a|e] s1]; simpl; [apply Hk | reflexivity].
Qed.

Lemma framed_try_except {A} (m : M E A) (h : exn -> M E A) :
  framed m -> (forall e, framed (h e)) -> framed (try_except E m h).
Proof.
  intros Hm Hh o s. unfold try_except. rewrite Hm.
  destruct (m s) as [[a|e] s1]; simpl; [reflexivity | apply Hh].
Qed.

Lemma framed_try_finally {A} (m : M E A) (c : M E unit) :
  framed m -> framed c -> framed (try_finally E m c).
Proof.
  intros Hm Hc o s. unfold try_finally. rewrite Hm.
  destruct (m s) as [r s1]. simpl. rewrite Hc.
  destruct (c s1) as [[[]|e] s2]; reflexivity.
Qed.

End Frame.

(** One step of syntax-directed reasoning for [framed]. *)
Ltac framed_step :=
  lazymatch goal with
  | |- framed (mbind _ _) =>
      unfold mbind at 1, M_bind at 1; apply framed_bind; [ | intros ? ]
  | |- framed (bind _ _ _) => apply framed_bind; [ | intros ? ]
  | |- framed (mret _) => apply framed_ret
  | |- framed (ret _ _) => apply framed_ret
  | |- framed (raise _ _) => apply framed_raise
  | |- framed (gets _ _) => apply framed_gets
  | |- framed (snapshot _) => apply framed_gets
  | |- framed (modify _ _) => apply framed_modify
  | |- framed (emit _ _) => apply framed_emit
  | |- framed (log _ _) => apply framed_emit
  | |- framed (log_message _ _) => apply framed_emit
  | |- framed (ask _ _) => apply framed_ask
  | |- framed (try_except _ _ _) => apply framed_try_except; [ | intros ? ]
  | |- framed (try_finally _ _ _) => apply framed_try_finally
  | |- framed (match ?x with _ => _ end) => destruct x eqn:?
  | |- framed (if ?x then _ else _) => destruct x eqn:?
  end.

Section Framed.

Context {E : environment}.

#[local] Existing Instance M_ret.
#[local] Existing Instance M_bind.

Lemma read_cancel_flag_framed : framed (read_cancel_flag E).
Proof. unfold read_cancel_flag, cancel. repeat framed_step. Qed.

Lemma read_stderr_framed lines : forall acc, framed (read_stderr E lines acc).
Proof.
  induction lines as [|line rest IH]; intros acc; simpl.
  - apply framed_ret.
  - repeat first [apply read_cancel_flag_framed | apply IH | framed_step].
Qed.

Lemma collect_streams_framed items :
  forall acc, framed (collect_streams E items acc).
Proof.
  induction items as [|stream rest IH]; intros acc; simpl.
  - apply framed_ret.
  - unfold make_stream_info, py_get. repeat first [apply IH | framed_step].
Qed.

Lemma get_subtitle_streams_framed file : framed (get_subtitle_streams E file).
Proof.
  unfold get_subtitle_streams, py_in, py_getitem, py_iter.
  repeat first [apply collect_streams_framed | framed_step].
Qed.

Lemma extract_subtitle_framed file idx lang fmt od ow :
  framed (extract_subtitle E file idx lang fmt od ow).
Proof.
  unfold extract_subtitle.
  repeat first [apply read_stderr_framed | framed_step].
Qed.

Lemma finish_extraction_framed : framed (finish_extraction E).
Proof.
  unfold finish_extraction.
  repeat first [apply read_cancel_flag_framed | framed_step].
Qed.

Lemma scan_loop_framed wl lang remaining :
  forall acc, framed (scan_loop E wl lang remaining acc).
Proof.
  induction remaining as [|file rest IH]; intros acc; simpl.
  - apply framed_ret.
  - unfold update_ui_progress.
    repeat first
      [ apply read_cancel_flag_framed | apply get_subtitle_streams_framed
      | apply IH | framed_step ].
Qed.

Lemma extract_loop_framed lang fmt od items :
  framed (extract_loop E lang fmt od items).
Proof.
  induction items as [|item rest IH]; simpl.
  - apply framed_ret.
  - unfold update_ui_progress.
    repeat first
      [ apply read_cancel_flag_framed | apply extract_subtitle_framed
      | apply IH | framed_step ].
Qed.

Lemma run_extraction_framed dirs lang fmt od :
  framed (run_extraction E dirs lang fmt od).
Proof.
  unfold run_extraction, run_extraction_try.
  repeat first
    [ apply read_cancel_flag_framed | apply finish_extraction_framed
    | apply scan_loop_framed | apply extract_loop_framed | framed_step ].
Qed.

(** X22. A started run owes nothing to what came before it: whatever the
    counters and the flag of the extractor were, and whatever had been
    logged, the run ends with the counters, the flag and the surroundings
    of the same run by a newly constructed extractor; the log widget is
    emptied, then come the opening line and exactly what that run
    observes. *)
Theorem started_run_is_a_fresh_run g confirm s dirs lang fmt od g' :
  fst (start_extraction E g confirm s) = Ok (Started dirs lang fmt od, g') ->
  let fresh := snd (run_extraction E dirs lang fmt od (boot E (wld s))) in
  snd (start_extraction E g confirm s)
  = {| ext := ext fresh; wld := wld fresh;
       out := out s ++
              EvClearLog
              :: EvLog ("Starting extraction for " +:+ pretty (length dirs)
                        +:+ " directories, language: " +:+ lang
                        +:+ ", format: " +:+ fmt)
              :: out fresh |}.
Proof.
  assert (Hrun : forall dirs lang fmt od (message : string) (g1 : gui),
            snd ((emit E EvClearLog;;
                  log_message E message;;
                  reset E;;
                  run_extraction E dirs lang fmt od;;
                  ret E (Started dirs lang fmt od, g1)) s)
            = rebase (out s ++ [EvClearLog; EvLog message])
                (snd (run_extraction E dirs lang fmt od (boot E (wld s))))).
  { clear. intros dirs lang fmt od message g1.
    unfold log_message, reset. run_prims. cbv beta iota.
    cbn [ext wld out]. rewrite <- app_assoc. cbn [app].
    pose proof (run_extraction_framed dirs lang fmt od
                  (out s ++ [EvClearLog; EvLog message])
                  (boot E (wld s))) as Hf.
    pose proof (run_extraction_cases dirs lang fmt od (boot E (wld s)))
      as [Hok _].
    unfold rebase, boot, init_extractor in *. cbn [ext wld out] in Hf.
    rewrite app_nil_r in Hf. rewrite Hf, Hok. reflexivity. }
  unfold start_extraction.
  destruct (selected_subdirs g) as [|d ds] eqn:Hsel;
    [destruct (has_subdir_vars g) eqn:Hhas;
       [destruct (get_selected_subdirs g) as [|d ds] eqn:Hget;
          [|destruct confirm]|]|].
  all: cbv beta iota zeta.
  all: try discriminate.
  all: rewrite ?get_selected_language_set_selected;
    cbn [custom_output_dir_var format_var output_directory selected_subdirs
         set_selected_subdirs].
  all: destruct (String.eqb (get_selected_language E g) EmptyString);
    [discriminate|].
  all: destruct (custom_output_dir_var g);
    [destruct (String.eqb (output_directory g) EmptyString); [discriminate|]|].
  all: match goal with
       | |- context [mbind _ (log_message E ?m)] =>
           match goal with
           | |- context [run_extraction E ?dirs ?l ?f ?o] =>
               match goal with
               | |- context [ret E (_, ?g1)] =>
                   destruct (start_run_ok dirs l f o g1 m s) as [s' Hs']
               end
           end
       end.
  all: rewrite Hrun, Hs'; cbn [fst]; intros [= <- <- <- <- <-].
  all: unfold rebase; rewrite <- app_assoc; reflexivity.
Qed.

End Framed.

(** * Selection, then start *)

Section Pressing.

Context {E : environment}.

#[local] Existing Instance M_ret.
#[local] Existing Instance M_bind.

Implicit Types (s : machine E) (g : gui).

(** X23. Between picking a directory and starting: right after a
    directory is picked, a press on the start button asks for confirmation
    (declining it changes nothing); once a selection has been applied,
    the press proceeds with that selection and the answer to the
    confirmation plays no part. *)
Theorem confirmation_is_asked_until_applied directory g g' s s0 :
  (fst (populate_subdirectories E directory g s) = Ok g' ->
   start_extraction E g' false s0 = (Ok (NotConfirmed, g'), s0))
  /\ (fst (apply_selection E g s) = Ok (None, g') ->
      selected_subdirs g' = get_selected_subdirs g
      /\ selected_subdirs g' <> []
      /\ start_extraction E g' false s0 = start_extraction E g' true s0).
Proof.
  split.
  - destruct (populate_subdirectories_run directory g s)
      as (g1 & -> & Hsub & Hhas & Hsel & Hin & _). cbn [fst]. intros [= <-].
    unfold start_extraction. rewrite Hsel, Hhas.
    destruct (get_selected_subdirs g1) as [|d ds] eqn:Hget; [|reflexivity].
    exfalso. apply (Hin directory). rewrite Hsub. left. reflexivity.
  - unfold apply_selection.
    destruct (get_selected_subdirs g) as [|d ds] eqn:Hget; [discriminate|].
    unfold log_message. run_prims.
    destruct (length (d :: ds) <=? 5)%nat; cbn [fst]; intros [= <-].
    all: cbn [selected_subdirs set_selected_subdirs].
    all: repeat split; try discriminate.
Qed.

(** X24. The check made at start-up: it answers [True] exactly when both
    tools could be run, [ffprobe] being tried only after [ffmpeg]
    succeeded; a [SubprocessError] or a [FileNotFoundError] from either
    makes it log one line and answer [False]; any other exception leaves
    it as it came.  The extractor's attributes are not touched. *)
Theorem check_dependencies_outcome s :
  let first := subprocess_run E ["ffmpeg"; "-version"] (wld s) in
  let second := subprocess_run E ["ffprobe"; "-version"] (snd first) in
  let failure :=
    match fst first, fst second with
    | inl e, _ => Some (e, snd first)
    | inr _, inl e => Some (e, snd second)
    | inr _, inr _ => None
    end in
  check_dependencies E s
  = match failure with
    | None =>
        (Ok true, {| ext := ext s; wld := snd second; out := out s |})
    | Some (e, w) =>
        if dependency_error e
        then (Ok false, {| ext := ext s; wld := w;
                           out := out s ++ [EvLog dependency_message] |})
        else (Raise e, {| ext := ext s; wld := w; out := out s |})
    end.
Proof.
  cbv zeta. unfold check_dependencies, from_run. run_prims.
  destruct (subprocess_run E ["ffmpeg"; "-version"] (wld s)) as [[e|o] w].
  - destruct e; reflexivity.
  - cbn [fst snd wld].
    destruct (subprocess_run E ["ffprobe"; "-version"] w) as [[e|o'] w'].
    + destruct e; reflexivity.
    + reflexivity.
Qed.

End Pressing.

(** * Where the subtitle goes *)

Lemma append_assoc (a b c : string) : (a +:+ b) +:+ c = a +:+ (b +:+ c).
Proof.
  induction a as [|x a IH]; [reflexivity|].
  rewrite !(append_cons x). f_equal. exact IH.
Qed.

Lemma rsplit_sep_no_sep name :
  PyStr.has_sep name = false -> PyStr.rsplit_sep name = (EmptyString, name).
Proof.
  induction name as [|c r IH]; [reflexivity|].
  cbn [PyStr.has_sep PyStr.rsplit_sep]. intros H.
  apply orb_false_iff in H as [Hc Hr]. rewrite (IH Hr), Hc. reflexivity.
Qed.

Lemma rsplit_sep_after_sep a name :
  PyStr.has_sep name = false ->
  PyStr.rsplit_sep (a +:+ "/" +:+ name) = (a +:+ "/", name).
Proof.
  intros Hn. induction a as [|c a IH].
  - rewrite !append_nil_l, append_cons, append_nil_l.
    cbn [PyStr.rsplit_sep]. rewrite (rsplit_sep_no_sep _ Hn). reflexivity.
  - rewrite !(append_cons c a). cbn [PyStr.rsplit_sep]. rewrite IH.
    destruct a; reflexivity.
Qed.

Lemma rstrip_sep_after_sep a : PyStr.rstrip_sep (a +:+ "/") = PyStr.rstrip_sep a.
Proof.
  induction a as [|c a IH]; [reflexivity|].
  rewrite append_cons. cbn [PyStr.rstrip_sep]. rewrite IH. reflexivity.
Qed.

Lemma rstrip_sep_idem a : PyStr.rstrip_sep (PyStr.rstrip_sep a) = PyStr.rstrip_sep a.
Proof.
  induction a as [|c r IH]; [reflexivity|].
  cbn [PyStr.rstrip_sep].
  destruct (PyStr.rstrip_sep r) as [|c' r'] eqn:Hr.
  - destruct (Ascii.eqb c "/") eqn:Hc; [reflexivity|].
    cbn [PyStr.rstrip_sep]. rewrite Hc. reflexivity.
  - change (PyStr.rstrip_sep (String c (String c' r'))) with
      (match PyStr.rstrip_sep (String c' r') with
       | EmptyString =>
           if Ascii.eqb c "/" then EmptyString else String c EmptyString
       | r'' => String c r''
       end).
    rewrite IH. reflexivity.
Qed.

Lemma rstrip_sep_no_trailing a :
  PyStr.endswith (PyStr.rstrip_sep a) "/" = false.
Proof.
  induction a as [|c r IH]; [reflexivity|].
  cbn [PyStr.rstrip_sep].
  destruct (PyStr.rstrip_sep r) as [|c' r'] eqn:Hr.
  - destruct (Ascii.eqb c "/") eqn:Hc; [reflexivity|].
    rewrite endswith_eq. cbn [String.eqb]. rewrite Hc. reflexivity.
  - rewrite endswith_eq. cbn [String.eqb].
    destruct (Ascii.eqb c "/"); exact IH.
Qed.

Lemma only_seps_trailing d :
  PyStr.rstrip_sep d = EmptyString -> d <> EmptyString ->
  PyStr.endswith d "/" = true.
Proof.
  induction d as [|c r IH]; [congruence|]. intros H _.
  cbn [PyStr.rstrip_sep] in H.
  destruct (PyStr.rstrip_sep r) as [|c' r'] eqn:Hr; [|discriminate].
  destruct (Ascii.eqb_spec c "/") as [->|]; [|discriminate].
  rewrite endswith_eq. destruct r as [|c2 r2]; [reflexivity|].
  cbn [String.eqb]. rewrite IH by congruence.
  destruct (Ascii.eqb "/" "/"); reflexivity.
Qed.

(** A directory part as [dirname] returns it, joined with a plain name,
    splits back into the two. *)
Lemma dirname_join_back p name :
  PyStr.has_sep name = false ->
  os_path.dirname (os_path.join (os_path.dirname p) name) = os_path.dirname p
  /\ os_path.basename (os_path.join (os_path.dirname p) name) = name.
Proof.
  intros Hn.
  assert (Hrel : PyStr.startswith name "/" = false).
  { destruct name as [|c r]; [reflexivity|].
    cbn [PyStr.has_sep] in Hn. apply orb_false_iff in Hn as [Hc _].
    cbn [PyStr.startswith]. rewrite Ascii.eqb_sym, Hc. reflexivity. }
  set (d := os_path.dirname p).
  assert (Hd : (PyStr.rstrip_sep d = EmptyString
                /\ (d = EmptyString \/ PyStr.endswith d "/" = true))
               \/ (PyStr.rstrip_sep d = d /\ d <> EmptyString
                   /\ PyStr.endswith d "/" = false)).
  { subst d. unfold os_path.dirname.
    destruct (PyStr.rstrip_sep (fst (PyStr.rsplit_sep p))) as [|c r] eqn:Hs.
    - left. split; [exact Hs|].
      destruct (fst (PyStr.rsplit_sep p)) as [|c r] eqn:Hh; [auto|].
      right. apply only_seps_trailing; [exact Hs|discriminate].
    - right. rewrite <- Hs. rewrite rstrip_sep_idem, rstrip_sep_no_trailing.
      rewrite Hs. repeat split. discriminate. }
  unfold os_path.join. rewrite Hrel.
  destruct Hd as [[Hs [Hd|He]]|(Hs & Hne & He)].
  - rewrite Hd. cbn [String.eqb orb]. rewrite append_nil_l.
    unfold os_path.dirname, os_path.basename.
    rewrite (rsplit_sep_no_sep _ Hn). split; reflexivity.
  - rewrite He, orb_true_r.
    apply endswith_spec in He as [a Ha].
    unfold os_path.dirname, os_path.basename.
    assert (Hsplit : PyStr.rsplit_sep (d +:+ name) = (d, name)).
    { rewrite Ha, append_assoc. rewrite rsplit_sep_after_sep by exact Hn.
      reflexivity. }
    rewrite Hsplit. cbn [fst snd]. rewrite Hs. split; reflexivity.
  - rewrite He, orb_false_r. apply String.eqb_neq in Hne as Hne'. rewrite Hne'.
    unfold os_path.dirname at 1, os_path.basename.
    rewrite rsplit_sep_after_sep by exact Hn. cbn [fst snd].
    rewrite rstrip_sep_after_sep, Hs.
    destruct d; [congruence|]. split; reflexivity.
Qed.

(** X25. Without a custom output directory, for a format of the table and
    a language that holds no ['/'], the subtitle is written beside the
    video: the directory part of the target is the directory part of the
    video (the directory [extract_subtitle] creates first), and its last
    component is the stem, the language and the extension joined by dots. *)
Theorem subtitle_lands_beside_the_video file lang fmt fi :
  SUBTITLE_FORMATS !! fmt = Some fi ->
  PyStr.has_sep lang = false ->
  os_path.dirname (output_file_of file lang None (extension fi))
  = output_dir_of file None
  /\ os_path.basename (output_file_of file lang None (extension fi))
     = video_basename_of file +:+ "." +:+ lang +:+ "." +:+ extension fi.
Proof.
  intros Hfmt Hlang.
  assert (Hext : PyStr.has_sep (extension fi) = false).
  { unfold SUBTITLE_FORMATS in Hfmt.
    repeat (apply lookup_insert_Some in Hfmt as [[_ <-]|[_ Hfmt]];
            [reflexivity|]).
    rewrite lookup_empty in Hfmt. discriminate. }
  unfold output_file_of, output_dir_of. apply dirname_join_back.
  rewrite !has_sep_app, video_basename_no_sep, Hlang, Hext. reflexivity.
Qed.

(** * The further properties on examples *)

Import Cases Shells.

(** X2 on [/v/a.mkv] and English: the one task kept is the English
    stream. *)
Lemma scan_keeps_requested_language_only_witness :
  Forall (fun t => language (stream t) = JStr "eng"
                   /\ In (video_file t) ["/v/a.mkv"])
    [{| video_file := "/v/a.mkv";
        stream := {| index := JInt 2; codec_name := JStr "subrip";
                     language := JStr "eng"; title := JStr EmptyString |} |}].
Proof.
  apply (@scan_keeps_requested_language_only (env calm) ["/v/a.mkv"] "eng"
           (boot (env calm) 0%nat)).
  vm_compute. reflexivity.
Defined.

(** X3 on an entry that has an index only, asked for ["und"]. *)
Lemma untagged_stream_is_und_witness :
  exists info,
    make_stream_info (env calm) (JObj [("index", JInt 4)]) (boot (env calm) 0%nat)
    = (Ok info, boot (env calm) 0%nat)
    /\ language info = JStr "und"
    /\ title info = JStr EmptyString
    /\ index info = dict_get [("index", JInt 4)] "index" JNull
    /\ codec_name info = dict_get [("index", JInt 4)] "codec_name" (JStr "unknown")
    /\ (matching_streams "/v/a.mkv" "und" [info] <> [] <-> "und" = "und").
Proof.
  apply (@untagged_stream_is_und (env calm) [("index", JInt 4)] "/v/a.mkv" "und"
           (boot (env calm) 0%nat)).
  reflexivity.
Defined.

(** X4 on the two streams of [/v/a.mkv]. *)
Lemma probe_describes_each_stream_witness :
  exists infos,
    get_subtitle_streams (env calm) "/v/a.mkv" (boot (env calm) 0%nat)
    = (Ok infos,
       Build_machine (env calm) init_extractor 0%nat
         [EvProbe (ffprobe_cmd "/v/a.mkv")])
    /\ Forall2 described
         [JObj [("index", JInt 2); ("codec_name", JStr "subrip");
                ("tags", JObj [("language", JStr "eng")])];
          JObj [("index", JInt 3); ("codec_name", JStr "subrip");
                ("tags", JObj [("language", JStr "heb")])]]
         infos.
Proof.
  apply (@probe_describes_each_stream (env calm) "/v/a.mkv"
           (boot (env calm) 0%nat) "<eng 2, heb 3>" 0%nat
           [("streams",
             JArr [JObj [("index", JInt 2); ("codec_name", JStr "subrip");
                         ("tags", JObj [("language", JStr "eng")])];
                   JObj [("index", JInt 3); ("codec_name", JStr "subrip");
                         ("tags", JObj [("language", JStr "heb")])]])]).
  - reflexivity.
  - reflexivity.
  - reflexivity.
  - reflexivity.
  - reflexivity.
Defined.

(** X5 on an output that has a [format] key only. *)
Lemma probe_without_streams_key_is_silent_witness :
  let E := with_loads (fun _ => Some format_only) (env calm) in
  get_subtitle_streams E "/v/a.mkv" (boot E 0%nat)
  = (Ok [], Build_machine E init_extractor 0%nat
              [EvProbe (ffprobe_cmd "/v/a.mkv")]).
Proof.
  intros E.
  apply (@probe_without_streams_key_is_silent E "/v/a.mkv" (boot E 0%nat)
           "<eng 2, heb 3>" 0%nat [("format", JObj [])]).
  - reflexivity.
  - reflexivity.
  - reflexivity.
Defined.

(** X6 on a list whose second entry is a string: the first entry is read,
    the second ends the probe, the third is not reached. *)
Lemma probe_raises_on_ill_shaped_stream_witness :
  let E := with_loads (fun _ => Some odd_streams) (env calm) in
  get_subtitle_streams E "/v/a.mkv" (boot E 0%nat)
  = (Raise (AttributeError "'str' object has no attribute 'get'"),
     Build_machine E init_extractor 0%nat [EvProbe (ffprobe_cmd "/v/a.mkv")]).
Proof.
  intros E.
  apply (@probe_raises_on_ill_shaped_stream E "/v/a.mkv" (boot E 0%nat)
           "<eng 2, heb 3>" 0%nat
           [("streams", JArr [JObj [("index", JInt 1)]; JStr "x"; JObj []])]
           [JObj [("index", JInt 1)]] (JStr "x") [JObj []]).
  - reflexivity.
  - reflexivity.
  - reflexivity.
  - reflexivity.
  - reflexivity.
  - reflexivity.
Defined.

(** X8 when the tool ends with status 1 and its own "exists" message:
    the call is counted as skipped and as failed. *)
Lemma completed_tool_outcome_witness :
  let E := env exists_race in
  extract_subtitle E "/v/a.mkv" (JInt 2) "eng" "SRT" None false (boot E 0%nat)
  = (Ok false,
     Build_machine E (incr_failed (incr_skipped init_extractor)) 1%nat
       [EvMakedirs "/v"; EvExists "/v/a.eng.srt";
        EvPopen ["ffmpeg"; "-loglevel"; "warning"; "-n"; "-i"; "/v/a.mkv";
                 "-map"; "0:2"; "-c:s"; "srt"; "/v/a.eng.srt"];
        EvLog "SKIPPED: Subtitle file already exists for a [eng]"]).
Proof.
  intros E.
  rewrite (@completed_tool_outcome E "/v/a.mkv" (JInt 2) "eng" "SRT" None false
             (boot E 0%nat) srt_info 0%nat false 0%nat
             {| stderr := ["Output file exists"]; return_code := 1 |} 0%nat
             ["Output file exists"]
             (Build_machine E init_extractor 1%nat
                [EvMakedirs "/v"; EvExists "/v/a.eng.srt";
                 EvPopen ["ffmpeg"; "-loglevel"; "warning"; "-n"; "-i";
                          "/v/a.mkv"; "-map"; "0:2"; "-c:s"; "srt";
                          "/v/a.eng.srt"]])).
  - vm_compute. reflexivity.
  - vm_compute. reflexivity.
  - reflexivity.
  - reflexivity.
  - reflexivity.
  - reflexivity.
  - vm_compute. reflexivity.
Defined.

(** X9 when [ffmpeg] is not installed: the [FileNotFoundError] leaves
    [extract_subtitle] and no counter moves. *)
Lemma unstarted_tool_outcome_witness :
  let E := env tool_missing in
  extract_subtitle E "/v/a.mkv" (JInt 2) "eng" "SRT" None false (boot E 0%nat)
  = (Raise (FileNotFoundError "[Errno 2] No such file or directory: 'ffmpeg'"),
     Build_machine E init_extractor 0%nat
       [EvMakedirs "/v"; EvExists "/v/a.eng.srt";
        EvPopen ["ffmpeg"; "-loglevel"; "warning"; "-n"; "-i"; "/v/a.mkv";
                 "-map"; "0:2"; "-c:s"; "srt"; "/v/a.eng.srt"]]).
Proof.
  intros E.
  rewrite (@unstarted_tool_outcome E "/v/a.mkv" (JInt 2) "eng" "SRT" None false
             (boot E 0%nat) srt_info 0%nat false 0%nat
             (FileNotFoundError "[Errno 2] No such file or directory: 'ffmpeg'")
             0%nat).
  - vm_compute. reflexivity.
  - vm_compute. reflexivity.
  - reflexivity.
  - reflexivity.
  - reflexivity.
  - reflexivity.
Defined.

(** X10 with the overwrite box ticked and the target already there: the
    tool is run once, with [-y]. *)
Lemma conversion_command_line_witness :
  let E := env overwriting in
  exists cmds,
    popen_cmds (out (snd (extract_subtitle E "/v/a.mkv" (JInt 2) "eng" "SRT"
                            None true (boot E 0%nat))))
    = popen_cmds (out (boot E 0%nat)) ++ cmds
    /\ length cmds = 1.
Proof.
  intros E.
  destruct (@conversion_command_line E "/v/a.mkv" (JInt 2) "eng" "SRT" None true
              (boot E 0%nat)) as (cmds & Hcmds & _ & Hone).
  exists cmds. split; [exact Hcmds|].
  apply (Hone srt_info 0%nat).
  - reflexivity.
  - vm_compute. reflexivity.
  - reflexivity.
Defined.

(** X13 on the calm surroundings. *)
Lemma uncancelled_run_accounts_for_every_task_witness :
  let e' := ext (snd (run_extraction (env calm) ["/v"] "eng" "SRT" None
                        (boot (env calm) 0%nat))) in
  processed_streams e' = total_streams e'
  /\ outcomes e' = total_streams e'
  /\ cancel_flag e' = false.
Proof.
  apply (@uncancelled_run_accounts_for_every_task (env calm) ["/v"] "eng" "SRT"
           None 0%nat).
  - intros w. reflexivity.
  - intros d w. reflexivity.
  - intros cmd w e. simpl. discriminate.
  - intros cmd w proc w' Heq. injection Heq as <- <-. reflexivity.
Defined.

(** X14 when every target is already there. *)
Lemma second_run_skips_everything_witness :
  let s' := snd (run_extraction (env already_there) ["/v"] "eng" "SRT" None
                   (boot (env already_there) 0%nat)) in
  skipped_extractions (ext s') = total_streams (ext s')
  /\ processed_streams (ext s') = total_streams (ext s')
  /\ successful_extractions (ext s') = 0
  /\ failed_extractions (ext s') = 0
  /\ popen_cmds (out s') = [].
Proof.
  apply (@second_run_skips_everything (env already_there) ["/v"] "eng" "SRT"
           None srt_info 0%nat).
  - intros w. reflexivity.
  - intros d w. reflexivity.
  - intros p w. reflexivity.
  - intros w. reflexivity.
  - vm_compute. reflexivity.
Defined.

(** X16 on a directory without videos, and on [/v/s] asked for French. *)
Lemma early_returns_clean_up_twice_witness :
  finish_snapshots
    (out (snd (run_extraction (env calm) ["/nowhere"] "eng" "SRT" None
                 (boot (env calm) 0%nat))))
  = [init_extractor; init_extractor]
  /\ finish_snapshots
       (out (snd (run_extraction (env calm) ["/v/s"] "fre" "SRT" None
                    (boot (env calm) 0%nat))))
     = [init_extractor; init_extractor].
Proof.
  split.
  - rewrite (proj1 (@early_returns_clean_up_twice (env calm) ["/nowhere"] "eng"
                      "SRT" None 0%nat)).
    + reflexivity.
    + reflexivity.
  - rewrite (proj2 (@early_returns_clean_up_twice (env calm) ["/v/s"] "fre"
                      "SRT" None 0%nat) (boot (env calm) 0%nat)
               (snd (scan_loop (env calm) ["/v/s/b.MKV"] "fre" ["/v/s/b.MKV"] []
                       (logged (boot (env calm) 0%nat) "Found 1 video files.")))).
    + vm_compute. reflexivity.
    + vm_compute. discriminate.
    + vm_compute. reflexivity.
Defined.

(** X17 on a field holding [  FrE ]: the language is [fre]. *)
Lemma selected_language_normal_form_witness :
  get_selected_language (env calm) typed = "fre".
Proof.
  destruct (@selected_language_normal_form (env calm) typed eq_refl)
    as [[Hblank _]|(Hlang & _)].
  - vm_compute in Hblank. discriminate.
  - rewrite Hlang. reflexivity.
Defined.

(** X18 on Hebrew. *)
Lemma menu_choice_is_selected_witness :
  get_selected_language (env calm) (on_language_change "heb" fresh) = "heb".
Proof.
  apply (@menu_choice_is_selected (env calm) "heb" "Hebrew" fresh).
  vm_compute. reflexivity.
Defined.

(** X21 on the window as it opens: the press ends in the error. *)
Lemma start_extraction_guards_witness :
  fst (start_extraction (env calm) new_window true (boot (env calm) 0%nat))
  = Raise (AttributeError
             "'SubtitleExtractorGUI' object has no attribute 'subdir_vars'").
Proof.
  apply (proj2 (@start_extraction_guards (env calm) new_window true
                  (boot (env calm) 0%nat))).
  - reflexivity.
  - reflexivity.
Defined.

(** X22 on a press with the two ticked boxes confirmed, after an earlier
    run that had been cancelled. *)
Lemma started_run_is_a_fresh_run_witness :
  let E := env calm in
  let before := Build_machine E (set_cancel_flag true init_extractor) 0%nat
                  [EvLog "Extraction cancelled by user."] in
  let fresh_run := snd (run_extraction E ["/v"; "/v/s"] "eng" "SRT" None
                          (boot E 0%nat)) in
  snd (start_extraction E fresh true before)
  = Build_machine E (ext fresh_run) (wld fresh_run)
      (out before ++
       EvClearLog
       :: EvLog ("Starting extraction for " +:+ pretty (length ["/v"; "/v/s"])
                 +:+ " directories, language: " +:+ "eng"
                 +:+ ", format: " +:+ "SRT")
       :: out fresh_run).
Proof.
  intros E before fresh_run.
  apply (@started_run_is_a_fresh_run E fresh true before ["/v"; "/v/s"] "eng"
           "SRT" None (set_selected_subdirs ["/v"; "/v/s"] fresh)).
  vm_compute. reflexivity.
Defined.

(** X23 on [/v]. *)
Lemma confirmation_is_asked_until_applied_witness :
  let E := env calm in
  let picked := {| has_subdir_vars := true;
                   subdirs := ["/v"; "/v/s"];
                   subdir_vars := [("/v", true); ("/v/s", true)];
                   selected_subdirs := [];
                   language_var := "eng"; custom_language_var := "eng";
                   format_var := "SRT"; custom_output_dir_var := false;
                   output_directory := EmptyString |} in
  let applied := set_selected_subdirs ["/v"; "/v/s"] fresh in
  start_extraction E picked false (boot E 0%nat)
  = (Ok (NotConfirmed, picked), boot E 0%nat)
  /\ selected_subdirs applied = get_selected_subdirs fresh
  /\ selected_subdirs applied <> []
  /\ start_extraction E applied false (boot E 0%nat)
     = start_extraction E applied true (boot E 0%nat).
Proof.
  intros E picked applied. split.
  - apply (proj1 (@confirmation_is_asked_until_applied E "/v" fresh picked
                    (boot E 0%nat) (boot E 0%nat))).
    reflexivity.
  - apply (proj2 (@confirmation_is_asked_until_applied E "/v" fresh applied
                    (boot E 0%nat) (boot E 0%nat))).
    reflexivity.
Defined.

(** X25 on [/v/a.mkv], English, SRT. *)
Lemma subtitle_lands_beside_the_video_witness :
  os_path.dirname (output_file_of "/v/a.mkv" "eng" None (extension srt_info))
  = output_dir_of "/v/a.mkv" None
  /\ os_path.basename (output_file_of "/v/a.mkv" "eng" None (extension srt_info))
     = video_basename_of "/v/a.mkv" +:+ "." +:+ "eng" +:+ "."
       +:+ extension srt_info.
Proof.
  apply (@subtitle_lands_beside_the_video "/v/a.mkv" "eng" "SRT" srt_info).
  - vm_compute. reflexivity.
  - reflexivity.
Defined.

(** X1 on [/v]: [a.mkv] is listed, by its extension [.mkv]. *)
Lemma get_video_files_spec_witness :
  In "/v/a.mkv" (get_video_files (env calm) "/v").
Proof.
  apply (proj2 (@get_video_files_spec (env calm) "/v" "/v/a.mkv")).
  exists "/v", ["s"], ["a.mkv"; "notes.txt"], "a.mkv", "a", ".mkv".
  repeat split.
  - left. reflexivity.
  - left. reflexivity.
  - left. reflexivity.
Defined.

(** X7 on a call that succeeds and on one that raises. *)
Lemma extract_subtitle_result_and_counters_witness :
  (let e' := ext (snd (extract_subtitle (env calm) "/v/a.mkv" (JInt 2) "eng"
                         "SRT" None false (boot (env calm) 0%nat))) in
   failed_extractions e' = failed_extractions (ext (boot (env calm) 0%nat))
   /\ skipped_extractions e' = skipped_extractions (ext (boot (env calm) 0%nat)))
  /\ (let e' := ext (snd (extract_subtitle (env tool_missing) "/v/a.mkv" (JInt 2)
                            "eng" "SRT" None false
                            (boot (env tool_missing) 0%nat))) in
      failed_extractions e'
      = failed_extractions (ext (boot (env tool_missing) 0%nat))
      /\ skipped_extractions e'
         = skipped_extractions (ext (boot (env tool_missing) 0%nat))).
Proof.
  split.
  - destruct (@extract_subtitle_result_and_counters (env calm) "/v/a.mkv"
                (JInt 2) "eng" "SRT" None false (boot (env calm) 0%nat))
      as (_ & _ & _ & Hok & _).
    apply Hok. vm_compute. reflexivity.
  - destruct (@extract_subtitle_result_and_counters (env tool_missing)
                "/v/a.mkv" (JInt 2) "eng" "SRT" None false
                (boot (env tool_missing) 0%nat))
      as (_ & _ & _ & _ & Hraise).
    apply (Hraise (FileNotFoundError
                     "[Errno 2] No such file or directory: 'ffmpeg'")).
    vm_compute. reflexivity.
Defined.

(** X19 on [/v]: the sub-directory [/v/s] is offered and holds a video. *)
Lemma populate_subdirectories_offer_witness :
  get_video_files (env calm) "/v/s" <> [].
Proof.
  destruct (@populate_subdirectories_offer (env calm) "/v" fresh
              (boot (env calm) 0%nat))
    as (g' & offered & _ & _ & Hoffered & _ & _ & _ & _ & Hvideos).
  apply Hvideos. apply Hoffered.
  exists "/v", ["s"], ["a.mkv"; "notes.txt"], "s".
  split; [left; reflexivity|]. split; [left; reflexivity|].
  split; [reflexivity|].
  exists "/v/s", [], ["b.MKV"], "b.MKV", ".mkv".
  split; [left; reflexivity|]. split; [left; reflexivity|].
  split; [left; reflexivity | reflexivity].
Defined.
